(** * LD2412 radar driver: framing, acknowledgement and telemetry capture

    A shallow embedding of the two libraries of the repository:
    the HardwareSerial one ([LD2412.h] with [esp_timer.h], its [LD2412.cpp])
    and the Stream one (the [LD2412.cpp] that adds calibration and
    per-gate entry points, with its header).  Where both sources have the same
    text there is one definition; where they differ the definition takes
    the [variant]. *)

From Stdlib Require Import ZArith Lia Bool.
From stdpp Require Import base list.

Open Scope Z_scope.

(** ** Bytes, arrays and the outside world *)

Inductive variant : Set := HardwareSerialLib | StreamLib.

(** What the program text leaves to the target and to the sensor. *)
Record Env : Type := {
  (** [sizeof(uint8_t* )]: 4 on the ESP32 the first header is written for. *)
  sizeof_ptr : Z;
  (** the byte found [j] places past the end of a command array *)
  past_data : nat -> Z;
  (** the byte found at [FRAME_FOOTER[k]] for [k] outside [0..3] *)
  before_footer : Z -> Z;
  (** the [n]-th reading of the millisecond clock *)
  clock : nat -> Z;
  (** the bytes the sensor delivers up to the [n]-th reading of the clock *)
  arrivals : nat -> list Z
}.

(** The serial line: bytes waiting in the receive queue, bytes written so
    far, and the number of clock readings taken. *)
Record Line : Type := {
  rx : list Z;
  tx : list Z;
  ticks : nat
}.

(** The driver object ([class LD2412]) together with its line. *)
Record LD2412 : Type := {
  serial : Line;
  buffer : list Z;
  serialBuffer : list Z;
  serialLastRead : Z;
  refresh_threshold : Z;
  data_len : list Z
}.

Definition with_serial (s : Line) (st : LD2412) : LD2412 :=
  {| serial := s; buffer := buffer st; serialBuffer := serialBuffer st;
     serialLastRead := serialLastRead st;
     refresh_threshold := refresh_threshold st; data_len := data_len st |}.

Definition with_buffer (b : list Z) (st : LD2412) : LD2412 :=
  {| serial := serial st; buffer := b; serialBuffer := serialBuffer st;
     serialLastRead := serialLastRead st;
     refresh_threshold := refresh_threshold st; data_len := data_len st |}.

Definition with_serialBuffer (b : list Z) (st : LD2412) : LD2412 :=
  {| serial := serial st; buffer := buffer st; serialBuffer := b;
     serialLastRead := serialLastRead st;
     refresh_threshold := refresh_threshold st; data_len := data_len st |}.

Definition with_serialLastRead (t : Z) (st : LD2412) : LD2412 :=
  {| serial := serial st; buffer := buffer st; serialBuffer := serialBuffer st;
     serialLastRead := t;
     refresh_threshold := refresh_threshold st; data_len := data_len st |}.

Definition with_refresh_threshold (t : Z) (st : LD2412) : LD2412 :=
  {| serial := serial st; buffer := buffer st; serialBuffer := serialBuffer st;
     serialLastRead := serialLastRead st;
     refresh_threshold := t; data_len := data_len st |}.

Definition with_data_len (d : list Z) (st : LD2412) : LD2412 :=
  {| serial := serial st; buffer := buffer st; serialBuffer := serialBuffer st;
     serialLastRead := serialLastRead st;
     refresh_threshold := refresh_threshold st; data_len := d |}.

(** [a[k]] for an index inside the array (0 when the list is too short). *)
Definition at_ (a : list Z) (k : Z) : Z := a !!! Z.to_nat k.

(** [(uint8_t) x] *)
Definition u8 (x : Z) : Z := x mod 256.

(** ** Constants of the class *)

Definition ACK_TIMEOUT : Z := 200.
Definition BUFFER_SIZE : Z := 32.
Definition REFRESH_THRESHOLD : Z := 1000.
Definition FRAME_HEADER : list Z := [0xFD; 0xFC; 0xFB; 0xFA].
Definition FRAME_FOOTER : list Z := [0x04; 0x03; 0x02; 0x01].
Definition NULL : Z := 0.

(** ** Transport and clock *)

(** [serial.write(p, n)] *)
Definition serial_write (bytes : list Z) (st : LD2412) : LD2412 :=
  with_serial {| rx := rx (serial st); tx := tx (serial st) ++ bytes;
                 ticks := ticks (serial st) |} st.

(** [serial.available()] *)
Definition serial_available (st : LD2412) : Z := Z.of_nat (length (rx (serial st))).

(** [serial.read()]: the next byte, or -1 when none is waiting. *)
Definition serial_read (st : LD2412) : Z * LD2412 :=
  match rx (serial st) with
  | [] => (-1, st)
  | b :: r => (b, with_serial {| rx := r; tx := tx (serial st);
                                 ticks := ticks (serial st) |} st)
  end.

(** Width of the value [CURRENT_TIME] has: [esp_timer_get_time()/1000ULL]
    is unsigned 64-bit, [millis()] is unsigned 32-bit. *)
Definition time_bits (v : variant) : Z :=
  match v with HardwareSerialLib => 64 | StreamLib => 32 end.

(** Reading the clock; the bytes delivered meanwhile join the queue. *)
Definition CURRENT_TIME (v : variant) (env : Env) (st : LD2412) : Z * LD2412 :=
  let s := serial st in
  (clock env (ticks s) mod 2 ^ time_bits v,
   with_serial {| rx := rx s ++ arrivals env (ticks s); tx := tx s;
                  ticks := S (ticks s) |} st).

(** [(unsigned long) t] and [(long) t] on a 32-bit [long]. *)
Definition to_ulong (t : Z) : Z := t mod 2 ^ 32.
Definition to_long (t : Z) : Z := (t + 2 ^ 31) mod 2 ^ 32 - 2 ^ 31.

(** [CURRENT_TIME - ref] in the unsigned type of [CURRENT_TIME]. *)
Definition elapsed (v : variant) (now ref : Z) : Z := (now - ref) mod 2 ^ time_bits v.

(** ** sendCommand *)

(** [data[j]] through the pointer: inside the array the array's byte, past
    its end whatever lies there. *)
Definition data_at (env : Env) (data : list Z) (j : nat) : Z :=
  match data !! j with
  | Some b => b
  | None => past_data env (j - length data)
  end.

(** [serial.write(data, n)] through the pointer. *)
Definition data_bytes (env : Env) (data : list Z) (n : Z) : list Z :=
  map (data_at env data) (seq 0 (Z.to_nat n)).

Definition sendCommand (env : Env) (data : list Z) (st : LD2412) : LD2412 :=
  (* this->data_len[0] = sizeof(data);   with  uint8_t* data *)
  let st1 := with_data_len (<[0%nat := u8 (sizeof_ptr env)]> (data_len st)) st in
  let st2 := serial_write FRAME_HEADER st1 in
  let st3 := serial_write (take 2 (data_len st2)) st2 in
  let st4 := serial_write (data_bytes env data (at_ (data_len st3) 0)) st3 in
  serial_write FRAME_FOOTER st4.

(** The frame as the specification words it: header, little-endian length
    of [1 + payload.length], command id, payload, footer. *)
Definition buildFrame_spec (commandId : Z) (payload : list Z) : list Z :=
  let n := 1 + Z.of_nat (length payload) in
  FRAME_HEADER ++ [n mod 256; (n / 256) mod 256] ++ [commandId] ++ payload ++ FRAME_FOOTER.

(** ** getAck *)

(** [while (serial.available() && i < BUFFER_SIZE) buffer[i++] = serial.read();]
    over the bytes waiting in the queue. *)
Fixpoint drain_bytes (q : list Z) (buf : list Z) (i : Z) : list Z * list Z * Z :=
  match q with
  | [] => ([], buf, i)
  | b :: r =>
      if i <? BUFFER_SIZE
      then drain_bytes r (<[Z.to_nat i := u8 b]> buf) (i + 1)
      else (q, buf, i)
  end.

Definition drain (st : LD2412) (i : Z) : LD2412 * Z :=
  let '(q, buf, i') := drain_bytes (rx (serial st)) (buffer st) i in
  (with_buffer buf (with_serial {| rx := q; tx := tx (serial st);
                                   ticks := ticks (serial st) |} st), i').

(** [while (CURRENT_TIME - time < ACK_TIMEOUT) <drain>]: one unit of fuel per
    reading of the clock. *)
Fixpoint ack_wait (v : variant) (env : Env) (fuel : nat) (time : Z)
    (st : LD2412) (i : Z) : option (LD2412 * Z) :=
  match fuel with
  | O => None
  | S f =>
      let '(now, st1) := CURRENT_TIME v env st in
      if elapsed v now time <? ACK_TIMEOUT
      then let '(st2, i2) := drain st1 i in ack_wait v env f time st2 i2
      else Some (st1, i)
  end.

(** [FRAME_FOOTER[k]] *)
Definition footer_at (env : Env) (k : Z) : Z :=
  if (0 <=? k) && (k <? 4) then at_ FRAME_FOOTER k else before_footer env k.

(** [len-4<i<len] as C reads it: [(len-4 < i) < len]. *)
Definition chained_lt (len i : Z) : bool := Z.b2z (len - 4 <? i) <? len.

Definition neqb (a b : Z) : bool := negb (a =? b).

(** The body of the validation loop at index [i]; [true] is
    [return nullptr].  HardwareSerial library: six [if] statements. *)
Definition ack_reject_ifs (env : Env) (buf : list Z) (respData len i : Z) : bool :=
  if (i <? 4) && neqb (at_ buf i) (at_ FRAME_HEADER i) then true
  else if (i =? 4) && neqb (at_ buf i) (len - 12) then true
  else if (i =? 5) && neqb (at_ buf i) 0x00 then true
  else if (i =? 6) && neqb (at_ buf i) respData then true
  else if (i =? 7) && neqb (at_ buf i) 0x01 then true
  else if chained_lt len i && neqb (at_ buf i) (footer_at env (i - (len - 4))) then true
  else false.

(** Stream library: one condition joined by [||]. *)
Definition ack_reject_or (env : Env) (buf : list Z) (respData len i : Z) : bool :=
  (i <? 4) && neqb (at_ buf i) (at_ FRAME_HEADER i)
  || (i =? 4) && neqb (at_ buf i) (len - 12)
  || (i =? 5) && neqb (at_ buf i) 0x00
  || (i =? 6) && neqb (at_ buf i) respData
  || (i =? 7) && neqb (at_ buf i) 0x01
  || chained_lt len i && neqb (at_ buf i) (footer_at env (i - (len - 4))).

Definition ack_reject (v : variant) :=
  match v with
  | HardwareSerialLib => ack_reject_ifs
  | StreamLib => ack_reject_or
  end.

(** [for (i=0; i<len; i++) if (...) return nullptr;]: [true] when some index
    is rejected. *)
Definition ack_invalid (v : variant) (env : Env) (buf : list Z) (respData len : Z) : bool :=
  existsb (fun n => ack_reject v env buf respData len (Z.of_nat n)) (seq 0 (Z.to_nat len)).

(** What [getAck] returns: [nullptr] or [this->buffer]. *)
Inductive ackptr : Set := nullptr | this_buffer.

Definition getAck (v : variant) (env : Env) (fuel : nat) (respData len : Z)
    (st : LD2412) : option (ackptr * LD2412) :=
  let '(now, st0) := CURRENT_TIME v env st in
  let time := to_ulong now in
  match ack_wait v env fuel time st0 0 with
  | None => None
  | Some (st1, i) =>
      if (i >=? len) && ack_invalid v env (buffer st1) respData len
      then Some (nullptr, st1)
      else Some (this_buffer, st1)
  end.

(** [ack != nullptr && ack[8] == 0x00], read through the pointer. *)
Definition ack_ok (p : ackptr) (st : LD2412) : bool :=
  match p with
  | nullptr => false
  | this_buffer => at_ (buffer st) 8 =? 0x00
  end.

(** ** Configuration session *)

Definition enableConfig (v : variant) (env : Env) (fuel : nat) (st : LD2412)
    : option (bool * LD2412) :=
  let data := [0xFF; 0x00; 0x01; 0x00] in
  let st1 := sendCommand env data st in
  '(ack, st2) ← getAck v env fuel (at_ data 0) 18 st1;
  Some (ack_ok ack st2, st2).

Definition disableConfig (v : variant) (env : Env) (fuel : nat) (st : LD2412)
    : option (bool * LD2412) :=
  let data := [0xFE; 0x00] in
  let st1 := sendCommand env data st in
  '(ack, st2) ← getAck v env fuel (at_ data 0) 18 st1;
  Some (ack_ok ack st2, st2).

Definition resetDeviceSettings (v : variant) (env : Env) (fuel : nat) (st : LD2412)
    : option (bool * LD2412) :=
  let data := [0xA2; 0x00] in
  '(en, st1) ← enableConfig v env fuel st;
  if negb en then Some (false, st1) else
  let st2 := sendCommand env data st1 in
  '(ack, st3) ← getAck v env fuel (at_ data 0) 14 st2;
  let success := ack_ok ack st3 in
  '(_, st4) ← disableConfig v env fuel st3;
  Some (success, st4).

Definition restartModule (v : variant) (env : Env) (fuel : nat) (st : LD2412)
    : option (bool * LD2412) :=
  let data := [0xA3; 0x00] in
  '(en, st1) ← enableConfig v env fuel st;
  if negb en then Some (false, st1) else
  let st2 := sendCommand env data st1 in
  '(ack, st3) ← getAck v env fuel (at_ data 0) 14 st2;
  let success := ack_ok ack st3 in
  '(_, st4) ← disableConfig v env fuel st3;
  Some (success, st4).

(** Stream library only. *)
Definition enterCalibrationMode (v : variant) (env : Env) (fuel : nat) (st : LD2412)
    : option (bool * LD2412) :=
  let data := [0x0B; 0x00] in
  '(en, st1) ← enableConfig v env fuel st;
  if negb en then Some (false, st1) else
  let st2 := sendCommand env data st1 in
  '(ack, st3) ← getAck v env fuel (at_ data 0) 14 st2;
  let success := ack_ok ack st3 in
  '(_, st4) ← disableConfig v env fuel st3;
  Some (success, st4).

Definition setParamConfig (v : variant) (env : Env) (fuel : nat)
    (min max duration outPinPolarity : Z) (st : LD2412) : option (bool * LD2412) :=
  let data := [0x02; 0x00; min; max; duration; 0x00; outPinPolarity] in
  '(en, st1) ← enableConfig v env fuel st;
  if negb en then Some (false, st1) else
  let st2 := sendCommand env data st1 in
  '(ack, st3) ← getAck v env fuel (at_ data 0) 14 st2;
  let success := ack_ok ack st3 in
  '(_, st4) ← disableConfig v env fuel st3;
  Some (success, st4).

(** [uint8_t data[16] = {c, 0x00}; for (int i=2; i<16; i++) data[i] = f(i);] *)
Definition gate_data (c : Z) (f : Z -> Z) : list Z :=
  [c; 0x00] ++ map (fun n => f (Z.of_nat n)) (seq 2 14).

Definition setMotionSensitivity (v : variant) (env : Env) (fuel : nat)
    (sen : Z) (st : LD2412) : option (bool * LD2412) :=
  let data := gate_data 0x03 (fun _ => sen) in
  '(en, st1) ← enableConfig v env fuel st;
  if negb en then Some (false, st1) else
  let st2 := sendCommand env data st1 in
  '(ack, st3) ← getAck v env fuel (at_ data 0) 14 st2;
  let success := ack_ok ack st3 in
  '(_, st4) ← disableConfig v env fuel st3;
  Some (success, st4).

(** The overload taking [uint8_t sen[14]] (Stream library only). *)
Definition setMotionSensitivity_gates (v : variant) (env : Env) (fuel : nat)
    (sen : list Z) (st : LD2412) : option (bool * LD2412) :=
  let data := gate_data 0x03 (fun i => at_ sen (i - 2)) in
  '(en, st1) ← enableConfig v env fuel st;
  if negb en then Some (false, st1) else
  let st2 := sendCommand env data st1 in
  '(ack, st3) ← getAck v env fuel (at_ data 0) 14 st2;
  let success := ack_ok ack st3 in
  '(_, st4) ← disableConfig v env fuel st3;
  Some (success, st4).

Definition setStaticSensitivity (v : variant) (env : Env) (fuel : nat)
    (sen : Z) (st : LD2412) : option (bool * LD2412) :=
  let data := gate_data 0x04 (fun _ => sen) in
  '(en, st1) ← enableConfig v env fuel st;
  if negb en then Some (false, st1) else
  let st2 := sendCommand env data st1 in
  '(ack, st3) ← getAck v env fuel (at_ data 0) 14 st2;
  let success := ack_ok ack st3 in
  '(_, st4) ← disableConfig v env fuel st3;
  Some (success, st4).

(** The overload taking [uint8_t sen[14]] (Stream library only). *)
Definition setStaticSensitivity_gates (v : variant) (env : Env) (fuel : nat)
    (sen : list Z) (st : LD2412) : option (bool * LD2412) :=
  let data := gate_data 0x04 (fun i => at_ sen (i - 2)) in
  '(en, st1) ← enableConfig v env fuel st;
  if negb en then Some (false, st1) else
  let st2 := sendCommand env data st1 in
  '(ack, st3) ← getAck v env fuel (at_ data 0) 14 st2;
  let success := ack_ok ack st3 in
  '(_, st4) ← disableConfig v env fuel st3;
  Some (success, st4).

(** The [switch (baud)] of [setBaudRate]: the value stored into [data[0]],
    or [None] for [default: return false]. *)
Definition baud_case (baud : Z) : option Z :=
  if baud =? 9600 then Some 0x01
  else if baud =? 19200 then Some 0x02
  else if baud =? 38400 then Some 0x03
  else if baud =? 57600 then Some 0x04
  else if baud =? 115200 then Some 0x05
  else if baud =? 230400 then Some 0x06
  else if baud =? 256000 then Some 0x07
  else if baud =? 460800 then Some 0x08
  else None.

(** [uint8_t data[] = {0x05, 0x00};] after the [switch]. *)
Definition baud_data (baud : Z) : option (list Z) :=
  match baud_case baud with
  | Some c => Some (<[0%nat := c]> [0x05; 0x00])
  | None => None
  end.

Definition setBaudRate (v : variant) (env : Env) (fuel : nat)
    (baud : Z) (st : LD2412) : option (bool * LD2412) :=
  match baud_data baud with
  | None => Some (false, st)
  | Some data =>
      '(en, st1) ← enableConfig v env fuel st;
      if negb en then Some (false, st1) else
      let st2 := sendCommand env data st1 in
      '(ack, st3) ← getAck v env fuel (at_ data 0) 14 st2;
      let success := ack_ok ack st3 in
      '(_, st4) ← disableConfig v env fuel st3;
      Some (success, st4)
  end.

(** [int min = 100; for (int i=10; i<24; i++) if (ack[i] < min) min = ack[i];] *)
Definition gate_minimum (buf : list Z) : Z :=
  foldl (fun min n => if at_ buf (Z.of_nat n) <? min then at_ buf (Z.of_nat n) else min)
        100 (seq 10 14).

(** The getter returning [int]; [return false] in it yields 0. *)
Definition sensitivity_scalar (v : variant) (env : Env) (fuel : nat)
    (cmd : Z) (st : LD2412) : option (Z * LD2412) :=
  let data := [cmd; 0x00] in
  '(en, st1) ← enableConfig v env fuel st;
  if negb en then Some (Z.b2z false, st1) else
  let st2 := sendCommand env data st1 in
  '(ack, st3) ← getAck v env fuel (at_ data 0) 28 st2;
  if ack_ok ack st3 then
    let min := gate_minimum (buffer st3) in
    '(_, st4) ← disableConfig v env fuel st3;
    Some (min, st4)
  else
    '(_, st4) ← disableConfig v env fuel st3;
    Some (-1, st4).

Definition getMotionSensitivity (v : variant) (env : Env) (fuel : nat) (st : LD2412) :=
  sensitivity_scalar v env fuel 0x13 st.

Definition getStaticSensitivity (v : variant) (env : Env) (fuel : nat) (st : LD2412) :=
  sensitivity_scalar v env fuel 0x14 st.

(** ** readSerial *)

Definition misaligned (buf : list Z) (i : Z) : bool :=
  neqb (at_ buf 0) 0xF4
  || (i >? 0) && neqb (at_ buf 1) 0xF3
  || (i >? 1) && neqb (at_ buf 2) 0xF2
  || (i >? 2) && neqb (at_ buf 3) 0xF1.

Definition footer_broken (buf : list Z) (i : Z) : bool :=
  (i >? 16) && neqb (at_ buf 17) 0xF8
  || (i >? 17) && neqb (at_ buf 18) 0xF7
  || (i >? 18) && neqb (at_ buf 19) 0xF6
  || (i >? 19) && neqb (at_ buf 20) 0xF5.

(** One pass through the body of [for (i=0; i<21; i++)]: either the loop goes
    on with the index the increment leaves, or the function returns false. *)
Inductive outcome : Type :=
  | Next (st : LD2412) (i : Z)
  | ReturnFalse (st : LD2412).

Definition for_body (v : variant) (env : Env) (timeRef : Z) (st : LD2412) (i : Z)
    : outcome :=
  let '(b, st1) := serial_read st in
  let st2 := with_buffer (<[Z.to_nat i := u8 b]> (buffer st1)) st1 in
  match v with
  | HardwareSerialLib =>
      (* if (...) i=-1; else if (...) return false; else if (...) return false; *)
      if misaligned (buffer st2) i then Next st2 (-1 + 1)
      else if footer_broken (buffer st2) i then ReturnFalse st2
      else
        let '(now, st3) := CURRENT_TIME v env st2 in
        if elapsed v now timeRef >? ACK_TIMEOUT then ReturnFalse st3
        else Next st3 (i + 1)
  | StreamLib =>
      (* if (...) i=-1;  if (...) return false; else if (...) return false; *)
      let i1 := if misaligned (buffer st2) i then -1 else i in
      if footer_broken (buffer st2) i1 then ReturnFalse st2
      else
        let '(now, st3) := CURRENT_TIME v env st2 in
        if elapsed v now timeRef >? ACK_TIMEOUT then ReturnFalse st3
        else Next st3 (i1 + 1)
  end.

(** The [for] loop from index [i]; [true] when it runs off its end. *)
Fixpoint for_loop (v : variant) (env : Env) (fuel : nat) (timeRef : Z)
    (st : LD2412) (i : Z) : option (bool * LD2412) :=
  match fuel with
  | O => None
  | S f =>
      if i <? 21 then
        match for_body v env timeRef st i with
        | Next st' i' => for_loop v env f timeRef st' i'
        | ReturnFalse st' => Some (false, st')
        end
      else Some (true, st)
  end.

(** [for (i=0; i<21; i++) serialBuffer[i] = buffer[i];] *)
Definition copy_frame (buf sb : list Z) : list Z :=
  foldl (fun acc n => <[n := buf !!! n]> acc) sb (seq 0 21).

Definition threshold (v : variant) (st : LD2412) : Z :=
  match v with
  | HardwareSerialLib => REFRESH_THRESHOLD
  | StreamLib => refresh_threshold st
  end.

(** [serialLastRead != NULL && CURRENT_TIME - serialLastRead < threshold];
    the clock is read only when the first operand holds. *)
Definition recently_read (v : variant) (env : Env) (st : LD2412) : bool * LD2412 :=
  if neqb (serialLastRead st) NULL then
    let '(now, st1) := CURRENT_TIME v env st in
    (elapsed v now (serialLastRead st) <? threshold v st, st1)
  else (false, st).

(** The outer [while (serial.available() && i < 21)] is entered with [i = 0]
    and left after one pass, the [for] loop ending with [i = 21]. *)
Definition readSerial (v : variant) (env : Env) (fuel : nat) (st : LD2412)
    : option (bool * LD2412) :=
  let '(recent, st0) := recently_read v env st in
  if recent then Some (true, st0) else
  let '(now, st1) := CURRENT_TIME v env st0 in
  let timeRef := to_long now in
  '(completed, st2) ←
     (if negb (serial_available st1 =? 0) && (0 <? 21)
      then for_loop v env fuel timeRef st1 0
      else Some (true, st1));
  if negb completed then Some (false, st2) else
  let '(now2, st3) := CURRENT_TIME v env st2 in
  let st4 := with_serialLastRead (to_ulong now2) st3 in
  Some (true, with_serialBuffer (copy_frame (buffer st4) (serialBuffer st4)) st4).

(** ** Telemetry accessors *)

Definition accessor (v : variant) (env : Env) (fuel : nat)
    (field : list Z -> Z) (st : LD2412) : option (Z * LD2412) :=
  '(ok, st1) ← readSerial v env fuel st;
  if negb ok then Some (-1, st1) else Some (field (serialBuffer st1), st1).

Definition targetState (v : variant) (env : Env) (fuel : nat) (st : LD2412) :=
  accessor v env fuel (fun sb => at_ sb 8) st.

(** [serialBuffer[lo] + serialBuffer[hi] << 2] is [(a + b) << 2];
    [serialBuffer[lo] + (serialBuffer[hi] << 8)] in the Stream library. *)
Definition distance_field (v : variant) (lo hi : Z) (sb : list Z) : Z :=
  match v with
  | HardwareSerialLib => Z.shiftl (at_ sb lo + at_ sb hi) 2
  | StreamLib => at_ sb lo + Z.shiftl (at_ sb hi) 8
  end.

Definition movingDistance (v : variant) (env : Env) (fuel : nat) (st : LD2412) :=
  accessor v env fuel (distance_field v 9 10) st.

Definition movingEnergy (v : variant) (env : Env) (fuel : nat) (st : LD2412) :=
  accessor v env fuel (fun sb => at_ sb 11) st.

Definition staticDistance (v : variant) (env : Env) (fuel : nat) (st : LD2412) :=
  accessor v env fuel (distance_field v 12 13) st.

Definition staticEnergy (v : variant) (env : Env) (fuel : nat) (st : LD2412) :=
  accessor v env fuel (fun sb => at_ sb 14) st.

(** ** Refresh threshold (Stream library only) *)

Definition setSerialRefreshThres (refreshTime : Z) (st : LD2412) : LD2412 :=
  with_refresh_threshold refreshTime st.

Definition getSerialRefreshThres (st : LD2412) : Z := refresh_threshold st.

(** ** Sample worlds and the vocabulary of the properties *)

(** A target with 4-byte pointers and a sensor that sends what [script]
    says, one entry per reading of the clock; [esp32] has the clock advance
    100 ms per reading. *)
Definition esp32_clocked (ms_per_reading : Z) (script : list (list Z)) : Env :=
  {| sizeof_ptr := 4;
     past_data := fun _ => 0xEE;
     before_footer := fun _ => 0x00;
     clock := fun n => ms_per_reading * Z.of_nat n;
     arrivals := fun n => nth n script [] |}.

Definition esp32 (script : list (list Z)) : Env := esp32_clocked 100 script.

(** A sensor that never answers. *)
Definition silent : Env := esp32 [].

(** A newly constructed object with zeroed storage. *)
Definition fresh : LD2412 :=
  {| serial := {| rx := []; tx := []; ticks := 0 |};
     buffer := replicate 32 0;
     serialBuffer := replicate 21 0;
     serialLastRead := NULL;
     refresh_threshold := 5;
     data_len := [0x00; 0x00] |}.

(** The acknowledgement test as the specification words it: header at 0-3,
    [len - 12] at 4, 0x00 at 5, the command id at 6, 0x01 at 7, and the footer
    at the last four positions, nothing else looked at. *)
Definition ack_accept_spec (buf : list Z) (respData len : Z) : bool :=
  (at_ buf 0 =? 0xFD) && (at_ buf 1 =? 0xFC) && (at_ buf 2 =? 0xFB) && (at_ buf 3 =? 0xFA)
  && (at_ buf 4 =? len - 12) && (at_ buf 5 =? 0x00)
  && (at_ buf 6 =? respData) && (at_ buf 7 =? 0x01)
  && (at_ buf (len - 4) =? 0x04) && (at_ buf (len - 3) =? 0x03)
  && (at_ buf (len - 2) =? 0x02) && (at_ buf (len - 1) =? 0x01).

(** A 14-byte acknowledgement of command 0xA2 with status byte [status]. *)
Definition ack_A2 (status : Z) : list Z :=
  [0xFD; 0xFC; 0xFB; 0xFA; 0x02; 0x00; 0xA2; 0x01; status; 0x00; 0x04; 0x03; 0x02; 0x01].

(** The bytes delivered at readings [n], [n+1], ..., [n+k-1] of the clock. *)
Definition arrived (env : Env) (n k : nat) : list Z :=
  concat (map (arrivals env) (seq n k)).

(** The clock passes every deadline: whatever the reference time, some
    later reading is no longer within [ACK_TIMEOUT] of it. *)
Definition advancing (v : variant) (env : Env) : Prop :=
  forall (n : nat) (ref : Z),
    exists k : nat, ACK_TIMEOUT <= elapsed v (clock env (n + k) mod 2 ^ time_bits v) ref.

(** A sensor that delivers twenty bytes while [getAck] waits. *)
Definition twenty : list Z := map Z.of_nat (seq 1 20).
Definition chatty : Env := esp32 [[]; twenty].

(** A sensor that delivers forty bytes while [getAck] waits. *)
Definition forty : list Z := map Z.of_nat (seq 1 40).
Definition flooding : Env := esp32 [[]; forty].

(** The operations that answer with a success flag, each run between
    [enableConfig] and [disableConfig]. *)
Inductive operation : Type :=
  | EnterCalibrationMode
  | ResetDeviceSettings
  | RestartModule
  | SetParamConfig (min max duration outPinPolarity : Z)
  | SetMotionSensitivity (sen : Z)
  | SetMotionSensitivityGates (sen : list Z)
  | SetStaticSensitivity (sen : Z)
  | SetStaticSensitivityGates (sen : list Z)
  | SetBaudRate (baud : Z).

Definition run (v : variant) (env : Env) (fuel : nat) (op : operation) (st : LD2412)
    : option (bool * LD2412) :=
  match op with
  | EnterCalibrationMode => enterCalibrationMode v env fuel st
  | ResetDeviceSettings => resetDeviceSettings v env fuel st
  | RestartModule => restartModule v env fuel st
  | SetParamConfig min max duration pol => setParamConfig v env fuel min max duration pol st
  | SetMotionSensitivity sen => setMotionSensitivity v env fuel sen st
  | SetMotionSensitivityGates sen => setMotionSensitivity_gates v env fuel sen st
  | SetStaticSensitivity sen => setStaticSensitivity v env fuel sen st
  | SetStaticSensitivityGates sen => setStaticSensitivity_gates v env fuel sen st
  | SetBaudRate baud => setBaudRate v env fuel baud st
  end.

(** The array the operation hands to [sendCommand] as its own command;
    [None] when [setBaudRate] returns before the session. *)
Definition command_array (op : operation) : option (list Z) :=
  match op with
  | EnterCalibrationMode => Some [0x0B; 0x00]
  | ResetDeviceSettings => Some [0xA2; 0x00]
  | RestartModule => Some [0xA3; 0x00]
  | SetParamConfig min max duration pol => Some [0x02; 0x00; min; max; duration; 0x00; pol]
  | SetMotionSensitivity sen => Some (gate_data 0x03 (fun _ => sen))
  | SetMotionSensitivityGates sen => Some (gate_data 0x03 (fun i => at_ sen (i - 2)))
  | SetStaticSensitivity sen => Some (gate_data 0x04 (fun _ => sen))
  | SetStaticSensitivityGates sen => Some (gate_data 0x04 (fun i => at_ sen (i - 2)))
  | SetBaudRate baud => baud_data baud
  end.

(** Which library has which operation: calibration and the per-gate setters
    are the Stream library's. *)
Definition offered (v : variant) (op : operation) : bool :=
  match v, op with
  | HardwareSerialLib, (EnterCalibrationMode | SetMotionSensitivityGates _
                        | SetStaticSensitivityGates _) => false
  | _, _ => true
  end.

Definition enable_array : list Z := [0xFF; 0x00; 0x01; 0x00].
Definition disable_array : list Z := [0xFE; 0x00].

(** The bytes one call [sendCommand(data)] puts on the line. *)
Definition wire (env : Env) (st : LD2412) (data : list Z) : list Z :=
  FRAME_HEADER ++ [u8 (sizeof_ptr env); at_ (data_len st) 1]
  ++ data_bytes env data (u8 (sizeof_ptr env)) ++ FRAME_FOOTER.

(** An 18-byte reply that fails the header test, and a sensor that sends it
    in answer to [enableConfig]. *)
Definition noise18 : list Z := replicate 18 0x55.
Definition noisy : Env := esp32 [[]; noise18].

(** An object whose capture buffer still holds an acknowledgement with
    status byte 0x02, left there by an earlier exchange. *)
Definition after_exchange : LD2412 :=
  with_buffer (ack_A2 0x02 ++ replicate 18 0x00) fresh.

(** An object whose capture buffer holds 200 at every offset but 8. *)
Definition all_200 : LD2412 :=
  with_buffer (<[8%nat := 0x00]> (replicate 32 200)) fresh.

(** A telemetry frame: moving target at 0x0110 = 272 cm, static target at
    0x0220 = 544 cm; and a sensor that has it ready, on a clock advancing
    1 ms per reading. *)
Definition sample_frame : list Z :=
  [0xF4; 0xF3; 0xF2; 0xF1; 0x0D; 0x00; 0x02; 0xAA; 0x03; 0x10; 0x01; 0x32;
   0x20; 0x02; 0x28; 0x00; 0x00; 0xF8; 0xF7; 0xF6; 0xF5].
Definition streaming : Env := esp32_clocked 1 [sample_frame].

(** The telemetry header and footer, which [readSerial] spells out byte by
    byte. *)
Definition TELEMETRY_HEADER : list Z := [0xF4; 0xF3; 0xF2; 0xF1].
Definition TELEMETRY_FOOTER : list Z := [0xF8; 0xF7; 0xF6; 0xF5].

(** The first [i] bytes of [buf], as far as they lie in the header's four
    places, are the header's. *)
Definition header_prefix (buf : list Z) (i : Z) : Prop :=
  forall j, 0 <= j < i -> j < 4 -> at_ buf j = at_ TELEMETRY_HEADER j.

(** Of the first [i] bytes of [buf], those in the footer's places, 17 to 20,
    are the footer's. *)
Definition footer_prefix (buf : list Z) (i : Z) : Prop :=
  forall j, 17 <= j < i -> j < 21 -> at_ buf j = at_ TELEMETRY_FOOTER (j - 17).

(** Byte [b] is acceptable at place [i] of a frame. *)
Definition fits (i b : Z) : Prop :=
  (i < 4 -> b = at_ TELEMETRY_HEADER i)
  /\ (17 <= i -> b = at_ TELEMETRY_FOOTER (i - 17)).

(** The states [readSerial]'s [for] loop passes through at the head of its
    body, from [st0] at index 0. *)
Inductive capturing (v : variant) (env : Env) (timeRef : Z) (st0 : LD2412)
    : LD2412 -> Z -> Prop :=
  | capturing_start : capturing v env timeRef st0 st0 0
  | capturing_next st i st' i' :
      capturing v env timeRef st0 st i ->
      i < 21 ->
      for_body v env timeRef st i = Next st' i' ->
      capturing v env timeRef st0 st' i'.

(** Two buffers hold the same bytes at the places below [i]. *)
Definition agree (i : Z) (b1 b2 : list Z) : Prop :=
  length b1 = length b2 /\ forall j, 0 <= j < i -> at_ b1 j = at_ b2 j.

(** A clock that stands still and a sensor that sends nothing further. *)
Definition frozen : Env := esp32_clocked 0 [].

(** The thirteen bytes between header and footer of [sample_frame]. *)
Definition sample_payload : list Z := take 13 (drop 4 sample_frame).

(** The state after [readSerial]'s loop has taken byte [b] off the queue,
    leaving [r], and stored it at index [i]; with the clock then read or
    not. *)
Definition stored (env : Env) (st : LD2412) (i b : Z) (r : list Z) (read_clock : bool)
    : LD2412 :=
  with_buffer (<[Z.to_nat i := u8 b]> (buffer st))
    (with_serial
       (if read_clock
        then {| rx := r ++ arrivals env (ticks (serial st)); tx := tx (serial st);
                ticks := S (ticks (serial st)) |}
        else {| rx := r; tx := tx (serial st); ticks := ticks (serial st) |}) st).

(** The object with [bytes] waiting in its receive queue. *)
Definition feed (bytes : list Z) (st : LD2412) : LD2412 :=
  with_serial {| rx := bytes; tx := tx (serial st); ticks := ticks (serial st) |} st.

(** Two runs of the loop end alike: the same verdict, the same line, and when
    the loop ran off its end the same 21 captured bytes. *)
Definition same_capture (r1 r2 : option (bool * LD2412)) : Prop :=
  match r1, r2 with
  | Some (ok1, a), Some (ok2, b) =>
      ok1 = ok2 /\ serial a = serial b
      /\ (ok1 = true -> forall j, 0 <= j < 21 -> at_ (buffer a) j = at_ (buffer b) j)
  | None, None => True
  | _, _ => False
  end.

(** ** The remaining operations *)

(** Stream library only.  [ack] points into [buffer] and [ack[10]] is read
    after [disableConfig()] has run. *)
Definition checkCalibrationMode (v : variant) (env : Env) (fuel : nat) (st : LD2412)
    : option (Z * LD2412) :=
  let data := [0x1B; 0x00] in
  '(en, st1) ← enableConfig v env fuel st;
  if negb en then Some (-1, st1) else
  let st2 := sendCommand env data st1 in
  '(ack, st3) ← getAck v env fuel (at_ data 0) 16 st2;
  if ack_ok ack st3 then
    '(_, st4) ← disableConfig v env fuel st3;
    Some (at_ (buffer st4) 10, st4)
  else
    '(_, st4) ← disableConfig v env fuel st3;
    Some (-1, st4).

(** The object with the arrays its getters hand out: [arrayResponse] of the
    HardwareSerial library and [paramResponse] of the Stream library are the
    field [paramResponse] here; [sensResponse] is the Stream library's. *)
Record Driver : Type := {
  core : LD2412;
  paramResponse : list Z;
  sensResponse : list Z
}.

(** What a getter returning [int*] returns. *)
Inductive response : Set := no_response | the_paramResponse | the_sensResponse.

(** The array a returned pointer refers to, in the object as it is now. *)
Definition deref (d : Driver) (p : response) : option (list Z) :=
  match p with
  | no_response => None
  | the_paramResponse => Some (paramResponse d)
  | the_sensResponse => Some (sensResponse d)
  end.

(** [for (int i=10; i<10+n; i++) dst[i-10] = static_cast<int>(ack[i]);] *)
Definition copy_fields (buf : list Z) (n : nat) (dst : list Z) : list Z :=
  foldl (fun acc k => <[k := at_ buf (10 + Z.of_nat k)]> acc) dst (seq 0 n).

Definition getParamConfig (v : variant) (env : Env) (fuel : nat) (d : Driver)
    : option (response * Driver) :=
  let data := [0x12; 0x00] in
  '(en, st1) ← enableConfig v env fuel (core d);
  if negb en
  then Some (no_response, {| core := st1; paramResponse := paramResponse d;
                             sensResponse := sensResponse d |})
  else
  let st2 := sendCommand env data st1 in
  '(ack, st3) ← getAck v env fuel (at_ data 0) 19 st2;
  if ack_ok ack st3 then
    let filled := copy_fields (buffer st3) 5 (paramResponse d) in
    '(_, st4) ← disableConfig v env fuel st3;
    Some (the_paramResponse, {| core := st4; paramResponse := filled;
                                sensResponse := sensResponse d |})
  else
    '(_, st4) ← disableConfig v env fuel st3;
    Some (no_response, {| core := st4; paramResponse := paramResponse d;
                          sensResponse := sensResponse d |}).

(** The getter returning [int*] (Stream library only). *)
Definition sensitivity_array (v : variant) (env : Env) (fuel : nat)
    (cmd : Z) (d : Driver) : option (response * Driver) :=
  let data := [cmd; 0x00] in
  '(en, st1) ← enableConfig v env fuel (core d);
  if negb en
  then Some (no_response, {| core := st1; paramResponse := paramResponse d;
                             sensResponse := sensResponse d |})
  else
  let st2 := sendCommand env data st1 in
  '(ack, st3) ← getAck v env fuel (at_ data 0) 28 st2;
  if ack_ok ack st3 then
    let filled := copy_fields (buffer st3) 14 (sensResponse d) in
    '(_, st4) ← disableConfig v env fuel st3;
    Some (the_sensResponse, {| core := st4; paramResponse := paramResponse d;
                               sensResponse := filled |})
  else
    '(_, st4) ← disableConfig v env fuel st3;
    Some (no_response, {| core := st4; paramResponse := paramResponse d;
                          sensResponse := sensResponse d |}).

Definition getMotionSensitivity_array (v : variant) (env : Env) (fuel : nat) (d : Driver) :=
  sensitivity_array v env fuel 0x13 d.

Definition getStaticSensitivity_array (v : variant) (env : Env) (fuel : nat) (d : Driver) :=
  sensitivity_array v env fuel 0x14 d.

(** ** Vocabulary and sample worlds of the further properties *)

(** The clock gets past every deadline: whatever the reference time, some
    later reading is more than [ACK_TIMEOUT] after it. *)
Definition overdue (v : variant) (env : Env) : Prop :=
  forall (n : nat) (ref : Z),
    exists k : nat, ACK_TIMEOUT < elapsed v (clock env (n + k) mod 2 ^ time_bits v) ref.

(** A newly constructed object with its arrays. *)
Definition fresh_driver : Driver :=
  {| core := fresh; paramResponse := replicate 5 0; sensResponse := replicate 14 0 |}.

(** A sensor that stays silent while [enableConfig] waits, answers the next
    command with twelve bytes (status 00, then 00 01 00) and the command
    after that with a fourteen-byte acknowledgement of 0xFE. *)
Definition reply_12 (cmd : Z) : list Z :=
  [0xFD; 0xFC; 0xFB; 0xFA; 0x04; 0x00; cmd; 0x01; 0x00; 0x00; 0x01; 0x00].
Definition reply_disable : list Z :=
  [0xFD; 0xFC; 0xFB; 0xFA; 0x02; 0x00; 0xFE; 0x01; 0x00; 0x00; 0x04; 0x03; 0x02; 0x01].
Definition answering (cmd : Z) : Env :=
  esp32 [[]; []; []; []; reply_12 cmd; []; []; reply_disable].

(** A sensor with a frame ready whose third footer byte is wrong, on a clock
    advancing 1 ms per reading. *)
Definition torn_frame : list Z := take 19 sample_frame ++ [0x00; 0xF5].
Definition tearing : Env := esp32_clocked 1 [torn_frame].

(** An object that read [sample_frame] at clock reading 2 and has since
    taken three readings, one byte waiting in its queue. *)
Definition just_read : LD2412 :=
  with_serial {| rx := [0x11]; tx := []; ticks := 3 |}
    (with_serialLastRead 2 (with_serialBuffer sample_frame fresh)).

(** A sensor that answers a first sensitivity query with the gates' motion
    values and a second with their static values, each reply cut short
    before its footer, and acknowledges both disable commands. *)
Definition gates_reply (cmd : Z) (gates : list Z) : list Z :=
  [0xFD; 0xFC; 0xFB; 0xFA; 0x10; 0x00; cmd; 0x01; 0x00; 0x00] ++ gates.
Definition motion_gates : list Z := map Z.of_nat (seq 41 14).
Definition static_gates : list Z := map Z.of_nat (seq 61 14).
Definition surveyed : Env :=
  esp32 [[]; []; []; []; gates_reply 0x13 motion_gates; []; []; reply_disable;
         []; []; []; []; []; gates_reply 0x14 static_gates; []; []; reply_disable].

(** The target with the members laid out as the class declares them:
    [serialBuffer]'s 21 bytes, then [FRAME_HEADER], directly before
    [FRAME_FOOTER]; [sb] is what [serialBuffer] holds. *)
Definition laid_out (sb : list Z) (script : list (list Z)) : Env :=
  {| sizeof_ptr := 4;
     past_data := fun _ => 0xEE;
     before_footer := fun k =>
       if -4 <=? k then at_ FRAME_HEADER (k + 4)
       else if -25 <=? k then at_ sb (k + 25) else 0x00;
     clock := fun n => 100 * Z.of_nat n;
     arrivals := fun n => nth n script [] |}.

(** Eighteen bytes that the validation of [getAck(0xFF, 18)] lets through on
    that target when [serialBuffer] ends with their first ten; and a sensor
    that sends them and twenty-two more while [getAck] waits. *)
Definition echo_18 : list Z :=
  [0xFD; 0xFC; 0xFB; 0xFA; 0x06; 0x00; 0xFF; 0x01; 0x00; 0x00;
   0xFD; 0xFC; 0xFB; 0xFA; 0x04; 0x03; 0x02; 0x01].
Definition cache_18 : list Z := replicate 11 0x00 ++ take 10 echo_18.
Definition excess : list Z := map Z.of_nat (seq 1 22).
Definition overflowing : Env := laid_out cache_18 [[]; echo_18 ++ excess].

(** Readings of the clock the loop makes while it takes F4 F3 00 F1 off the
    queue: the HardwareSerial library reads the clock only on a pass that
    finds the header intact, the Stream library on every pass. *)
Definition readings_out_of_step (v : variant) : nat :=
  match v with HardwareSerialLib => 2%nat | StreamLib => 4%nat end.

(** A sensor that sends [sample_frame] in two parts on a clock advancing
    1 ms per reading: ten bytes at once, the other eleven at the twelfth
    reading after. *)
Definition dribbling : Env :=
  esp32_clocked 1 (take 10 sample_frame :: replicate 11 [] ++ [drop 10 sample_frame]).

(** * Properties *)

(** ** sendCommand *)

Lemma serial_write_tx bytes st :
  tx (serial (serial_write bytes st)) = tx (serial st) ++ bytes.
Proof. reflexivity. Qed.

(** What one call writes, for an object whose [data_len] has its two bytes:
    the length field is the pointer size, as is the number of bytes taken
    from [data]. *)
Lemma sendCommand_tx env data st :
  length (data_len st) = 2%nat ->
  tx (serial (sendCommand env data st))
  = tx (serial st) ++ FRAME_HEADER
    ++ [u8 (sizeof_ptr env); at_ (data_len st) 1]
    ++ data_bytes env data (u8 (sizeof_ptr env)) ++ FRAME_FOOTER.
Proof.
  intros Hlen. destruct st as [s b sb lr rt dl]; simpl in *.
  destruct dl as [|d0 [|d1 [|? ?]]]; try discriminate.
  unfold sendCommand; simpl. rewrite <- !app_assoc. reflexivity.
Qed.

(** C1.  The frame [sendCommand] writes for the sixteen-byte array of
    "set every gate's motion sensitivity to 40" on a target with four-byte
    pointers: the length field is 4 and four bytes of the array follow, not
    the length 16 and the sixteen bytes the claim describes. *)
Theorem sendCommand_motion40_frame :
  let data := gate_data 0x03 (fun _ => 40) in
  tx (serial (sendCommand silent data fresh))
    = [0xFD; 0xFC; 0xFB; 0xFA; 0x04; 0x00; 0x03; 0x00; 40; 40; 0x04; 0x03; 0x02; 0x01]
  /\ length data = 16%nat
  /\ tx (serial (sendCommand silent data fresh)) <> buildFrame_spec 0x03 (tail data).
Proof. vm_compute. repeat split; discriminate. Qed.

(** ** getAck: the waiting loop *)

Lemma drain_bytes_spec q : forall buf i q' buf' i',
  drain_bytes q buf i = (q', buf', i') ->
  0 <= i <= BUFFER_SIZE ->
  length buf = 32%nat ->
  exists taken,
    q = taken ++ q'
    /\ i' = i + Z.of_nat (length taken)
    /\ i' <= BUFFER_SIZE
    /\ length buf' = 32%nat
    /\ take (Z.to_nat i') buf' = take (Z.to_nat i) buf ++ map u8 taken
    /\ (q' <> [] -> i' = BUFFER_SIZE).
Proof.
  induction q as [|b r IH]; intros buf i q' buf' i' H Hi Hlen; simpl in H.
  - inversion H; subst. exists []. simpl. rewrite app_nil_r.
    repeat split; try lia; auto. congruence.
  - destruct (Z.ltb_spec i BUFFER_SIZE) as [Hlt|Hge].
    + apply IH in H; [|lia|by rewrite length_insert].
      destruct H as (taken & -> & -> & Hle & Hl & Htake & Hfull).
      exists (b :: taken). simpl. repeat split; auto; try lia.
      rewrite Htake. replace (Z.to_nat (i + 1)) with (S (Z.to_nat i)) by lia.
      unfold BUFFER_SIZE in *.
      rewrite (take_S_r _ _ (u8 b)).
      * rewrite take_insert_ge by lia. by rewrite <- app_assoc.
      * apply list_lookup_insert_eq. lia.
    + inversion H; subst. exists []. simpl.
      repeat split; auto; try lia. rewrite app_nil_r. reflexivity.
Qed.

Lemma CURRENT_TIME_eq v env st :
  CURRENT_TIME v env st
  = (clock env (ticks (serial st)) mod 2 ^ time_bits v,
     with_serial {| rx := rx (serial st) ++ arrivals env (ticks (serial st));
                    tx := tx (serial st); ticks := S (ticks (serial st)) |} st).
Proof. reflexivity. Qed.

Lemma ack_wait_S v env f time st i :
  ack_wait v env (S f) time st i
  = if elapsed v (clock env (ticks (serial st)) mod 2 ^ time_bits v) time <? ACK_TIMEOUT
    then ack_wait v env f time (drain (CURRENT_TIME v env st).2 i).1
                               (drain (CURRENT_TIME v env st).2 i).2
    else Some ((CURRENT_TIME v env st).2, i).
Proof.
  simpl. destruct (_ <? _); [|reflexivity].
  by destruct (drain _ i).
Qed.

Lemma arrived_S env n k :
  arrived env n (S k) = arrivals env n ++ arrived env (S n) k.
Proof. reflexivity. Qed.

(** What the waiting loop does between entry and exit: it takes bytes from
    the front of what is and becomes available, in order, into
    [buffer[i..]], never past index 31, and leaves the rest in the queue.
    The expected length plays no part in it. *)
Lemma ack_wait_spec v env fuel : forall time st i st' i',
  ack_wait v env fuel time st i = Some (st', i') ->
  0 <= i <= BUFFER_SIZE ->
  length (buffer st) = 32%nat ->
  exists (k : nat) (taken : list Z),
    ticks (serial st') = (ticks (serial st) + S k)%nat
    /\ rx (serial st) ++ arrived env (ticks (serial st)) (S k) = taken ++ rx (serial st')
    /\ i' = i + Z.of_nat (length taken)
    /\ i' <= BUFFER_SIZE
    /\ length (buffer st') = 32%nat
    /\ take (Z.to_nat i') (buffer st') = take (Z.to_nat i) (buffer st) ++ map u8 taken
    /\ tx (serial st') = tx (serial st)
    /\ data_len st' = data_len st
    /\ serialBuffer st' = serialBuffer st.
Proof.
  induction fuel as [|f IH]; intros time st i st' i' H Hi Hlen; [discriminate|].
  rewrite ack_wait_S in H.
  destruct (elapsed v _ time <? ACK_TIMEOUT).
  - unfold drain in H. simpl in H.
    destruct (drain_bytes _ (buffer st) i) as [[q buf] i2] eqn:Hd.
    destruct (drain_bytes_spec _ _ _ _ _ _ Hd Hi Hlen)
      as (t1 & Hq & -> & Hle & Hl & Htake & _).
    apply IH in H; simpl; [|lia|exact Hl].
    simpl in H. destruct H as (k & t2 & Ht & Hrx & -> & Hle' & Hl' & Htake' & Htx & Hdl & Hsb).
    exists (S k), (t1 ++ t2). repeat split; auto.
    + lia.
    + rewrite arrived_S, app_assoc, Hq, <- !app_assoc. f_equal. exact Hrx.
    + rewrite length_app. lia.
    + rewrite Htake', Htake, map_app, app_assoc. reflexivity.
  - inversion H; subst; clear H. exists 0%nat, []. simpl.
    repeat split; auto; try lia.
    + unfold arrived. simpl. by rewrite !app_nil_r.
    + by rewrite app_nil_r.
Qed.

Lemma ack_wait_more_fuel v env fuel : forall time st i r,
  ack_wait v env fuel time st i = Some r ->
  ack_wait v env (S fuel) time st i = Some r.
Proof.
  induction fuel as [|f IH]; intros time st i r H; [discriminate|].
  rewrite ack_wait_S in H. rewrite ack_wait_S.
  destruct (_ <? _); [|exact H]. by apply IH.
Qed.

Lemma ack_wait_fuel_le v env fuel fuel' time st i r :
  (fuel <= fuel')%nat ->
  ack_wait v env fuel time st i = Some r ->
  ack_wait v env fuel' time st i = Some r.
Proof.
  induction 1; auto. intros. apply ack_wait_more_fuel. auto.
Qed.

Lemma drain_ticks st i : ticks (serial (drain st i).1) = ticks (serial st).
Proof.
  unfold drain. destruct (drain_bytes _ _ _) as [[q buf] i']. reflexivity.
Qed.

(** The waiting loop ends once a reading of the clock is past the deadline. *)
Lemma ack_wait_returns v env k : forall time st i,
  ACK_TIMEOUT <= elapsed v (clock env (ticks (serial st) + k) mod 2 ^ time_bits v) time ->
  is_Some (ack_wait v env (S k) time st i).
Proof.
  induction k as [|k IH]; intros time st i Hk; rewrite ack_wait_S.
  - rewrite Nat.add_0_r in Hk.
    destruct (Z.ltb_spec (elapsed v (clock env (ticks (serial st)) mod 2 ^ time_bits v) time)
                ACK_TIMEOUT); [lia|eauto].
  - destruct (_ <? _); [|eauto].
    apply IH. rewrite drain_ticks. simpl.
    replace (S (ticks (serial st) + k))%nat with (ticks (serial st) + S k)%nat by lia.
    exact Hk.
Qed.

(** Bytes that were waiting when the loop last drained the queue stay behind
    only when the buffer is full. *)
Lemma ack_wait_full v env fuel : forall time st i st' i',
  ack_wait v env fuel time st i = Some (st', i') ->
  0 <= i <= BUFFER_SIZE ->
  (rx (serial st) <> [] -> i = BUFFER_SIZE) ->
  exists leftover,
    rx (serial st') = leftover ++ arrivals env (pred (ticks (serial st')))
    /\ (leftover <> [] -> i' = BUFFER_SIZE).
Proof.
  induction fuel as [|f IH]; intros time st i st' i' H Hi Hfull; [discriminate|].
  rewrite ack_wait_S in H. destruct (_ <? _).
  - revert H. unfold drain. simpl.
    destruct (drain_bytes _ (buffer st) i) as [[q buf] i2] eqn:Hd. simpl. intros H.
    assert (Hq : (q <> [] -> i2 = BUFFER_SIZE) /\ 0 <= i2 <= BUFFER_SIZE).
    { clear H IH Hfull. revert Hd Hi. generalize (buffer st).
      generalize (rx (serial st) ++ arrivals env (ticks (serial st))). clear.
      intros l. revert i q buf i2.
      induction l as [|b r IHl]; intros i q buf i2 buf0 Hd Hi; simpl in Hd.
      - inversion Hd; subst. split; [congruence|lia].
      - destruct (Z.ltb_spec i BUFFER_SIZE).
        + apply IHl in Hd; [exact Hd|lia].
        + inversion Hd; subst. split; lia. }
    apply IH in H; simpl; [exact H|tauto|tauto].
  - inversion H; subst; clear H. simpl. eauto.
Qed.

(** ** getAck *)

Lemma getAck_unfold v env fuel respData len st p st' :
  getAck v env fuel respData len st = Some (p, st') ->
  exists i,
    ack_wait v env fuel (to_ulong (CURRENT_TIME v env st).1) (CURRENT_TIME v env st).2 0
      = Some (st', i)
    /\ p = if (i >=? len) && ack_invalid v env (buffer st') respData len
           then nullptr else this_buffer.
Proof.
  unfold getAck. rewrite CURRENT_TIME_eq. simpl.
  destruct (ack_wait _ _ _ _ _ _) as [[st1 i]|]; [|discriminate].
  intros H. exists i.
  destruct ((i >=? len) && ack_invalid v env (buffer st1) respData len) eqn:E;
    inversion H; subst; rewrite E; auto.
Qed.

(** [getAck] writes nothing and touches only [buffer] and the line. *)
Lemma getAck_frame v env fuel respData len st p st' :
  getAck v env fuel respData len st = Some (p, st') ->
  length (buffer st) = 32%nat ->
  tx (serial st') = tx (serial st) /\ data_len st' = data_len st
  /\ serialBuffer st' = serialBuffer st /\ length (buffer st') = 32%nat.
Proof.
  intros H Hlen. apply getAck_unfold in H as (i & Hw & _).
  apply ack_wait_spec in Hw; [|unfold BUFFER_SIZE; lia|exact Hlen].
  destruct Hw as (k & taken & _ & _ & _ & _ & Hl & _ & Htx & Hdl & Hsb).
  simpl in *. auto.
Qed.

Lemma getAck_fuel_le v env fuel fuel' respData len st r :
  (fuel <= fuel')%nat ->
  getAck v env fuel respData len st = Some r ->
  getAck v env fuel' respData len st = Some r.
Proof.
  intros Hle. unfold getAck. destruct (CURRENT_TIME v env st) as [now st0].
  destruct (ack_wait v env fuel _ st0 0) as [[st1 i]|] eqn:Hw; [|discriminate].
  by rewrite (ack_wait_fuel_le _ _ _ _ _ _ _ _ Hle Hw).
Qed.

(** With a clock that passes every deadline [getAck] returns. *)
Lemma getAck_returns v env respData len st :
  advancing v env -> exists fuel, is_Some (getAck v env fuel respData len st).
Proof.
  intros Hadv. unfold getAck. rewrite CURRENT_TIME_eq.
  match goal with |- context [ack_wait v env _ ?t ?s 0] =>
    destruct (Hadv (ticks (serial s)) t) as [k Hk];
    destruct (ack_wait_returns v env k t s 0 Hk) as [[st1 i] Hw] end.
  exists (S k). rewrite Hw. destruct (_ && _); eauto.
Qed.

(** A short read is not a failure: with fewer than [len] bytes captured the
    validation is skipped and the buffer is returned. *)
Lemma getAck_short_read v env fuel respData len st st' i :
  ack_wait v env fuel (to_ulong (CURRENT_TIME v env st).1) (CURRENT_TIME v env st).2 0
    = Some (st', i) ->
  i < len ->
  getAck v env fuel respData len st = Some (this_buffer, st').
Proof.
  intros Hw Hi. unfold getAck. rewrite CURRENT_TIME_eq in *. simpl in *. rewrite Hw.
  destruct (Z.geb_spec i len); [lia|reflexivity].
Qed.

(** C2.  A sensor that never answers: the [getAck] that [enableConfig]
    issues for its 18-byte acknowledgement captures nothing, times out, and
    returns the capture buffer, not [nullptr]; [enableConfig] then reads the
    stale status byte and reports success. *)
Theorem getAck_timeout_returns_buffer :
  (fst <$> getAck HardwareSerialLib silent 4 0xFF 18 fresh) = Some this_buffer
  /\ (fst <$> getAck StreamLib silent 4 0xFF 18 fresh) = Some this_buffer
  /\ (fst <$> enableConfig HardwareSerialLib silent 4 fresh) = Some true
  /\ (fst <$> enableConfig StreamLib silent 4 fresh) = Some true.
Proof. vm_compute. auto. Qed.

(** The two libraries word the test differently and mean the same. *)
Lemma ack_reject_same env buf respData len i :
  ack_reject_ifs env buf respData len i = ack_reject_or env buf respData len i.
Proof.
  unfold ack_reject_ifs, ack_reject_or.
  repeat match goal with |- context [if ?c then true else _] => destruct c; simpl; auto end.
Qed.

(** The footer comparison is made at every index: [len-4<i<len] holds for
    every [i] once [len] is at least 2. *)
Lemma chained_lt_always len i : 2 <= len -> chained_lt len i = true.
Proof.
  intros H. unfold chained_lt. destruct (len - 4 <? i); simpl; lia.
Qed.

(** When the object is laid out as declared, [FRAME_HEADER] directly before
    [FRAME_FOOTER], [FRAME_FOOTER[-3]] is 0xFC; offset 7 of a 14-byte
    acknowledgement would then have to be 0x01 and 0xFC at once, so no capture
    of 14 bytes or more passes the test for [len] = 14. *)
Lemma ack_of_14_never_valid v env buf respData :
  before_footer env (-3) = 0xFC ->
  ack_invalid v env buf respData 14 = true.
Proof.
  intros Hlay. unfold ack_invalid. apply existsb_exists. exists 7%nat. split.
  - apply in_seq. simpl. lia.
  - assert (ack_reject_or env buf respData 14 7 = true) as Hor.
    { unfold ack_reject_or, footer_at, chained_lt, neqb. simpl.
      change (7 - (14 - 4)) with (-3). rewrite Hlay.
      destruct (Z.eqb_spec (at_ buf 7) 1) as [->|]; reflexivity. }
    destruct v; simpl; [rewrite ack_reject_same|]; exact Hor.
Qed.

(** C3.  Two 14-byte acknowledgements of command 0xA2 that differ only in
    the status byte at offset 8 both pass the test the claim describes, yet
    whatever memory lies before [FRAME_FOOTER] the code rejects at least one
    of them: the footer comparison runs at offset 8 as well, so the status
    byte is constrained. *)
Theorem ack_check_constrains_status_byte :
  forall (v : variant) (env : Env),
    ack_accept_spec (ack_A2 0x00) 0xA2 14 = true
    /\ ack_accept_spec (ack_A2 0x01) 0xA2 14 = true
    /\ (ack_invalid v env (ack_A2 0x00) 0xA2 14 = true
        \/ ack_invalid v env (ack_A2 0x01) 0xA2 14 = true).
Proof.
  intros v env. split; [reflexivity|]. split; [reflexivity|].
  assert (Hrej : forall s, before_footer env (-2) <> s ->
            ack_invalid v env (ack_A2 s) 0xA2 14 = true).
  { intros s Hs. unfold ack_invalid. apply existsb_exists. exists 8%nat. split.
    - apply in_seq. simpl. lia.
    - assert (ack_reject_or env (ack_A2 s) 0xA2 14 8 = true) as Hor.
      { unfold ack_reject_or, footer_at, chained_lt, neqb, at_. simpl.
        change (8 - (14 - 4)) with (-2).
        destruct (Z.eqb_spec s (before_footer env (-2))); [congruence|reflexivity]. }
      destruct v; simpl; [rewrite ack_reject_same|]; exact Hor. }
  destruct (Z.eq_dec (before_footer env (-2)) 0x00) as [E|E].
  - right. apply Hrej. rewrite E. discriminate.
  - left. apply Hrej. exact E.
Qed.

Lemma drain_bytes_tail q : forall buf i q' buf' i',
  drain_bytes q buf i = (q', buf', i') ->
  0 <= i ->
  i <= i' /\ forall j, i' <= j -> at_ buf' j = at_ buf j.
Proof.
  induction q as [|b r IH]; intros buf i q' buf' i' H Hi; simpl in H.
  - inversion H; subst. split; [lia|auto].
  - destruct (i <? BUFFER_SIZE).
    + apply IH in H; [|lia]. destruct H as [Hle Hj]. split; [lia|].
      intros j Hij. rewrite Hj by lia. unfold at_.
      apply list_lookup_total_insert_ne. lia.
    + inversion H; subst. split; [lia|auto].
Qed.

Lemma ack_wait_tail v env fuel : forall time st i st' i',
  ack_wait v env fuel time st i = Some (st', i') ->
  0 <= i ->
  i <= i'
  /\ (forall j, i' <= j -> at_ (buffer st') j = at_ (buffer st) j)
  /\ serialLastRead st' = serialLastRead st
  /\ refresh_threshold st' = refresh_threshold st.
Proof.
  induction fuel as [|f IH]; intros time st i st' i' H Hi; [discriminate|].
  rewrite ack_wait_S in H. destruct (_ <? _).
  - revert H. unfold drain. simpl.
    destruct (drain_bytes _ (buffer st) i) as [[q buf] i2] eqn:Hd. simpl. intros H.
    apply drain_bytes_tail in Hd as [Hle Hj]; [|exact Hi].
    apply IH in H; [|lia]. simpl in H. destruct H as (Hle' & Hj' & Hl & Hr).
    split; [lia|]. split; [|auto]. intros j Hij. rewrite Hj' by lia. apply Hj. lia.
  - inversion H; subst. simpl. split; [lia|auto].
Qed.

Lemma take_min_length (w : list Z) (m : nat) :
  take (length w `min` m) w = take m w.
Proof.
  destruct (decide (length w <= m)%nat) as [Hle|Hgt].
  - rewrite Nat.min_l by exact Hle. by rewrite !take_ge by lia.
  - by rewrite Nat.min_r by lia.
Qed.

(** One drain takes as many of the waiting bytes as fit. *)
Lemma drain_bytes_exact q buf i q' buf' i' :
  drain_bytes q buf i = (q', buf', i') ->
  0 <= i <= BUFFER_SIZE ->
  length buf = 32%nat ->
  let n := (length q `min` Z.to_nat (BUFFER_SIZE - i))%nat in
  q' = drop n q /\ i' = i + Z.of_nat n /\ length buf' = 32%nat
  /\ take (Z.to_nat i') buf' = take (Z.to_nat i) buf ++ map u8 (take n q).
Proof.
  intros H Hi Hlen. apply drain_bytes_spec in H; [|exact Hi|exact Hlen].
  destruct H as (taken & Hq & Hi' & Hle & Hl & Htake & Hfull).
  assert (Hn : (length q `min` Z.to_nat (BUFFER_SIZE - i))%nat = length taken).
  { subst q. rewrite length_app. destruct q' as [|x q'].
    - simpl. lia.
    - specialize (Hfull ltac:(discriminate)). simpl. lia. }
  cbv zeta. rewrite Hn. subst q.
  rewrite drop_app_length, take_app_length. auto.
Qed.

(** The waiting loop, exactly: it makes [k] passes, [k] being the first
    reading of the clock at which the deadline is reached; at each pass it
    takes whatever is waiting and fits; the reading that ends it lets that
    reading's arrivals into the queue and takes nothing. *)
Lemma ack_wait_exact v env fuel : forall time st i st' i',
  ack_wait v env fuel time st i = Some (st', i') ->
  0 <= i <= BUFFER_SIZE ->
  length (buffer st) = 32%nat ->
  exists k : nat,
    (forall j, (j < k)%nat ->
       elapsed v (clock env (ticks (serial st) + j) mod 2 ^ time_bits v) time < ACK_TIMEOUT)
    /\ ACK_TIMEOUT <= elapsed v (clock env (ticks (serial st) + k) mod 2 ^ time_bits v) time
    /\ ticks (serial st') = (ticks (serial st) + S k)%nat
    /\ let waiting := rx (serial st) ++ arrived env (ticks (serial st)) k in
       let n := match k with
                | O => O
                | S _ => (length waiting `min` Z.to_nat (BUFFER_SIZE - i))%nat
                end in
       i' = i + Z.of_nat n
       /\ rx (serial st') = drop n waiting ++ arrivals env (ticks (serial st) + k)
       /\ take (Z.to_nat i') (buffer st')
          = take (Z.to_nat i) (buffer st) ++ map u8 (take n waiting).
Proof.
  induction fuel as [|f IH]; intros time st i st' i' H Hi Hlen; [discriminate|].
  rewrite ack_wait_S in H.
  destruct (Z.ltb_spec (elapsed v (clock env (ticks (serial st)) mod 2 ^ time_bits v) time)
              ACK_TIMEOUT) as [Hlt|Hge].
  - revert H. unfold drain. simpl.
    destruct (drain_bytes _ (buffer st) i) as [[q2 buf2] i2] eqn:Hd. simpl. intros H.
    apply drain_bytes_exact in Hd; [|exact Hi|exact Hlen].
    cbv zeta in Hd. destruct Hd as (Hq2 & Hi2 & Hl2 & Htk2).
    set (q1 := rx (serial st) ++ arrivals env (ticks (serial st))) in *.
    set (n1 := (length q1 `min` Z.to_nat (BUFFER_SIZE - i))%nat) in *.
    apply IH in H; [|unfold BUFFER_SIZE in *; lia|exact Hl2].
    destruct H as (k & Hbefore & Hat & Ht & Hrest). simpl in Hbefore, Hat, Ht, Hrest.
    exists (S k). split; [|split; [|split]].
    + intros j Hj. destruct j as [|j]; [by rewrite Nat.add_0_r|].
      replace (ticks (serial st) + S j)%nat with (S (ticks (serial st) + j)) by lia.
      apply Hbefore. lia.
    + replace (ticks (serial st) + S k)%nat with (S (ticks (serial st) + k)) by lia.
      exact Hat.
    + lia.
    + cbv zeta in Hrest |- *. destruct Hrest as (Hi' & Hrx & Htk).
      rewrite arrived_S, app_assoc. fold q1.
      set (A := arrived env (S (ticks (serial st))) k) in *.
      set (n' := match k with
                 | O => O
                 | S _ => (length (q2 ++ A) `min` Z.to_nat (BUFFER_SIZE - i2))%nat
                 end) in *.
      assert (Hn1 : (n1 <= length q1)%nat) by (unfold n1; lia).
      assert (Hn : (length (q1 ++ A) `min` Z.to_nat (BUFFER_SIZE - i))%nat = (n1 + n')%nat).
      { subst n'. destruct k as [|k].
        - subst A. unfold arrived. simpl. rewrite app_nil_r. unfold n1. lia.
        - rewrite Hq2, !length_app, length_drop. unfold n1, BUFFER_SIZE in *. lia. }
      rewrite Hn.
      assert (Hdrop : drop n1 (q1 ++ A) = q2 ++ A)
        by (rewrite drop_app_le by exact Hn1; by rewrite Hq2).
      split; [lia|]. split.
      * rewrite Hrx, <- drop_drop, Hdrop. do 2 f_equal. lia.
      * rewrite Htk, Htk2, <- app_assoc, <- map_app. do 2 f_equal.
        rewrite <- take_take_drop, Hdrop. f_equal.
        by rewrite take_app_le by exact Hn1.
  - inversion H; subst. exists 0%nat. simpl. rewrite Nat.add_0_r.
    split; [intros j Hj; lia|]. split; [exact Hge|]. split; [lia|].
    unfold arrived. simpl. rewrite !app_nil_r, Z.add_0_r. auto.
Qed.

(** C5, as stated, fails.  Twenty bytes arrive while [getAck] waits for a
    14-byte acknowledgement: all twenty are captured, none is left in the
    queue.  Forty bytes arrive while the [getAck(0xFF, 18)] of
    [enableConfig] waits, the first eighteen a capture the validation lets
    through: thirty-two are captured, eight stay unread, and the result is
    the buffer, not a failure. *)
Lemma getAck_captures_past_expected_length :
  ((fun r => (take 20 (buffer r.2), rx (serial r.2)))
     <$> getAck HardwareSerialLib chatty 4 0xA2 14 fresh) = Some (twenty, [])
  /\ ((fun r => (take 20 (buffer r.2), rx (serial r.2)))
     <$> getAck StreamLib chatty 4 0xA2 14 fresh) = Some (twenty, [])
  /\ (14 < length twenty)%nat
  /\ (32 < length (echo_18 ++ excess))%nat
  /\ ((fun r => (r.1, take 32 (buffer r.2), rx (serial r.2)))
     <$> getAck HardwareSerialLib overflowing 4 0xFF 18 (with_serialBuffer cache_18 fresh))
     = Some (this_buffer, take 32 (echo_18 ++ excess), drop 32 (echo_18 ++ excess))
  /\ ((fun r => (r.1, take 32 (buffer r.2), rx (serial r.2)))
     <$> getAck StreamLib overflowing 4 0xFF 18 (with_serialBuffer cache_18 fresh))
     = Some (this_buffer, take 32 (echo_18 ++ excess), drop 32 (echo_18 ++ excess)).
Proof. vm_compute. repeat split; lia. Qed.

(** C5, amended.  Whenever [getAck] returns, the loop has made as many
    passes as there were readings of the clock before the deadline was
    reached, and what it captured is the first 32 of all the bytes that were
    waiting or arrived by the last of those passes (nothing when there was no
    pass): they are at the front of [buffer] in order, the places behind them
    and the array's size are as before, and every other byte is left in the
    queue in order, followed by what arrived at the reading that ended the
    loop.  The result is [nullptr] exactly when at least [len] bytes were
    captured and the validation rejects them, so bytes left unread cause no
    failure; and the capture is the same whatever command id and length are
    expected. *)
Theorem getAck_capture_bounded v env fuel respData len st p st' :
  length (buffer st) = 32%nat ->
  getAck v env fuel respData len st = Some (p, st') ->
  exists passes : nat,
    let t0 := ticks (serial st) in
    let time := to_ulong (clock env t0 mod 2 ^ time_bits v) in
    let waiting := rx (serial st) ++ arrived env t0 (S passes) in
    let taken := match passes with O => [] | S _ => take 32 waiting end in
    (forall j, (j < passes)%nat ->
       elapsed v (clock env (S t0 + j) mod 2 ^ time_bits v) time < ACK_TIMEOUT)
    /\ ACK_TIMEOUT <= elapsed v (clock env (S t0 + passes) mod 2 ^ time_bits v) time
    /\ ticks (serial st') = (S t0 + S passes)%nat
    /\ rx (serial st') = drop (length taken) waiting ++ arrivals env (S t0 + passes)
    /\ take (length taken) (buffer st') = map u8 taken
    /\ (forall j, Z.of_nat (length taken) <= j -> at_ (buffer st') j = at_ (buffer st) j)
    /\ length (buffer st') = 32%nat
    /\ (p = nullptr <->
        len <= Z.of_nat (length taken)
        /\ ack_invalid v env (buffer st') respData len = true)
    /\ (forall respData2 len2,
          exists p2, getAck v env fuel respData2 len2 st = Some (p2, st')).
Proof.
  intros Hlen H. apply getAck_unfold in H as (i & Hw & Hp).
  rewrite CURRENT_TIME_eq in Hw. cbn [fst snd] in Hw.
  set (st0 := with_serial _ st) in Hw.
  assert (Ht0 : ticks (serial st0) = S (ticks (serial st))) by reflexivity.
  assert (Hrx0 : rx (serial st0) = rx (serial st) ++ arrivals env (ticks (serial st)))
    by reflexivity.
  assert (Hb0 : buffer st0 = buffer st) by reflexivity.
  pose proof Hw as Hspec.
  apply ack_wait_spec in Hspec; [|unfold BUFFER_SIZE; lia|exact Hlen].
  destruct Hspec as (_ & _ & _ & _ & _ & _ & Hl & _).
  pose proof Hw as Htail.
  apply ack_wait_tail in Htail as (_ & Htail & _); [|lia].
  pose proof Hw as Hex.
  apply ack_wait_exact in Hex; [|unfold BUFFER_SIZE; lia|exact Hlen].
  destruct Hex as (k & Hbefore & Hat & Ht & Hex). cbv zeta in Hex.
  rewrite Ht0 in Hbefore, Hat, Ht. rewrite Ht0, Hrx0, Hb0, <- app_assoc in Hex.
  rewrite <- arrived_S in Hex. rewrite Hb0 in Htail.
  destruct Hex as (Hi & Hrx & Htake).
  set (waiting := rx (serial st) ++ arrived env (ticks (serial st)) (S k)) in *.
  exists k. cbv zeta. fold waiting.
  set (taken := match k with O => [] | S _ => take 32 waiting end).
  assert (Hn : match k with
               | O => O
               | S _ => (length waiting `min` Z.to_nat (BUFFER_SIZE - 0))%nat
               end = length taken).
  { unfold taken. destruct k; [reflexivity|]. rewrite length_take.
    unfold BUFFER_SIZE. lia. }
  assert (Htk : take (length taken) waiting = taken).
  { unfold taken. destruct k; [reflexivity|]. rewrite length_take.
    rewrite Nat.min_comm. apply take_min_length. }
  rewrite Hn in Hi, Hrx, Htake. rewrite Htk in Htake.
  rewrite Z.add_0_l in Hi. subst i. rewrite Nat2Z.id in Htake.
  change (take (Z.to_nat 0) (buffer st)) with (@nil Z) in Htake.
  split; [exact Hbefore|]. split; [exact Hat|]. split; [lia|].
  split; [exact Hrx|]. split; [exact Htake|]. split; [exact Htail|].
  split; [exact Hl|]. split.
  - destruct (Z.geb_spec (Z.of_nat (length taken)) len) as [Hge|Hlt]; simpl in Hp.
    + destruct (ack_invalid _ _ _ _ _); subst p.
      * split; [intros _; split; [lia|reflexivity]|reflexivity].
      * split; [discriminate|intros [_ ?]; discriminate].
    + subst p. split; [discriminate|]. intros [? _]. lia.
  - intros respData2 len2. unfold getAck. rewrite CURRENT_TIME_eq.
    fold st0. rewrite Hw.
    destruct ((Z.of_nat (length taken) >=? len2)
              && ack_invalid v env (buffer st') respData2 len2); eauto.
Qed.

Lemma getAck_capture_bounded_witness :
  exists p st',
    getAck HardwareSerialLib flooding 4 0xA2 14 fresh = Some (p, st')
    /\ exists passes : nat,
    let t0 := ticks (serial fresh) in
    let time := to_ulong (clock flooding t0 mod 2 ^ time_bits HardwareSerialLib) in
    let waiting := rx (serial fresh) ++ arrived flooding t0 (S passes) in
    let taken := match passes with O => [] | S _ => take 32 waiting end in
    (forall j, (j < passes)%nat ->
       elapsed HardwareSerialLib
         (clock flooding (S t0 + j) mod 2 ^ time_bits HardwareSerialLib) time < ACK_TIMEOUT)
    /\ ACK_TIMEOUT <= elapsed HardwareSerialLib
         (clock flooding (S t0 + passes) mod 2 ^ time_bits HardwareSerialLib) time
    /\ ticks (serial st') = (S t0 + S passes)%nat
    /\ rx (serial st') = drop (length taken) waiting ++ arrivals flooding (S t0 + passes)
    /\ take (length taken) (buffer st') = map u8 taken
    /\ (forall j, Z.of_nat (length taken) <= j -> at_ (buffer st') j = at_ (buffer fresh) j)
    /\ length (buffer st') = 32%nat
    /\ (p = nullptr <->
        14 <= Z.of_nat (length taken)
        /\ ack_invalid HardwareSerialLib flooding (buffer st') 0xA2 14 = true)
    /\ (forall respData2 len2,
          exists p2, getAck HardwareSerialLib flooding 4 respData2 len2 fresh = Some (p2, st')).
Proof.
  eexists _, _. split; [vm_compute; reflexivity|].
  apply (getAck_capture_bounded HardwareSerialLib flooding 4 0xA2 14 fresh);
    [reflexivity | vm_compute; reflexivity].
Defined.

(** ** Configuration session *)

Lemma sendCommand_frame env data st :
  length (data_len st) = 2%nat ->
  buffer (sendCommand env data st) = buffer st
  /\ length (data_len (sendCommand env data st)) = 2%nat
  /\ at_ (data_len (sendCommand env data st)) 1 = at_ (data_len st) 1.
Proof.
  intros H. destruct st as [s b sb lr rt dl]; simpl in *.
  destruct dl as [|d0 [|d1 [|? ?]]]; try discriminate. auto.
Qed.

(** One exchange: a command written, its acknowledgement awaited. *)
Lemma exchange_frame v env fuel data respData len st ack st' :
  length (buffer st) = 32%nat -> length (data_len st) = 2%nat ->
  getAck v env fuel respData len (sendCommand env data st) = Some (ack, st') ->
  tx (serial st') = tx (serial st) ++ wire env st data
  /\ length (buffer st') = 32%nat /\ length (data_len st') = 2%nat
  /\ at_ (data_len st') 1 = at_ (data_len st) 1.
Proof.
  intros Hb Hd H. destruct (sendCommand_frame env data st Hd) as (Hb' & Hd' & H1).
  apply getAck_frame in H; [|by rewrite Hb'].
  destruct H as (Htx & Hdl & _ & Hlen).
  rewrite Htx, Hdl, sendCommand_tx by exact Hd. auto.
Qed.

Lemma enableConfig_unfold v env fuel st :
  enableConfig v env fuel st
  = '(ack, st2) ← getAck v env fuel 0xFF 18 (sendCommand env enable_array st);
    Some (ack_ok ack st2, st2).
Proof. reflexivity. Qed.

Lemma disableConfig_unfold v env fuel st :
  disableConfig v env fuel st
  = '(ack, st2) ← getAck v env fuel 0xFE 18 (sendCommand env disable_array st);
    Some (ack_ok ack st2, st2).
Proof. reflexivity. Qed.

Lemma enableConfig_frame v env fuel st en st1 :
  length (buffer st) = 32%nat -> length (data_len st) = 2%nat ->
  enableConfig v env fuel st = Some (en, st1) ->
  tx (serial st1) = tx (serial st) ++ wire env st enable_array
  /\ length (buffer st1) = 32%nat /\ length (data_len st1) = 2%nat
  /\ at_ (data_len st1) 1 = at_ (data_len st) 1.
Proof.
  intros Hb Hd. rewrite enableConfig_unfold.
  destruct (getAck _ _ _ _ _ _) as [[ack st2]|] eqn:E; [|discriminate].
  simpl. intros [= _ <-]. eapply exchange_frame; eauto.
Qed.

Lemma disableConfig_frame v env fuel st dis st1 :
  length (buffer st) = 32%nat -> length (data_len st) = 2%nat ->
  disableConfig v env fuel st = Some (dis, st1) ->
  tx (serial st1) = tx (serial st) ++ wire env st disable_array
  /\ length (buffer st1) = 32%nat /\ length (data_len st1) = 2%nat
  /\ at_ (data_len st1) 1 = at_ (data_len st) 1.
Proof.
  intros Hb Hd. rewrite disableConfig_unfold.
  destruct (getAck _ _ _ _ _ _) as [[ack st2]|] eqn:E; [|discriminate].
  simpl. intros [= _ <-]. eapply exchange_frame; eauto.
Qed.

Lemma enableConfig_fuel_le v env fuel fuel' st r :
  (fuel <= fuel')%nat ->
  enableConfig v env fuel st = Some r -> enableConfig v env fuel' st = Some r.
Proof.
  intros Hle. rewrite !enableConfig_unfold.
  destruct (getAck v env fuel _ _ _) as [[ack st2]|] eqn:E; [|discriminate].
  by rewrite (getAck_fuel_le _ _ _ _ _ _ _ _ Hle E).
Qed.

Lemma disableConfig_fuel_le v env fuel fuel' st r :
  (fuel <= fuel')%nat ->
  disableConfig v env fuel st = Some r -> disableConfig v env fuel' st = Some r.
Proof.
  intros Hle. rewrite !disableConfig_unfold.
  destruct (getAck v env fuel _ _ _) as [[ack st2]|] eqn:E; [|discriminate].
  by rewrite (getAck_fuel_le _ _ _ _ _ _ _ _ Hle E).
Qed.

Lemma enableConfig_returns v env st :
  advancing v env -> exists fuel en st1, enableConfig v env fuel st = Some (en, st1).
Proof.
  intros Hadv.
  destruct (getAck_returns v env 0xFF 18 (sendCommand env enable_array st) Hadv)
    as (fuel & [ack st2] & E).
  exists fuel. rewrite enableConfig_unfold, E. simpl. eauto.
Qed.

Lemma disableConfig_returns v env st :
  advancing v env -> exists fuel dis st1, disableConfig v env fuel st = Some (dis, st1).
Proof.
  intros Hadv.
  destruct (getAck_returns v env 0xFE 18 (sendCommand env disable_array st) Hadv)
    as (fuel & [ack st2] & E).
  exists fuel. rewrite disableConfig_unfold, E. simpl. eauto.
Qed.

(** Every operation with a command of its own is the same sequence. *)
Lemma run_unfold v env fuel op data st :
  command_array op = Some data ->
  run v env fuel op st
  = '(en, st1) ← enableConfig v env fuel st;
    if negb en then Some (false, st1) else
    '(ack, st3) ← getAck v env fuel (at_ data 0) 14 (sendCommand env data st1);
    '(_, st4) ← disableConfig v env fuel st3;
    Some (ack_ok ack st3, st4).
Proof.
  destruct op; simpl; intros H; try (injection H as <-; reflexivity).
  unfold setBaudRate. rewrite H. reflexivity.
Qed.

(** The sample clock, 100 ms further at each reading, passes every deadline. *)
Lemma esp32_advancing v script : advancing v (esp32 script).
Proof.
  intros n ref. unfold elapsed. simpl clock.
  set (M := 2 ^ time_bits v).
  assert (HM : 400 < M) by (subst M; destruct v; simpl; lia).
  set (x := (100 * Z.of_nat n - ref) mod M).
  assert (Hx : 0 <= x < M) by (apply Z.mod_pos_bound; lia).
  destruct (Z_lt_le_dec x ACK_TIMEOUT) as [Hlt|Hge].
  - exists 2%nat. rewrite Zminus_mod_idemp_l.
    replace (100 * Z.of_nat (n + 2) - ref) with ((100 * Z.of_nat n - ref) + 200) by lia.
    rewrite <- Zplus_mod_idemp_l. fold x.
    unfold ACK_TIMEOUT in *. rewrite Z.mod_small; lia.
  - exists 0%nat. rewrite Nat.add_0_r, Zminus_mod_idemp_l. exact Hge.
Qed.

(** X1.  The session discipline.  For every operation of either library
    that is run inside the configuration session and answers with the success
    flag (reset, restart, entering calibration, the parameter, sensitivity
    and baud-rate setters), on a clock that passes every deadline the
    operation returns, and: when [enableConfig] fails the operation returns
    false, the enable frame being the only thing written (the operation's own
    command is not sent); when it succeeds, the operation's command is sent,
    then the disable command is sent and its acknowledgement awaited whatever
    the command's acknowledgement was, and the result is the verdict on the
    command's acknowledgement, whatever [disableConfig] returned. *)
Theorem config_session_discipline v env op data st :
  offered v op = true ->
  length (buffer st) = 32%nat ->
  length (data_len st) = 2%nat ->
  command_array op = Some data ->
  advancing v env ->
  exists fuel0, forall fuel, (fuel0 <= fuel)%nat ->
    exists en st1,
      enableConfig v env fuel st = Some (en, st1)
      /\ if en then
           exists ack st3 dis st4,
             getAck v env fuel (at_ data 0) 14 (sendCommand env data st1) = Some (ack, st3)
             /\ disableConfig v env fuel st3 = Some (dis, st4)
             /\ run v env fuel op st = Some (ack_ok ack st3, st4)
             /\ tx (serial st4)
                = tx (serial st) ++ wire env st enable_array ++ wire env st data
                  ++ wire env st disable_array
         else
           run v env fuel op st = Some (false, st1)
           /\ tx (serial st1) = tx (serial st) ++ wire env st enable_array.
Proof.
  intros _ Hb Hd Hop Hadv.
  destruct (enableConfig_returns v env st Hadv) as (f1 & en & st1 & He).
  destruct (enableConfig_frame _ _ _ _ _ _ Hb Hd He) as (Htx1 & Hb1 & Hd1 & Hl1).
  destruct en.
  - destruct (getAck_returns v env (at_ data 0) 14 (sendCommand env data st1) Hadv)
      as (f2 & [ack st3] & Hbody).
    destruct (exchange_frame _ _ _ _ _ _ _ _ _ Hb1 Hd1 Hbody) as (Htx3 & Hb3 & Hd3 & Hl3).
    destruct (disableConfig_returns v env st3 Hadv) as (f3 & dis & st4 & Hdis).
    destruct (disableConfig_frame _ _ _ _ _ _ Hb3 Hd3 Hdis) as (Htx4 & _).
    exists (f1 `max` (f2 `max` f3))%nat. intros fuel Hle.
    apply (enableConfig_fuel_le _ _ _ fuel) in He; [|lia].
    apply (getAck_fuel_le _ _ _ fuel) in Hbody; [|lia].
    apply (disableConfig_fuel_le _ _ _ fuel) in Hdis; [|lia].
    exists true, st1. split; [exact He|].
    exists ack, st3, dis, st4. repeat split; auto.
    + rewrite (run_unfold _ _ _ _ _ _ Hop), He. simpl. rewrite Hbody. simpl.
      rewrite Hdis. reflexivity.
    + rewrite Htx4, Htx3, Htx1. unfold wire. rewrite Hl3, Hl1, <- !app_assoc. reflexivity.
  - exists f1. intros fuel Hle.
    apply (enableConfig_fuel_le _ _ _ fuel) in He; [|lia].
    exists false, st1. repeat split; auto.
    rewrite (run_unfold _ _ _ _ _ _ Hop), He. reflexivity.
Qed.

Lemma config_session_discipline_witness :
  exists fuel0, forall fuel, (fuel0 <= fuel)%nat ->
    exists en st1,
      enableConfig HardwareSerialLib noisy fuel fresh = Some (en, st1)
      /\ if en then
           exists ack st3 dis st4,
             getAck HardwareSerialLib noisy fuel (at_ [0xA2; 0x00] 0) 14
               (sendCommand noisy [0xA2; 0x00] st1) = Some (ack, st3)
             /\ disableConfig HardwareSerialLib noisy fuel st3 = Some (dis, st4)
             /\ run HardwareSerialLib noisy fuel ResetDeviceSettings fresh
                = Some (ack_ok ack st3, st4)
             /\ tx (serial st4)
                = tx (serial fresh) ++ wire noisy fresh enable_array
                  ++ wire noisy fresh [0xA2; 0x00] ++ wire noisy fresh disable_array
         else
           run HardwareSerialLib noisy fuel ResetDeviceSettings fresh = Some (false, st1)
           /\ tx (serial st1) = tx (serial fresh) ++ wire noisy fresh enable_array.
Proof.
  apply (config_session_discipline HardwareSerialLib noisy ResetDeviceSettings
           [0xA2; 0x00] fresh);
    [reflexivity | reflexivity | reflexivity | reflexivity | apply esp32_advancing].
Defined.

(** The two ways through the session, run: a sensor whose reply to
    [enableConfig] is noise, and one that never replies (the stale status
    byte of the buffer then reads as success). *)
Example resetDeviceSettings_runs :
  ((fun r => (r.1, tx (serial r.2)))
     <$> resetDeviceSettings HardwareSerialLib noisy 4 fresh)
    = Some (false, wire noisy fresh enable_array)
  /\ ((fun r => (r.1, tx (serial r.2)))
     <$> resetDeviceSettings StreamLib silent 4 fresh)
    = Some (true, wire silent fresh enable_array ++ wire silent fresh [0xA2; 0x00]
                   ++ wire silent fresh disable_array).
Proof. vm_compute. auto. Qed.

(** ** setBaudRate *)

Lemma baud_case_table baud :
  baud_case baud = None <->
  ~ In baud [9600; 19200; 38400; 57600; 115200; 230400; 256000; 460800].
Proof.
  unfold baud_case. simpl.
  repeat match goal with |- context [?a =? ?b] =>
    destruct (Z.eqb_spec a b); [subst; split; [discriminate|intros H; exfalso; apply H; tauto]|]
  end.
  split; [intros _|reflexivity]. intros H. repeat destruct H as [H|H]; try congruence.
Qed.

(** X2.  A baud rate outside the table is refused with the object and the line
    as they were: nothing written, nothing read, the clock not consulted. *)
Lemma setBaudRate_rejects v env fuel baud st :
  ~ In baud [9600; 19200; 38400; 57600; 115200; 230400; 256000; 460800] ->
  setBaudRate v env fuel baud st = Some (false, st).
Proof.
  intros H. apply baud_case_table in H. unfold setBaudRate, baud_data. by rewrite H.
Qed.

Lemma setBaudRate_rejects_witness :
  ~ In 1200 [9600; 19200; 38400; 57600; 115200; 230400; 256000; 460800]
  /\ setBaudRate StreamLib silent 4 1200 fresh = Some (false, fresh).
Proof.
  assert (H : ~ In 1200 [9600; 19200; 38400; 57600; 115200; 230400; 256000; 460800]).
  { simpl. intros H. repeat (destruct H as [H|H]; [discriminate|]). exact H. }
  split; [exact H|]. exact (setBaudRate_rejects StreamLib silent 4 1200 fresh H).
Defined.

(** C8.  [setBaudRate(9600)]: the [switch] stores the table's value 0x01
    into [data[0]], over the command word 0x05, so the command frame
    written between the enable and disable frames carries 01 00 where the
    claim has command id 05 and payload 01 (the other two bytes are the ones
    past the two-byte array). *)
Theorem setBaudRate_9600_frame :
  baud_data 9600 = Some [0x01; 0x00]
  /\ ((fun r => tx (serial r.2)) <$> setBaudRate HardwareSerialLib silent 4 9600 fresh)
     = Some (wire silent fresh enable_array
             ++ [0xFD; 0xFC; 0xFB; 0xFA; 0x04; 0x00; 0x01; 0x00; 0xEE; 0xEE;
                 0x04; 0x03; 0x02; 0x01]
             ++ wire silent fresh disable_array)
  /\ ((fun r => tx (serial r.2)) <$> setBaudRate StreamLib silent 4 9600 fresh)
     = Some (wire silent fresh enable_array
             ++ [0xFD; 0xFC; 0xFB; 0xFA; 0x04; 0x00; 0x01; 0x00; 0xEE; 0xEE;
                 0x04; 0x03; 0x02; 0x01]
             ++ wire silent fresh disable_array).
Proof. vm_compute. auto. Qed.

(** ** Scalar sensitivity getters *)

Lemma gate_minimum_spec buf :
  gate_minimum buf <= 100
  /\ (forall i, 10 <= i < 24 -> gate_minimum buf <= at_ buf i)
  /\ (gate_minimum buf = 100 \/ exists i, 10 <= i < 24 /\ gate_minimum buf = at_ buf i).
Proof.
  unfold gate_minimum.
  assert (G : forall l a,
    let r := foldl (fun min n => if at_ buf (Z.of_nat n) <? min
                                 then at_ buf (Z.of_nat n) else min) a l in
    r <= a /\ (forall n, In n l -> r <= at_ buf (Z.of_nat n))
    /\ (r = a \/ exists n, In n l /\ r = at_ buf (Z.of_nat n))).
  { induction l as [|n l IH]; intros a; simpl.
    - split; [lia|]. split; [tauto|auto].
    - specialize (IH (if at_ buf (Z.of_nat n) <? a then at_ buf (Z.of_nat n) else a)).
      simpl in IH. destruct IH as (H1 & H2 & H3).
      destruct (Z.ltb_spec (at_ buf (Z.of_nat n)) a).
      + split; [lia|]. split.
        * intros m [<-|Hm]; [exact H1|auto].
        * right. destruct H3 as [->|(m & Hm & ->)]; eauto.
      + split; [exact H1|]. split.
        * intros m [<-|Hm]; [lia|auto].
        * destruct H3 as [->|(m & Hm & ->)]; eauto. }
  destruct (G (seq 10 14) 100) as (H1 & H2 & H3). split; [exact H1|]. split.
  - intros i Hi. specialize (H2 (Z.to_nat i)). rewrite Z2Nat.id in H2 by lia.
    apply H2. apply in_seq. lia.
  - destruct H3 as [H3|(n & Hn & H3)]; [by left|right].
    apply in_seq in Hn. exists (Z.of_nat n). split; [lia|exact H3].
Qed.

(** C10.  [getMotionSensitivity] (command 0x13) and [getStaticSensitivity]
    (0x14) returning [int]: on a clock that passes every deadline the getter
    returns; when [enableConfig] succeeded and the 28-byte acknowledgement
    came back non-null with status 0, the value returned is the least of 100
    and the fourteen bytes at offsets 10 to 23 of that acknowledgement: it is
    at most 100, at most each of the bytes, and is 100 or one of them; so
    100 is returned when every byte exceeds 100. *)
Theorem sensitivity_scalar_minimum v env cmd st :
  advancing v env ->
  exists fuel0, forall fuel, (fuel0 <= fuel)%nat ->
    exists en st1,
      enableConfig v env fuel st = Some (en, st1)
      /\ (en = true ->
          exists ack st3 r st4,
            getAck v env fuel cmd 28 (sendCommand env [cmd; 0x00] st1) = Some (ack, st3)
            /\ sensitivity_scalar v env fuel cmd st = Some (r, st4)
            /\ (ack_ok ack st3 = true ->
                r <= 100
                /\ (forall i, 10 <= i < 24 -> r <= at_ (buffer st3) i)
                /\ (r = 100 \/ exists i, 10 <= i < 24 /\ r = at_ (buffer st3) i)
                /\ ((forall i, 10 <= i < 24 -> 100 < at_ (buffer st3) i) -> r = 100))).
Proof.
  intros Hadv.
  destruct (enableConfig_returns v env st Hadv) as (f1 & en & st1 & He).
  destruct (getAck_returns v env cmd 28 (sendCommand env [cmd; 0x00] st1) Hadv)
    as (f2 & [ack st3] & Hbody).
  destruct (disableConfig_returns v env st3 Hadv) as (f3 & dis & st4 & Hdis).
  exists (f1 `max` (f2 `max` f3))%nat. intros fuel Hle.
  apply (enableConfig_fuel_le _ _ _ fuel) in He; [|lia].
  apply (getAck_fuel_le _ _ _ fuel) in Hbody; [|lia].
  apply (disableConfig_fuel_le _ _ _ fuel) in Hdis; [|lia].
  exists en, st1. split; [exact He|]. intros ->.
  exists ack, st3, (if ack_ok ack st3 then gate_minimum (buffer st3) else -1), st4.
  split; [exact Hbody|]. split.
  - unfold sensitivity_scalar. rewrite He. simpl.
    change (at_ [cmd; 0] 0) with cmd. rewrite Hbody. simpl.
    destruct (ack_ok ack st3); rewrite Hdis; reflexivity.
  - intros ->. destruct (gate_minimum_spec (buffer st3)) as (H1 & H2 & H3).
    repeat split; auto.
    intros Hall. destruct H3 as [H3|(i & Hi & H3)]; [exact H3|].
    specialize (Hall i Hi). lia.
Qed.

(** Run on an object whose buffer holds 200 at each of the fourteen
    offsets: 100 comes back, from either getter, in either library. *)
Example sensitivity_capped_at_100 :
  (fst <$> getMotionSensitivity HardwareSerialLib silent 4 all_200) = Some 100
  /\ (fst <$> getStaticSensitivity HardwareSerialLib silent 4 all_200) = Some 100
  /\ (fst <$> getMotionSensitivity StreamLib silent 4 all_200) = Some 100
  /\ (fst <$> getStaticSensitivity StreamLib silent 4 all_200) = Some 100.
Proof. vm_compute. auto. Qed.

(** When [enableConfig] fails the getter's [return false] gives 0, in the
    state [enableConfig] left: nothing more is written. *)
Lemma sensitivity_scalar_enable_refused v env fuel cmd st st1 :
  enableConfig v env fuel st = Some (false, st1) ->
  sensitivity_scalar v env fuel cmd st = Some (0, st1).
Proof. intros H. unfold sensitivity_scalar. by rewrite H. Qed.

(** C6.  A sensor that answers [enableConfig] with eighteen bytes of noise:
    [enableConfig] fails; [resetDeviceSettings] returns false, as every
    operation with a success flag does; [getMotionSensitivity] and
    [getStaticSensitivity] return 0, a sensitivity, where their failure value
    is -1.  Only the enable frame has been written in each case. *)
Theorem scalar_getters_enable_refused :
  (fst <$> enableConfig HardwareSerialLib noisy 4 fresh) = Some false
  /\ ((fun r => (r.1, tx (serial r.2)))
        <$> resetDeviceSettings HardwareSerialLib noisy 4 fresh)
     = Some (false, wire noisy fresh enable_array)
  /\ ((fun r => (r.1, tx (serial r.2)))
        <$> getMotionSensitivity HardwareSerialLib noisy 4 fresh)
     = Some (0, wire noisy fresh enable_array)
  /\ ((fun r => (r.1, tx (serial r.2)))
        <$> getStaticSensitivity HardwareSerialLib noisy 4 fresh)
     = Some (0, wire noisy fresh enable_array)
  /\ ((fun r => (r.1, tx (serial r.2)))
        <$> getMotionSensitivity StreamLib noisy 4 fresh)
     = Some (0, wire noisy fresh enable_array)
  /\ ((fun r => (r.1, tx (serial r.2)))
        <$> getStaticSensitivity StreamLib noisy 4 fresh)
     = Some (0, wire noisy fresh enable_array).
Proof. vm_compute. repeat split. Qed.

Lemma sensitivity_scalar_minimum_witness :
  exists fuel0, forall fuel, (fuel0 <= fuel)%nat ->
    exists en st1,
      enableConfig StreamLib silent fuel all_200 = Some (en, st1)
      /\ (en = true ->
          exists ack st3 r st4,
            getAck StreamLib silent fuel 0x13 28 (sendCommand silent [0x13; 0x00] st1)
              = Some (ack, st3)
            /\ sensitivity_scalar StreamLib silent fuel 0x13 all_200 = Some (r, st4)
            /\ (ack_ok ack st3 = true ->
                r <= 100
                /\ (forall i, 10 <= i < 24 -> r <= at_ (buffer st3) i)
                /\ (r = 100 \/ exists i, 10 <= i < 24 /\ r = at_ (buffer st3) i)
                /\ ((forall i, 10 <= i < 24 -> 100 < at_ (buffer st3) i) -> r = 100))).
Proof.
  apply (sensitivity_scalar_minimum StreamLib silent 0x13 all_200).
  apply esp32_advancing.
Defined.

(** ** readSerial with nothing to read *)

(** X12.  Called on an object that has never read a frame, with the queue
    empty and nothing arriving: the loop is not entered, the capture buffer is
    copied into [serialBuffer] as it is, and the call reports success. *)
Lemma readSerial_nothing_waiting v env fuel st :
  serialLastRead st = NULL ->
  rx (serial st) = [] ->
  arrivals env (ticks (serial st)) = [] ->
  exists st',
    readSerial v env fuel st = Some (true, st')
    /\ serialBuffer st' = copy_frame (buffer st) (serialBuffer st)
    /\ buffer st' = buffer st.
Proof.
  intros Hl Hrx Har. unfold readSerial, recently_read. rewrite Hl. simpl.
  unfold serial_available. simpl. rewrite Hrx, Har. simpl. eauto.
Qed.

Lemma readSerial_nothing_waiting_witness :
  exists st',
    readSerial HardwareSerialLib silent 4 after_exchange = Some (true, st')
    /\ serialBuffer st' = copy_frame (buffer after_exchange) (serialBuffer after_exchange)
    /\ buffer st' = buffer after_exchange.
Proof.
  apply (readSerial_nothing_waiting HardwareSerialLib silent 4 after_exchange);
    reflexivity.
Defined.

(** C7.  Accessors called before any byte has arrived, on a sensor that
    stays silent: none returns -1.  On a newly constructed object
    [targetState] returns 0 ("no target"); on an object whose capture buffer
    holds an earlier acknowledgement every accessor returns bytes of that
    acknowledgement. *)
Theorem accessors_before_any_byte :
  (fst <$> targetState HardwareSerialLib silent 4 fresh) = Some 0
  /\ (fst <$> targetState StreamLib silent 4 fresh) = Some 0
  /\ (fst <$> targetState HardwareSerialLib silent 4 after_exchange) = Some 2
  /\ (fst <$> targetState StreamLib silent 4 after_exchange) = Some 2
  /\ (fst <$> movingDistance HardwareSerialLib silent 4 after_exchange) = Some 16
  /\ (fst <$> movingDistance StreamLib silent 4 after_exchange) = Some 1024
  /\ (fst <$> movingEnergy StreamLib silent 4 after_exchange) = Some 3
  /\ (fst <$> staticDistance StreamLib silent 4 after_exchange) = Some 258
  /\ (fst <$> staticEnergy StreamLib silent 4 after_exchange) = Some 0.
Proof. vm_compute. repeat split. Qed.

(** ** Distance fields *)

Lemma distance_field_stream lo hi sb :
  distance_field StreamLib lo hi sb = at_ sb lo + at_ sb hi * 256.
Proof. unfold distance_field. by rewrite Z.shiftl_mul_pow2. Qed.

Lemma distance_field_hardware_serial lo hi sb :
  distance_field HardwareSerialLib lo hi sb = (at_ sb lo + at_ sb hi) * 4.
Proof. unfold distance_field. by rewrite Z.shiftl_mul_pow2. Qed.

(** X3.  The Stream library on a successful read: the little-endian combine of
    offsets 9, 10 and of offsets 12, 13 of the cached frame. *)
Lemma distances_stream env fuel st st1 :
  readSerial StreamLib env fuel st = Some (true, st1) ->
  movingDistance StreamLib env fuel st
    = Some (at_ (serialBuffer st1) 9 + at_ (serialBuffer st1) 10 * 256, st1)
  /\ staticDistance StreamLib env fuel st
    = Some (at_ (serialBuffer st1) 12 + at_ (serialBuffer st1) 13 * 256, st1).
Proof.
  intros H. rewrite <- !distance_field_stream.
  unfold movingDistance, staticDistance, accessor. rewrite H. split; reflexivity.
Qed.

Lemma distances_stream_witness :
  exists st1,
    readSerial StreamLib streaming 30 fresh = Some (true, st1)
    /\ movingDistance StreamLib streaming 30 fresh
       = Some (at_ (serialBuffer st1) 9 + at_ (serialBuffer st1) 10 * 256, st1)
    /\ staticDistance StreamLib streaming 30 fresh
       = Some (at_ (serialBuffer st1) 12 + at_ (serialBuffer st1) 13 * 256, st1).
Proof.
  eexists. split; [vm_compute; reflexivity|].
  apply (distances_stream streaming 30 fresh). vm_compute. reflexivity.
Defined.

(** C9.  A frame with moving distance bytes 10 01 (272 cm) and static
    distance bytes 20 02 (544 cm) is captured and read back: the
    HardwareSerial library returns (0x10 + 0x01) << 2 = 68 and
    (0x20 + 0x02) << 2 = 136; the Stream library returns 272 and 544. *)
Theorem distances_of_sample_frame :
  (fst <$> movingDistance HardwareSerialLib streaming 30 fresh) = Some 68
  /\ (fst <$> staticDistance HardwareSerialLib streaming 30 fresh) = Some 136
  /\ at_ sample_frame 9 + at_ sample_frame 10 * 256 = 272
  /\ at_ sample_frame 12 + at_ sample_frame 13 * 256 = 544
  /\ (fst <$> movingDistance StreamLib streaming 30 fresh) = Some 272
  /\ (fst <$> staticDistance StreamLib streaming 30 fresh) = Some 544.
Proof. vm_compute. repeat split. Qed.

(** ** readSerial: the capture loop *)

Lemma at_insert (buf : list Z) (i j x : Z) :
  0 <= i -> 0 <= j -> (Z.to_nat i < length buf)%nat ->
  at_ (<[Z.to_nat i := x]> buf) j = if j =? i then x else at_ buf j.
Proof.
  intros Hi Hj Hlen. unfold at_. destruct (Z.eqb_spec j i) as [->|Hne].
  - by rewrite list_lookup_total_insert_eq.
  - rewrite list_lookup_total_insert_ne; [reflexivity|lia].
Qed.

Lemma neqb_false a b : neqb a b = false <-> a = b.
Proof. unfold neqb. destruct (Z.eqb_spec a b); simpl; split; intros; congruence. Qed.

(** The alignment test at index [i] passes exactly when the bytes captured
    so far, the one just stored included, start as the header does. *)
Lemma misaligned_spec buf i :
  0 <= i -> misaligned buf i = false <-> header_prefix buf (i + 1).
Proof.
  intros Hi. unfold misaligned, header_prefix. split.
  - intros H j Hj Hj4.
    rewrite !orb_false_iff in H. destruct H as (((H0 & H1) & H2) & H3).
    apply neqb_false in H0.
    assert (j = 0 \/ j = 1 \/ j = 2 \/ j = 3) as [-> | [-> | [-> | ->]]] by lia.
    + exact H0.
    + destruct (Z.gtb_spec i 0); [|lia]. by apply neqb_false in H1.
    + destruct (Z.gtb_spec i 1); [|lia]. by apply neqb_false in H2.
    + destruct (Z.gtb_spec i 2); [|lia]. by apply neqb_false in H3.
  - intros H. rewrite !orb_false_iff. repeat split.
    + apply neqb_false. apply (H 0); lia.
    + destruct (Z.gtb_spec i 0); [|reflexivity]. apply neqb_false, (H 1); lia.
    + destruct (Z.gtb_spec i 1); [|reflexivity]. apply neqb_false, (H 2); lia.
    + destruct (Z.gtb_spec i 2); [|reflexivity]. apply neqb_false, (H 3); lia.
Qed.

Lemma footer_broken_spec buf i :
  footer_broken buf i = false <-> footer_prefix buf (i + 1).
Proof.
  unfold footer_broken, footer_prefix. split.
  - intros H j Hj Hj21.
    rewrite !orb_false_iff in H. destruct H as (((H0 & H1) & H2) & H3).
    assert (j = 17 \/ j = 18 \/ j = 19 \/ j = 20) as [-> | [-> | [-> | ->]]] by lia.
    + destruct (Z.gtb_spec i 16); [|lia]. by apply neqb_false in H0.
    + destruct (Z.gtb_spec i 17); [|lia]. by apply neqb_false in H1.
    + destruct (Z.gtb_spec i 18); [|lia]. by apply neqb_false in H2.
    + destruct (Z.gtb_spec i 19); [|lia]. by apply neqb_false in H3.
  - intros H. rewrite !orb_false_iff. repeat split.
    + destruct (Z.gtb_spec i 16); [|reflexivity]. apply neqb_false, (H 17); lia.
    + destruct (Z.gtb_spec i 17); [|reflexivity]. apply neqb_false, (H 18); lia.
    + destruct (Z.gtb_spec i 18); [|reflexivity]. apply neqb_false, (H 19); lia.
    + destruct (Z.gtb_spec i 19); [|reflexivity]. apply neqb_false, (H 20); lia.
Qed.

(** The body of the loop with the byte it reads named. *)
Lemma for_body_stored v env timeRef st i :
  exists b st1,
    serial_read st = (b, st1) /\ buffer st1 = buffer st
    /\ for_body v env timeRef st i
       = let st2 := with_buffer (<[Z.to_nat i := u8 b]> (buffer st)) st1 in
         match v with
         | HardwareSerialLib =>
             if misaligned (buffer st2) i then Next st2 0
             else if footer_broken (buffer st2) i then ReturnFalse st2
             else if elapsed v (CURRENT_TIME v env st2).1 timeRef >? ACK_TIMEOUT
                  then ReturnFalse (CURRENT_TIME v env st2).2
                  else Next (CURRENT_TIME v env st2).2 (i + 1)
         | StreamLib =>
             if footer_broken (buffer st2) (if misaligned (buffer st2) i then -1 else i)
             then ReturnFalse st2
             else if elapsed v (CURRENT_TIME v env st2).1 timeRef >? ACK_TIMEOUT
                  then ReturnFalse (CURRENT_TIME v env st2).2
                  else Next (CURRENT_TIME v env st2).2
                            ((if misaligned (buffer st2) i then -1 else i) + 1)
         end.
Proof.
  unfold for_body. destruct (serial_read st) as [b st1] eqn:E.
  exists b, st1. split; [reflexivity|]. split.
  - unfold serial_read in E. destruct (rx (serial st)); inversion E; reflexivity.
  - assert (buffer st1 = buffer st) as ->.
    { unfold serial_read in E. destruct (rx (serial st)); inversion E; reflexivity. }
    destruct v; reflexivity.
Qed.

Lemma for_loop_S v env f timeRef st i :
  for_loop v env (S f) timeRef st i
  = if i <? 21 then
      match for_body v env timeRef st i with
      | Next st' i' => for_loop v env f timeRef st' i'
      | ReturnFalse st' => Some (false, st')
      end
    else Some (true, st).
Proof. reflexivity. Qed.

(** A byte that fits its place: the loop goes on to the next index, unless
    the deadline has passed. *)
Lemma for_body_fitting v env timeRef st i b r :
  rx (serial st) = b :: r ->
  0 <= i < 21 ->
  length (buffer st) = 32%nat ->
  header_prefix (buffer st) i ->
  footer_prefix (buffer st) i ->
  fits i (u8 b) ->
  for_body v env timeRef st i
  = if elapsed v (clock env (ticks (serial st)) mod 2 ^ time_bits v) timeRef >? ACK_TIMEOUT
    then ReturnFalse (stored env st i b r true)
    else Next (stored env st i b r true) (i + 1).
Proof.
  intros Hrx Hi Hlen Hh Hf [Hfit_h Hfit_f].
  set (buf2 := <[Z.to_nat i := u8 b]> (buffer st)).
  assert (Hm : misaligned buf2 i = false).
  { apply misaligned_spec; [lia|]. intros j Hj Hj4. unfold buf2.
    rewrite at_insert by lia. destruct (Z.eqb_spec j i) as [->|Hne]; [auto|].
    apply Hh; lia. }
  assert (Hfb : footer_broken buf2 i = false).
  { apply footer_broken_spec. intros j Hj Hj21. unfold buf2.
    rewrite at_insert by lia. destruct (Z.eqb_spec j i) as [->|Hne]; [apply Hfit_f; lia|].
    apply Hf; lia. }
  unfold for_body, serial_read. rewrite Hrx. simpl buffer. fold buf2.
  destruct v; rewrite Hm, Hfb; reflexivity.
Qed.

(** A byte that does not fit one of the header's places: the index goes
    back to 0.  The HardwareSerial library does not look at the clock on this
    path; the Stream library does. *)
Lemma for_body_misfit v env timeRef st i b r :
  rx (serial st) = b :: r ->
  0 <= i < 4 ->
  length (buffer st) = 32%nat ->
  u8 b <> at_ TELEMETRY_HEADER i ->
  for_body v env timeRef st i
  = match v with
    | HardwareSerialLib => Next (stored env st i b r false) 0
    | StreamLib =>
        if elapsed v (clock env (ticks (serial st)) mod 2 ^ time_bits v) timeRef >? ACK_TIMEOUT
        then ReturnFalse (stored env st i b r true)
        else Next (stored env st i b r true) 0
    end.
Proof.
  intros Hrx Hi Hlen Hne.
  set (buf2 := <[Z.to_nat i := u8 b]> (buffer st)).
  assert (Hm : misaligned buf2 i = true).
  { destruct (misaligned buf2 i) eqn:E; [reflexivity|exfalso].
    apply misaligned_spec in E; [|lia]. apply Hne. rewrite <- (E i) by lia.
    unfold buf2. rewrite at_insert by lia. by rewrite Z.eqb_refl. }
  unfold for_body, serial_read. rewrite Hrx. simpl buffer. fold buf2.
  destruct v; rewrite Hm; reflexivity.
Qed.

(** The loop's states keep the index within 0..21 and the buffer's first
    bytes a prefix of the header (and what lies in the footer's places the
    footer's). *)
Lemma capturing_invariant v env timeRef st0 st i :
  length (buffer st0) = 32%nat ->
  capturing v env timeRef st0 st i ->
  0 <= i <= 21 /\ length (buffer st) = 32%nat
  /\ header_prefix (buffer st) i /\ footer_prefix (buffer st) i.
Proof.
  intros Hlen H. induction H as [|st i st' i' Hc IH Hi Hbody].
  - split; [lia|]. split; [exact Hlen|]. split; intros j Hj; lia.
  - destruct IH as (Hi0 & Hl & Hh & Hf).
    destruct (for_body_stored v env timeRef st i) as (b & st1 & _ & Hb1 & E).
    rewrite E in Hbody. clear E. simpl in Hbody.
    set (buf2 := <[Z.to_nat i := u8 b]> (buffer st)) in *.
    assert (Hl2 : length buf2 = 32%nat) by (unfold buf2; by rewrite length_insert).
    assert (Htriv : header_prefix buf2 0 /\ footer_prefix buf2 0)
      by (split; intros j Hj; lia).
    destruct v.
    + destruct (misaligned buf2 i) eqn:Em.
      * injection Hbody as <- <-. simpl. split; [lia|]. tauto.
      * destruct (footer_broken buf2 i) eqn:Ef; [discriminate|].
        destruct (_ >? _); [discriminate|]. injection Hbody as <- <-. simpl.
        split; [lia|]. split; [exact Hl2|]. split.
        -- apply misaligned_spec; [lia|exact Em].
        -- apply footer_broken_spec. exact Ef.
    + destruct (misaligned buf2 i) eqn:Em.
      * destruct (footer_broken buf2 (-1)); [discriminate|].
        destruct (_ >? _); [discriminate|]. injection Hbody as <- <-. simpl.
        split; [lia|]. tauto.
      * destruct (footer_broken buf2 i) eqn:Ef; [discriminate|].
        destruct (_ >? _); [discriminate|]. injection Hbody as <- <-. simpl.
        split; [lia|]. split; [exact Hl2|]. split.
        -- apply misaligned_spec; [lia|exact Em].
        -- apply footer_broken_spec. exact Ef.
Qed.

(** A run of bytes that fit their places, from index [i] up to the end of
    the frame, with the deadline not reached: the loop runs off its end having
    stored them, and has taken nothing else from the queue. *)
Lemma for_loop_accepts v env timeRef : forall bytes rest st i fuel,
  rx (serial st) = bytes ++ rest ->
  0 <= i ->
  i + Z.of_nat (length bytes) = 21 ->
  length (buffer st) = 32%nat ->
  header_prefix (buffer st) i ->
  footer_prefix (buffer st) i ->
  (forall k, (k < length bytes)%nat -> fits (i + Z.of_nat k) (u8 (nth k bytes 0))) ->
  (forall k, (k < length bytes)%nat ->
     elapsed v (clock env (ticks (serial st) + k) mod 2 ^ time_bits v) timeRef
     <= ACK_TIMEOUT) ->
  (length bytes < fuel)%nat ->
  exists st',
    for_loop v env fuel timeRef st i = Some (true, st')
    /\ st' = with_buffer (buffer st') (with_serial (serial st') st)
    /\ rx (serial st') = rest ++ arrived env (ticks (serial st)) (length bytes)
    /\ ticks (serial st') = (ticks (serial st) + length bytes)%nat
    /\ tx (serial st') = tx (serial st)
    /\ length (buffer st') = 32%nat
    /\ (forall j, 0 <= j < i -> at_ (buffer st') j = at_ (buffer st) j)
    /\ (forall k, (k < length bytes)%nat ->
          at_ (buffer st') (i + Z.of_nat k) = u8 (nth k bytes 0)).
Proof.
  induction bytes as [|b bytes IH];
    intros rest st i fuel Hrx Hi Hn Hlen Hh Hf Hfit Hclock Hfuel;
    (destruct fuel as [|f]; [simpl in Hfuel; lia|]); rewrite for_loop_S.
  - simpl in Hn. destruct (Z.ltb_spec i 21); [lia|].
    exists st. simpl. unfold arrived. simpl. rewrite app_nil_r, Nat.add_0_r.
    repeat split; auto; try (intros; lia).
    destruct st as [[? ? ?] ? ? ? ? ?]; reflexivity.
  - simpl length in *. destruct (Z.ltb_spec i 21); [|lia].
    rewrite (for_body_fitting v env timeRef st i b (bytes ++ rest)); auto; try lia.
    2:{ specialize (Hfit 0%nat). simpl in Hfit. rewrite Z.add_0_r in Hfit.
        apply Hfit. lia. }
    pose proof (Hclock 0%nat ltac:(lia)) as Hc0. rewrite Nat.add_0_r in Hc0.
    destruct (Z.gtb_spec (elapsed v (clock env (ticks (serial st)) mod 2 ^ time_bits v) timeRef)
                ACK_TIMEOUT); [lia|].
    set (st3 := stored env st i b (bytes ++ rest) true).
    assert (Hfit0 : fits i (u8 b)).
    { specialize (Hfit 0%nat). simpl in Hfit. rewrite Z.add_0_r in Hfit. apply Hfit. lia. }
    destruct (IH (rest ++ arrivals env (ticks (serial st))) st3 (i + 1) f)
      as (st' & Hrun & Hst & Hrx' & Ht' & Htx' & Hl' & Hlow & Hnew).
    + unfold st3, stored. simpl. by rewrite app_assoc.
    + lia.
    + lia.
    + unfold st3, stored. simpl. by rewrite length_insert.
    + intros j Hj Hj4. unfold st3, stored. simpl. rewrite at_insert by lia.
      destruct (Z.eqb_spec j i) as [->|Hne]; [apply Hfit0; lia|apply Hh; lia].
    + intros j Hj Hj21. unfold st3, stored. simpl. rewrite at_insert by lia.
      destruct (Z.eqb_spec j i) as [->|Hne]; [apply Hfit0; lia|apply Hf; lia].
    + intros k Hk. specialize (Hfit (S k) ltac:(lia)). simpl nth in Hfit.
      replace (i + 1 + Z.of_nat k) with (i + Z.of_nat (S k)) by lia. exact Hfit.
    + intros k Hk. specialize (Hclock (S k) ltac:(lia)).
      unfold st3, stored. simpl ticks.
      replace (S (ticks (serial st)) + k)%nat with (ticks (serial st) + S k)%nat by lia.
      exact Hclock.
    + lia.
    + exists st'. split; [exact Hrun|].
      unfold st3, stored in Hst, Hrx', Ht', Htx', Hlow, Hnew. simpl in Hst, Hrx', Ht', Htx'.
      split; [rewrite Hst at 1; reflexivity|].
      split; [rewrite Hrx', arrived_S, <- app_assoc; reflexivity|].
      split; [lia|]. split; [exact Htx'|]. split; [exact Hl'|]. split.
      * intros j Hj. rewrite Hlow by lia. simpl. rewrite at_insert by lia.
        destruct (Z.eqb_spec j i); [lia|reflexivity].
      * intros [|k] Hk.
        -- rewrite Z.add_0_r, Hlow by lia. simpl. rewrite at_insert by lia.
           by rewrite Z.eqb_refl.
        -- simpl nth. rewrite <- (Hnew k) by lia. f_equal. lia.
Qed.

(** *** What the buffer held before index 0 does not matter *)

Lemma misaligned_agree b1 b2 i :
  0 <= i -> agree (i + 1) b1 b2 -> misaligned b1 i = misaligned b2 i.
Proof.
  intros Hi [_ H]. unfold misaligned.
  rewrite (H 0) by lia.
  assert (H1 : (i >? 0) && neqb (at_ b1 1) 0xF3 = (i >? 0) && neqb (at_ b2 1) 0xF3).
  { destruct (Z.gtb_spec i 0); [|reflexivity]. by rewrite (H 1) by lia. }
  assert (H2 : (i >? 1) && neqb (at_ b1 2) 0xF2 = (i >? 1) && neqb (at_ b2 2) 0xF2).
  { destruct (Z.gtb_spec i 1); [|reflexivity]. by rewrite (H 2) by lia. }
  assert (H3 : (i >? 2) && neqb (at_ b1 3) 0xF1 = (i >? 2) && neqb (at_ b2 3) 0xF1).
  { destruct (Z.gtb_spec i 2); [|reflexivity]. by rewrite (H 3) by lia. }
  by rewrite H1, H2, H3.
Qed.

Lemma footer_broken_agree b1 b2 i i1 :
  i1 <= i -> agree (i + 1) b1 b2 -> footer_broken b1 i1 = footer_broken b2 i1.
Proof.
  intros Hi [_ H]. unfold footer_broken.
  assert (H0 : (i1 >? 16) && neqb (at_ b1 17) 0xF8 = (i1 >? 16) && neqb (at_ b2 17) 0xF8).
  { destruct (Z.gtb_spec i1 16); [|reflexivity]. by rewrite (H 17) by lia. }
  assert (H1 : (i1 >? 17) && neqb (at_ b1 18) 0xF7 = (i1 >? 17) && neqb (at_ b2 18) 0xF7).
  { destruct (Z.gtb_spec i1 17); [|reflexivity]. by rewrite (H 18) by lia. }
  assert (H2 : (i1 >? 18) && neqb (at_ b1 19) 0xF6 = (i1 >? 18) && neqb (at_ b2 19) 0xF6).
  { destruct (Z.gtb_spec i1 18); [|reflexivity]. by rewrite (H 19) by lia. }
  assert (H3 : (i1 >? 19) && neqb (at_ b1 20) 0xF5 = (i1 >? 19) && neqb (at_ b2 20) 0xF5).
  { destruct (Z.gtb_spec i1 19); [|reflexivity]. by rewrite (H 20) by lia. }
  by rewrite H0, H1, H2, H3.
Qed.

Lemma agree_insert i x b1 b2 :
  0 <= i -> (Z.to_nat i < length b1)%nat -> agree i b1 b2 ->
  agree (i + 1) (<[Z.to_nat i := x]> b1) (<[Z.to_nat i := x]> b2).
Proof.
  intros Hi Hlt [Hlen H]. split; [by rewrite !length_insert|].
  intros j Hj. rewrite !at_insert by lia.
  destruct (Z.eqb_spec j i); [reflexivity|apply H; lia].
Qed.

Lemma agree_0 b1 b2 : length b1 = length b2 -> agree 0 b1 b2.
Proof. intros H. split; [exact H|]. intros j Hj; lia. Qed.

Lemma for_body_alike v env timeRef st1 b2 i :
  agree i (buffer st1) b2 ->
  length (buffer st1) = 32%nat ->
  0 <= i < 21 ->
  match for_body v env timeRef st1 i, for_body v env timeRef (with_buffer b2 st1) i with
  | Next a i1, Next b i2 =>
      i1 = i2 /\ b = with_buffer (buffer b) a /\ agree i1 (buffer a) (buffer b)
      /\ length (buffer a) = 32%nat /\ 0 <= i1 <= 21
  | ReturnFalse a, ReturnFalse b => serial a = serial b
  | _, _ => False
  end.
Proof.
  intros Hag Hlen Hi. unfold for_body, serial_read. simpl.
  assert (Hstep : forall x,
    agree (i + 1) (<[Z.to_nat i := x]> (buffer st1)) (<[Z.to_nat i := x]> b2)
    /\ length (<[Z.to_nat i := x]> (buffer st1)) = 32%nat).
  { intros x. split; [apply agree_insert; auto; lia|by rewrite length_insert]. }
  destruct (rx (serial st1)) as [|x r]; simpl;
    match goal with |- context [<[Z.to_nat i := ?y]> b2] =>
      destruct (Hstep y) as [Hag' Hlen'];
      rewrite <- (misaligned_agree _ _ i ltac:(lia) Hag');
      set (A := <[Z.to_nat i := y]> (buffer st1)) in *;
      set (B := <[Z.to_nat i := y]> b2) in *
    end;
    (destruct v;
     [ destruct (misaligned A i);
       [ simpl; repeat split; auto; try lia; apply agree_0; apply Hag'
       | rewrite <- (footer_broken_agree A B i i ltac:(lia) Hag');
         destruct (footer_broken A i); [reflexivity|];
         simpl; destruct (_ >? _); simpl; repeat split; auto; try lia; apply Hag' ]
     | destruct (misaligned A i);
       [ rewrite <- (footer_broken_agree A B i (-1) ltac:(lia) Hag');
         destruct (footer_broken A (-1)); [reflexivity|];
         simpl; destruct (_ >? _); simpl; repeat split; auto; try lia;
         apply agree_0; apply Hag'
       | rewrite <- (footer_broken_agree A B i i ltac:(lia) Hag');
         destruct (footer_broken A i); [reflexivity|];
         simpl; destruct (_ >? _); simpl; repeat split; auto; try lia; apply Hag' ] ]).
Qed.

(** Started at index [i] on two buffers that agree below [i], the loop ends
    alike: what a buffer holds from the current index on is never read before
    it is overwritten. *)
Lemma for_loop_alike v env timeRef fuel : forall st1 b2 i,
  agree i (buffer st1) b2 ->
  length (buffer st1) = 32%nat ->
  0 <= i <= 21 ->
  same_capture (for_loop v env fuel timeRef st1 i)
               (for_loop v env fuel timeRef (with_buffer b2 st1) i).
Proof.
  induction fuel as [|f IH]; intros st1 b2 i Hag Hlen Hi; [exact I|].
  rewrite !for_loop_S. destruct (Z.ltb_spec i 21).
  - pose proof (for_body_alike v env timeRef st1 b2 i Hag Hlen ltac:(lia)) as H1.
    destruct (for_body v env timeRef st1 i) as [a i1|a],
             (for_body v env timeRef (with_buffer b2 st1) i) as [b i2|b];
      try contradiction.
    + destruct H1 as (<- & Hb & Hag1 & Hl1 & Hi1). rewrite Hb. by apply IH.
    + simpl. repeat split; auto. discriminate.
  - simpl. repeat split; auto. intros _ j Hj. apply Hag. lia.
Qed.

(** *** A broken header and a whole frame *)

Lemma copy_frame_take buf sb :
  length sb = 21%nat -> length buf = 32%nat -> copy_frame buf sb = take 21 buf.
Proof.
  intros Hsb Hbuf.
  do 21 (destruct sb as [|? sb]; [discriminate|]).
  destruct sb; [|discriminate].
  do 21 (destruct buf as [|? buf]; [discriminate|]).
  reflexivity.
Qed.

(** With F4 F3 00 F1 at the head of the queue the loop, started at index 0,
    gives up exactly when one of the readings of the clock it makes while
    taking the four bytes is past the deadline; otherwise it is at index 0
    again once they are taken, the rest of the queue untouched. *)
Lemma for_loop_broken_header v env timeRef st rest f :
  rx (serial st) = 0xF4 :: 0xF3 :: 0x00 :: 0xF1 :: rest ->
  length (buffer st) = 32%nat ->
  ((exists j, (j < readings_out_of_step v)%nat
      /\ ACK_TIMEOUT
         < elapsed v (clock env (ticks (serial st) + j) mod 2 ^ time_bits v) timeRef)
   /\ exists st_x, for_loop v env (S (S (S (S f)))) timeRef st 0 = Some (false, st_x))
  \/ ((forall j, (j < readings_out_of_step v)%nat ->
         elapsed v (clock env (ticks (serial st) + j) mod 2 ^ time_bits v) timeRef
         <= ACK_TIMEOUT)
      /\ exists st2,
        for_loop v env (S (S (S (S f)))) timeRef st 0 = for_loop v env f timeRef st2 0
        /\ capturing v env timeRef st st2 0
        /\ rx (serial st2)
           = rest ++ arrived env (ticks (serial st)) (readings_out_of_step v)
        /\ ticks (serial st2) = (ticks (serial st) + readings_out_of_step v)%nat
        /\ length (buffer st2) = 32%nat).
Proof.
  intros Hrx Hlen.
  assert (Htriv : forall b, header_prefix b 0 /\ footer_prefix b 0)
    by (intros b; split; intros j Hj; lia).
  assert (Hlate : forall j st_x,
            (j < readings_out_of_step v)%nat ->
            ACK_TIMEOUT
            < elapsed v (clock env (ticks (serial st) + j) mod 2 ^ time_bits v) timeRef ->
            (exists j, (j < readings_out_of_step v)%nat
               /\ ACK_TIMEOUT
                  < elapsed v (clock env (ticks (serial st) + j) mod 2 ^ time_bits v) timeRef)
            /\ exists st_y : LD2412, Some (false, st_x) = Some (false, st_y))
    by (intros j st_x Hj Hl; split; [exists j; auto|eauto]).
  (* F4 at index 0 *)
  assert (F1 : fits 0 (u8 0xF4)) by (split; [reflexivity|lia]).
  assert (F2 : fits 1 (u8 0xF3)) by (split; [reflexivity|lia]).
  pose proof (for_body_fitting v env timeRef st 0 0xF4 _ Hrx ltac:(lia) Hlen
                (proj1 (Htriv _)) (proj2 (Htriv _)) F1) as E1.
  rewrite for_loop_S. simpl (0 <? 21). rewrite E1.
  destruct (Z.gtb_spec
              (elapsed v (clock env (ticks (serial st)) mod 2 ^ time_bits v) timeRef)
              ACK_TIMEOUT) as [T1|T1].
  { left. apply (Hlate 0%nat); [destruct v; simpl; lia|by rewrite Nat.add_0_r]. }
  change (0 + 1) with 1 in *.
  set (st1 := stored env st 0 0xF4 (0xF3 :: 0x00 :: 0xF1 :: rest) true) in *.
  assert (C1 : capturing v env timeRef st st1 1).
    by (eapply capturing_next; [apply capturing_start|lia|exact E1]).
  destruct (capturing_invariant _ _ _ _ _ _ Hlen C1) as (_ & Hl1 & Hh1 & Hf1).
  (* F3 at index 1 *)
  pose proof (for_body_fitting v env timeRef st1 1 0xF3
                (0x00 :: 0xF1 :: rest ++ arrivals env (ticks (serial st)))
                eq_refl ltac:(lia) Hl1 Hh1 Hf1 F2) as E2.
  rewrite for_loop_S. simpl (1 <? 21). rewrite E2.
  destruct (Z.gtb_spec
              (elapsed v (clock env (ticks (serial st1)) mod 2 ^ time_bits v) timeRef)
              ACK_TIMEOUT) as [T2|T2].
  { left. apply (Hlate 1%nat); [destruct v; simpl; lia|].
    replace (ticks (serial st) + 1)%nat with (S (ticks (serial st))) by lia. exact T2. }
  change (1 + 1) with 2 in *.
  set (st2 := stored env st1 1 0xF3 _ true) in *.
  assert (C2 : capturing v env timeRef st st2 2).
    by (eapply capturing_next; [exact C1|lia|exact E2]).
  destruct (capturing_invariant _ _ _ _ _ _ Hlen C2) as (_ & Hl2 & _).
  (* 00 at index 2 *)
  pose proof (for_body_misfit v env timeRef st2 2 0x00
                (0xF1 :: (rest ++ arrivals env (ticks (serial st)))
                      ++ arrivals env (ticks (serial st1)))
                eq_refl ltac:(lia) Hl2 ltac:(discriminate)) as E3.
  rewrite for_loop_S. simpl (2 <? 21). rewrite E3.
  destruct v.
  - set (st3 := stored env st2 2 0x00 _ false) in *.
    assert (C3 : capturing HardwareSerialLib env timeRef st st3 0)
      by (eapply capturing_next; [exact C2|lia|exact E3]).
    destruct (capturing_invariant _ _ _ _ _ _ Hlen C3) as (_ & Hl3 & _).
    (* F1 at index 0 *)
    pose proof (for_body_misfit HardwareSerialLib env timeRef st3 0 0xF1 _
                  eq_refl ltac:(lia) Hl3 ltac:(discriminate)) as E4.
    rewrite for_loop_S. simpl (0 <? 21). rewrite E4. simpl in E4 |- *.
    right. split.
    { intros j Hj. simpl in Hj. destruct j as [|[|j]]; [| |lia].
      - rewrite Nat.add_0_r. exact T1.
      - replace (ticks (serial st) + 1)%nat with (S (ticks (serial st))) by lia. exact T2. }
    eexists. split; [reflexivity|]. split; [|split; [|split]].
    + eapply capturing_next; [exact C3|lia|exact E4].
    + simpl. unfold arrived. simpl. by rewrite app_nil_r, <- !app_assoc.
    + simpl. lia.
    + simpl. by rewrite length_insert.
  - destruct (Z.gtb_spec
                (elapsed StreamLib
                   (clock env (ticks (serial st2)) mod 2 ^ time_bits StreamLib) timeRef)
                ACK_TIMEOUT) as [T3|T3].
    { left. apply (Hlate 2%nat); [simpl; lia|].
      replace (ticks (serial st) + 2)%nat with (S (S (ticks (serial st)))) by lia.
      exact T3. }
    set (st3 := stored env st2 2 0x00 _ true) in *.
    assert (C3 : capturing StreamLib env timeRef st st3 0)
      by (eapply capturing_next; [exact C2|lia|exact E3]).
    destruct (capturing_invariant _ _ _ _ _ _ Hlen C3) as (_ & Hl3 & _).
    pose proof (for_body_misfit StreamLib env timeRef st3 0 0xF1 _
                  eq_refl ltac:(lia) Hl3 ltac:(discriminate)) as E4.
    rewrite for_loop_S. simpl (0 <? 21). rewrite E4.
    destruct (Z.gtb_spec
                (elapsed StreamLib
                   (clock env (ticks (serial st3)) mod 2 ^ time_bits StreamLib) timeRef)
                ACK_TIMEOUT) as [T4|T4].
    { left. apply (Hlate 3%nat); [simpl; lia|].
      replace (ticks (serial st) + 3)%nat with (S (S (S (ticks (serial st))))) by lia.
      exact T4. }
    right. split.
    { intros j Hj. simpl in Hj.
      destruct j as [|[|[|[|j]]]]; [| | | |lia].
      - rewrite Nat.add_0_r. exact T1.
      - replace (ticks (serial st) + 1)%nat with (S (ticks (serial st))) by lia. exact T2.
      - replace (ticks (serial st) + 2)%nat with (S (S (ticks (serial st)))) by lia.
        exact T3.
      - replace (ticks (serial st) + 3)%nat with (S (S (S (ticks (serial st))))) by lia.
        exact T4. }
    eexists. split; [reflexivity|]. split; [|split; [|split]].
    + eapply capturing_next; [exact C3|lia|exact E4].
    + simpl. unfold arrived. simpl. by rewrite app_nil_r, <- !app_assoc.
    + simpl. lia.
    + simpl. by rewrite length_insert.
Qed.

Lemma arrived_app env n a b :
  arrived env n (a + b) = arrived env n a ++ arrived env (n + a) b.
Proof. unfold arrived. by rewrite seq_app, map_app, concat_app. Qed.

Lemma arrived_1 env n : arrived env n 1 = arrivals env n.
Proof. unfold arrived. simpl. by rewrite app_nil_r. Qed.

Lemma take_at (m : list Z) : forall l : list Z,
  (length m <= length l)%nat ->
  (forall k, (k < length m)%nat -> at_ l (Z.of_nat k) = nth k m 0) ->
  take (length m) l = m.
Proof.
  induction m as [|x m IH]; intros l Hlen H; [reflexivity|].
  destruct l as [|y l]; [simpl in Hlen; lia|]. simpl. f_equal.
  - apply (H 0%nat). simpl. lia.
  - apply IH; [simpl in Hlen; lia|]. intros k Hk.
    specialize (H (S k) ltac:(simpl; lia)). unfold at_ in *.
    rewrite Nat2Z.id in *. exact H.
Qed.

Lemma readSerial_attempt v env fuel st st0 :
  recently_read v env st = (false, st0) ->
  readSerial v env fuel st
  = let st1 := (CURRENT_TIME v env st0).2 in
    let timeRef := to_long (CURRENT_TIME v env st0).1 in
    match (if negb (serial_available st1 =? 0) && (0 <? 21)
           then for_loop v env fuel timeRef st1 0 else Some (true, st1)) with
    | None => None
    | Some (completed, st2) =>
        if negb completed then Some (false, st2) else
        let st4 := with_serialLastRead (to_ulong (CURRENT_TIME v env st2).1)
                     (CURRENT_TIME v env st2).2 in
        Some (true, with_serialBuffer (copy_frame (buffer st4) (serialBuffer st4)) st4)
    end.
Proof.
  intros H. unfold readSerial. rewrite H. reflexivity.
Qed.

(** The debounce test does not look at the queue: on an object fed [bytes]
    it decides as on the object itself, reads the clock as often, and leaves
    [bytes] at the head of the queue. *)
Lemma recently_read_feed v env bytes st :
  exists (n : nat),
    (recently_read v env (feed bytes st)).1 = (recently_read v env st).1
    /\ rx (serial (recently_read v env (feed bytes st)).2)
       = bytes ++ arrived env (ticks (serial st)) n
    /\ ticks (serial (recently_read v env (feed bytes st)).2) = (ticks (serial st) + n)%nat
    /\ ticks (serial (recently_read v env st).2) = (ticks (serial st) + n)%nat
    /\ tx (serial (recently_read v env (feed bytes st)).2) = tx (serial st)
    /\ buffer (recently_read v env (feed bytes st)).2 = buffer st
    /\ serialBuffer (recently_read v env (feed bytes st)).2 = serialBuffer st.
Proof.
  unfold recently_read, feed. simpl. destruct (neqb (serialLastRead st) NULL).
  - exists 1%nat. simpl. rewrite arrived_1. repeat split; auto; lia.
  - exists 0%nat. simpl. unfold arrived. simpl. rewrite app_nil_r, Nat.add_0_r.
    repeat split; auto.
Qed.

(** A whole frame at the head of the queue when the capture starts (the
    debounce test passed, state [st0]), the deadline not reached while its
    21 bytes are taken: the call succeeds, [serialBuffer] is that frame, and
    the queue has lost those 21 bytes and no other. *)
Lemma readSerial_captures_frame v env fuel st st0 payload rest :
  recently_read v env st = (false, st0) ->
  length (buffer st0) = 32%nat ->
  length (serialBuffer st0) = 21%nat ->
  length payload = 13%nat ->
  rx (serial st0) = TELEMETRY_HEADER ++ payload ++ TELEMETRY_FOOTER ++ rest ->
  (forall k, (k < 21)%nat ->
     elapsed v (clock env (S (ticks (serial st0)) + k) mod 2 ^ time_bits v)
               (to_long (clock env (ticks (serial st0)) mod 2 ^ time_bits v))
     <= ACK_TIMEOUT) ->
  (21 < fuel)%nat ->
  exists st',
    readSerial v env fuel st = Some (true, st')
    /\ serialBuffer st' = TELEMETRY_HEADER ++ map u8 payload ++ TELEMETRY_FOOTER
    /\ rx (serial st') = rest ++ arrived env (ticks (serial st0)) 23
    /\ tx (serial st') = tx (serial st0).
Proof.
  intros Hrec Hlen Hsb Hpay Hrx Hclock Hfuel.
  do 13 (destruct payload as [|? payload]; [discriminate|]).
  destruct payload; [|discriminate]. clear Hpay.
  rewrite (readSerial_attempt _ _ _ _ _ Hrec). rewrite CURRENT_TIME_eq.
  cbv zeta. cbn [fst snd].
  set (timeRef := to_long (clock env (ticks (serial st0)) mod 2 ^ time_bits v)) in *.
  set (st1 := with_serial _ st0).
  assert (Hav : negb (serial_available st1 =? 0) && (0 <? 21) = true).
  { unfold serial_available, st1. simpl. rewrite Hrx. reflexivity. }
  rewrite Hav.
  match type of Hrx with _ = ?h ++ ?p ++ ?f ++ rest =>
    destruct (for_loop_accepts v env timeRef (h ++ p ++ f)
                (rest ++ arrivals env (ticks (serial st0))) st1 0 fuel)
      as (st2 & Hrun & Hst & Hrx2 & Ht2 & Htx2 & Hl2 & _ & Hnew) end.
  - unfold st1. simpl. rewrite Hrx. simpl. reflexivity.
  - lia.
  - reflexivity.
  - exact Hlen.
  - intros j Hj; lia.
  - intros j Hj; lia.
  - intros k Hk. simpl in Hk.
    do 21 (destruct k as [|k]; [split; intros; first [reflexivity|lia]|]). lia.
  - intros k Hk. simpl in Hk. apply Hclock. exact Hk.
  - simpl. lia.
  - rewrite Hrun. simpl negb. cbv iota. rewrite CURRENT_TIME_eq. cbn [fst snd].
    eexists. split; [reflexivity|]. simpl.
    assert (Hsb2 : serialBuffer st2 = serialBuffer st0) by (rewrite Hst; reflexivity).
    rewrite Hsb2, copy_frame_take by auto.
    match type of Hnew with context [nth _ ?l 0] => set (bytes := l) in * end.
    split; [|split].
    + assert (Htk : take (length (map u8 bytes)) (buffer st2) = map u8 bytes).
      { apply take_at; [simpl; lia|]. intros k Hk. rewrite length_map in Hk.
        transitivity (u8 (nth k bytes 0)); [exact (Hnew k Hk)|].
        symmetry. exact (map_nth u8 bytes 0 k). }
      exact Htk.
    + rewrite Hrx2, Ht2. unfold bytes, st1. simpl length. simpl ticks.
      change 23%nat with (1 + 21 + 1)%nat. rewrite !arrived_app, !arrived_1.
      rewrite <- !app_assoc.
      replace (ticks (serial st0) + 1)%nat with (S (ticks (serial st0))) by lia.
      replace (ticks (serial st0) + (1 + 21))%nat
        with (S (ticks (serial st0)) + 21)%nat by lia.
      reflexivity.
    + rewrite Htx2. reflexivity.
Qed.

(** C4.  A frame that reaches the queue in two parts is lost.  The sensor
    sends [sample_frame], header, thirteen bytes and footer; its first ten
    bytes are waiting when [readSerial] is called on a new object and the
    other eleven arrive after the queue has been found empty twice.
    [serial.read()] is called on the empty queue all the same: its -1 is
    stored as FF at places 10 and 11 as though it were payload, the rest of
    the frame lands two places late, place 17 does not hold F8 and the call
    returns false, sixteen of the frame's bytes taken and [serialBuffer] as
    it was.  In the Stream library the next call takes the five bytes left,
    finds no header and gives up at the deadline: no frame is completed.  The
    same 21 bytes waiting together are captured. *)
Theorem readSerial_frame_in_two_parts :
  arrived dribbling 0 13 = sample_frame
  /\ sample_frame = TELEMETRY_HEADER ++ sample_payload ++ TELEMETRY_FOOTER
  /\ (forall v,
        (fun r => (r.1, take 21 (buffer r.2), serialBuffer r.2, rx (serial r.2)))
          <$> readSerial v dribbling 30 fresh
        = Some (false,
                [0xF4; 0xF3; 0xF2; 0xF1; 0x0D; 0x00; 0x02; 0xAA; 0x03; 0x10; 0xFF; 0xFF;
                 0x01; 0x32; 0x20; 0x02; 0x28; 0x00; 0x00; 0x00; 0x00],
                replicate 21 0x00,
                [0x00; 0xF8; 0xF7; 0xF6; 0xF5]))
  /\ (fun r => (r.1, serialBuffer r.2, rx (serial r.2)))
       <$> ('(_, st1) ← readSerial StreamLib dribbling 30 fresh;
            readSerial StreamLib dribbling 300 st1)
     = Some (false, replicate 21 0x00, [])
  /\ (forall v,
        (fun r => (r.1, serialBuffer r.2, rx (serial r.2)))
          <$> readSerial v streaming 30 fresh
        = Some (true, sample_frame, [])).
Proof.
  split; [reflexivity|]. split; [reflexivity|].
  split; [intros v; destruct v; vm_compute; reflexivity|].
  split; [vm_compute; reflexivity|].
  intros v; destruct v; vm_compute; reflexivity.
Qed.

(** X20.  The capture loop of [readSerial], for an object [st] with its
    arrays at their sizes on which [readSerial] does not reuse the cached
    frame:
    - every state the loop passes through, from index 0, has its index within
      0..21 and the bytes captured so far beginning as the header does;
    - with F4 F3 00 F1 at the head of the queue, the loop gives up exactly
      when one of the readings of the clock it makes while taking the four
      bytes (two in the HardwareSerial library, four in the Stream library)
      is past the deadline; otherwise, the four bytes taken, it continues
      exactly as the loop at index 0 on what follows them, and how it then
      ends does not depend on what the buffer holds (so on none of the four
      bytes);
    - with F4 F3 F2 F1, thirteen bytes and F8 F7 F6 F5 all waiting at the head
      of the queue when the call is made and the deadline not reached,
      [readSerial] returns true with that frame in [serialBuffer], having
      taken those 21 bytes and no other. *)
Theorem readSerial_resynchronises v env timeRef st payload rest fuel :
  length (buffer st) = 32%nat ->
  length (serialBuffer st) = 21%nat ->
  (recently_read v env st).1 = false ->
  length payload = 13%nat ->
  (forall k, (k < 21)%nat ->
     let t0 := ticks (serial (recently_read v env st).2) in
     elapsed v (clock env (S t0 + k) mod 2 ^ time_bits v)
               (to_long (clock env t0 mod 2 ^ time_bits v))
     <= ACK_TIMEOUT) ->
  (21 < fuel)%nat ->
  (forall st' i, capturing v env timeRef st st' i ->
     0 <= i <= 21 /\ header_prefix (buffer st') i)
  /\ (let st_bad := feed (0xF4 :: 0xF3 :: 0x00 :: 0xF1 :: rest) st in
      ((exists j, (j < readings_out_of_step v)%nat
          /\ ACK_TIMEOUT
             < elapsed v (clock env (ticks (serial st) + j) mod 2 ^ time_bits v) timeRef)
       /\ exists st_x, for_loop v env (4 + fuel) timeRef st_bad 0 = Some (false, st_x))
      \/ ((forall j, (j < readings_out_of_step v)%nat ->
             elapsed v (clock env (ticks (serial st) + j) mod 2 ^ time_bits v) timeRef
             <= ACK_TIMEOUT)
          /\ exists st2,
            for_loop v env (4 + fuel) timeRef st_bad 0 = for_loop v env fuel timeRef st2 0
            /\ capturing v env timeRef st_bad st2 0
            /\ rx (serial st2)
               = rest ++ arrived env (ticks (serial st)) (readings_out_of_step v)
            /\ ticks (serial st2) = (ticks (serial st) + readings_out_of_step v)%nat
            /\ forall buf', length buf' = 32%nat ->
                 same_capture (for_loop v env fuel timeRef st2 0)
                              (for_loop v env fuel timeRef (with_buffer buf' st2) 0)))
  /\ (let st_good := feed (TELEMETRY_HEADER ++ payload ++ TELEMETRY_FOOTER ++ rest) st in
      exists st' n,
        readSerial v env fuel st_good = Some (true, st')
        /\ serialBuffer st' = TELEMETRY_HEADER ++ map u8 payload ++ TELEMETRY_FOOTER
        /\ rx (serial st') = rest ++ arrived env (ticks (serial st)) n).
Proof.
  intros Hlen Hsb Hrec Hpay Hclock Hfuel. split; [|split].
  - intros st' i Hc. destruct (capturing_invariant _ _ _ _ _ _ Hlen Hc) as (Hi & _ & Hh & _).
    auto.
  - intros st_bad.
    destruct (for_loop_broken_header v env timeRef st_bad rest fuel eq_refl Hlen)
      as [Hout|(Hin & st2 & Hrun & Hc & Hrx & Ht2 & Hl2)]; [left; exact Hout|right].
    split; [exact Hin|].
    exists st2. split; [exact Hrun|]. split; [exact Hc|]. split; [exact Hrx|].
    split; [exact Ht2|].
    intros buf' Hb. apply for_loop_alike; [apply agree_0; congruence|exact Hl2|lia].
  - intros st_good.
    destruct (recently_read_feed v env
                (TELEMETRY_HEADER ++ payload ++ TELEMETRY_FOOTER ++ rest) st)
      as (n & H1 & Hrx0 & Ht0 & Ht & _ & Hb0 & Hsb0).
    fold st_good in H1, Hrx0, Ht0, Hb0, Hsb0.
    destruct (recently_read v env st_good) as [b st0] eqn:E. simpl in *.
    rewrite Hrec in H1. subst b.
    destruct (readSerial_captures_frame v env fuel st_good st0 payload
                (rest ++ arrived env (ticks (serial st)) n))
      as (st' & Hr & Hs & Hrx & _); auto; try congruence.
    + rewrite Hrx0, <- !app_assoc. reflexivity.
    + intros k Hk. specialize (Hclock k Hk). rewrite Ht0, <- Ht. exact Hclock.
    + exists st', (n + 23)%nat. split; [exact Hr|]. split; [exact Hs|].
      rewrite Hrx, Ht0, arrived_app, <- app_assoc. reflexivity.
Qed.

Lemma readSerial_resynchronises_witness :
  (forall st' i, capturing HardwareSerialLib frozen 0 fresh st' i ->
     0 <= i <= 21 /\ header_prefix (buffer st') i)
  /\ (let st_bad := feed (0xF4 :: 0xF3 :: 0x00 :: 0xF1 :: [0xF4; 0x99]) fresh in
      ((exists j, (j < readings_out_of_step HardwareSerialLib)%nat
          /\ ACK_TIMEOUT
             < elapsed HardwareSerialLib
                 (clock frozen (ticks (serial fresh) + j) mod 2 ^ time_bits HardwareSerialLib) 0)
       /\ exists st_x,
            for_loop HardwareSerialLib frozen (4 + 22) 0 st_bad 0 = Some (false, st_x))
      \/ ((forall j, (j < readings_out_of_step HardwareSerialLib)%nat ->
             elapsed HardwareSerialLib
               (clock frozen (ticks (serial fresh) + j) mod 2 ^ time_bits HardwareSerialLib) 0
             <= ACK_TIMEOUT)
          /\ exists st2,
            for_loop HardwareSerialLib frozen (4 + 22) 0 st_bad 0
            = for_loop HardwareSerialLib frozen 22 0 st2 0
            /\ capturing HardwareSerialLib frozen 0 st_bad st2 0
            /\ rx (serial st2)
               = [0xF4; 0x99]
                 ++ arrived frozen (ticks (serial fresh))
                      (readings_out_of_step HardwareSerialLib)
            /\ ticks (serial st2)
               = (ticks (serial fresh) + readings_out_of_step HardwareSerialLib)%nat
            /\ forall buf', length buf' = 32%nat ->
                 same_capture (for_loop HardwareSerialLib frozen 22 0 st2 0)
                   (for_loop HardwareSerialLib frozen 22 0 (with_buffer buf' st2) 0)))
  /\ (let st_good :=
        feed (TELEMETRY_HEADER ++ sample_payload ++ TELEMETRY_FOOTER ++ [0xF4; 0x99]) fresh in
      exists st' n,
        readSerial HardwareSerialLib frozen 22 st_good = Some (true, st')
        /\ serialBuffer st'
           = TELEMETRY_HEADER ++ map u8 sample_payload ++ TELEMETRY_FOOTER
        /\ rx (serial st') = [0xF4; 0x99] ++ arrived frozen (ticks (serial fresh)) n).
Proof.
  apply (readSerial_resynchronises HardwareSerialLib frozen 0 fresh sample_payload
           [0xF4; 0x99] 22);
    [reflexivity | reflexivity | reflexivity | reflexivity
    | intros k _; vm_compute; discriminate | lia].
Defined.

(** The two feeds, run: after F4 F3 00 F1 a frame is captured only from what
    follows, and a frame fed whole is captured at once, the two bytes behind
    it left waiting.  With F4 F3 00 F1 and nothing behind it the
    HardwareSerial loop, which does not look at the clock while out of step,
    is still running when 30 units of fuel are spent. *)
Example readSerial_runs :
  ((fun r => (r.1, serialBuffer r.2, rx (serial r.2)))
     <$> readSerial StreamLib frozen 30
           (feed (0xF4 :: 0xF3 :: 0x00 :: 0xF1 :: sample_frame ++ [0xF4; 0x99]) fresh))
    = Some (true, sample_frame, [0xF4; 0x99])
  /\ ((fun r => (r.1, serialBuffer r.2, rx (serial r.2)))
     <$> readSerial HardwareSerialLib frozen 30 (feed (sample_frame ++ [0xF4; 0x99]) fresh))
    = Some (true, sample_frame, [0xF4; 0x99])
  /\ ((fun r => (r.1, serialBuffer r.2))
     <$> readSerial HardwareSerialLib frozen 30 (feed [0xF4; 0xF3; 0x00; 0xF1] fresh))
    = None.
Proof. vm_compute. auto. Qed.

(** * Further properties *)

(** ** getAck: validation *)

Lemma ack_invalid_false v env buf respData len :
  ack_invalid v env buf respData len = false ->
  forall i, 0 <= i < len -> ack_reject_or env buf respData len i = false.
Proof.
  intros H i Hi. unfold ack_invalid in H.
  destruct (ack_reject_or env buf respData len i) eqn:E; [|reflexivity].
  assert (existsb (fun n => ack_reject v env buf respData len (Z.of_nat n))
            (seq 0 (Z.to_nat len)) = true) as Ht; [|congruence].
  apply existsb_exists. exists (Z.to_nat i). split; [apply in_seq; lia|].
  rewrite Z2Nat.id by lia. destruct v; simpl; [rewrite ack_reject_same|]; exact E.
Qed.

(** X4.  What the validation lets through has the documented format: when
    no index of a capture is rejected, for an expected length of at least 8,
    bytes 0-3 are FD FC FB FA, byte 4 is [len - 12], byte 5 is 00, byte 6 the
    command word, byte 7 is 01 and the last four of the [len] bytes are
    04 03 02 01. *)
Theorem ack_valid_has_format v env buf respData len :
  8 <= len ->
  ack_invalid v env buf respData len = false ->
  ack_accept_spec buf respData len = true.
Proof.
  intros Hlen H. pose proof (ack_invalid_false v env buf respData len H) as R.
  assert (Hfoot : forall k, 0 <= k < 4 ->
            at_ buf (len - 4 + k) = at_ FRAME_FOOTER k).
  { intros k Hk. specialize (R (len - 4 + k) ltac:(lia)).
    unfold ack_reject_or in R. rewrite !orb_false_iff in R.
    destruct R as (_ & R). rewrite chained_lt_always in R by lia.
    simpl in R. apply neqb_false in R. rewrite R. unfold footer_at.
    replace (len - 4 + k - (len - 4)) with k by lia.
    destruct (Z.leb_spec 0 k); [|lia]. destruct (Z.ltb_spec k 4); [|lia]. reflexivity. }
  pose proof (R 0 ltac:(lia)) as R0. pose proof (R 1 ltac:(lia)) as R1.
  pose proof (R 2 ltac:(lia)) as R2. pose proof (R 3 ltac:(lia)) as R3.
  pose proof (R 4 ltac:(lia)) as R4. pose proof (R 5 ltac:(lia)) as R5.
  pose proof (R 6 ltac:(lia)) as R6. pose proof (R 7 ltac:(lia)) as R7.
  unfold ack_reject_or in R0, R1, R2, R3, R4, R5, R6, R7.
  rewrite !orb_false_iff in R0, R1, R2, R3, R4, R5, R6, R7.
  destruct R0 as (((((R0 & _) & _) & _) & _) & _).
  destruct R1 as (((((R1 & _) & _) & _) & _) & _).
  destruct R2 as (((((R2 & _) & _) & _) & _) & _).
  destruct R3 as (((((R3 & _) & _) & _) & _) & _).
  destruct R4 as (((((_ & R4) & _) & _) & _) & _).
  destruct R5 as (((((_ & _) & R5) & _) & _) & _).
  destruct R6 as (((((_ & _) & _) & R6) & _) & _).
  destruct R7 as (((((_ & _) & _) & _) & R7) & _).
  simpl in R0, R1, R2, R3, R4, R5, R6, R7.
  apply neqb_false in R0, R1, R2, R3, R4, R5, R6, R7.
  pose proof (Hfoot 0 ltac:(lia)) as F0. pose proof (Hfoot 1 ltac:(lia)) as F1.
  pose proof (Hfoot 2 ltac:(lia)) as F2. pose proof (Hfoot 3 ltac:(lia)) as F3.
  replace (len - 4 + 0) with (len - 4) in F0 by lia.
  replace (len - 4 + 1) with (len - 3) in F1 by lia.
  replace (len - 4 + 2) with (len - 2) in F2 by lia.
  replace (len - 4 + 3) with (len - 1) in F3 by lia.
  unfold ack_accept_spec.
  rewrite R0, R1, R2, R3, R4, R5, R6, R7, F0, F1, F2, F3.
  rewrite !Z.eqb_refl. reflexivity.
Qed.

Lemma ack_valid_has_format_witness :
  8 <= 18
  /\ ack_invalid StreamLib (laid_out cache_18 []) echo_18 0xFF 18 = false
  /\ ack_accept_spec echo_18 0xFF 18 = true.
Proof.
  assert (H : ack_invalid StreamLib (laid_out cache_18 []) echo_18 0xFF 18 = false)
    by reflexivity.
  split; [lia|]. split; [exact H|].
  apply (ack_valid_has_format StreamLib (laid_out cache_18 []) echo_18 0xFF 18);
    [lia|exact H].
Defined.

(** X5.  The two libraries reject the same captures: the six [if]
    statements of the one and the single [||] condition of the other give the
    same verdict for every buffer, command word and expected length. *)
Theorem ack_invalid_same env buf respData len :
  ack_invalid HardwareSerialLib env buf respData len
  = ack_invalid StreamLib env buf respData len.
Proof.
  unfold ack_invalid, ack_reject.
  induction (seq 0 (Z.to_nat len)) as [|n l IH]; [reflexivity|].
  simpl. by rewrite ack_reject_same, IH.
Qed.

(** ** getAck: termination and footprint *)

(** X6.  On a clock that passes every deadline [getAck] returns, and from
    some amount of fuel on always the same result. *)
Theorem getAck_terminates v env respData len st :
  advancing v env ->
  exists fuel0 r, forall fuel, (fuel0 <= fuel)%nat ->
    getAck v env fuel respData len st = Some r.
Proof.
  intros Hadv. destruct (getAck_returns v env respData len st Hadv) as (fuel0 & r & H).
  exists fuel0, r. intros fuel Hle. exact (getAck_fuel_le _ _ _ _ _ _ _ _ Hle H).
Qed.

Lemma getAck_terminates_witness :
  exists fuel0 r, forall fuel, (fuel0 <= fuel)%nat ->
    getAck HardwareSerialLib chatty fuel 0xA2 14 fresh = Some r.
Proof.
  apply (getAck_terminates HardwareSerialLib chatty 0xA2 14 fresh).
  apply esp32_advancing.
Defined.

(** X7.  What [getAck] touches.  It writes nothing to the line and leaves
    [serialBuffer], [serialLastRead], the refresh threshold and [data_len]
    alone; it takes a prefix of the bytes that were or became available off
    the queue and leaves the others waiting; [buffer] keeps its 32 places, and
    every place from the number of bytes taken onwards holds what it held
    before the call: nothing is cleared. *)
Theorem getAck_footprint v env fuel respData len st p st' :
  length (buffer st) = 32%nat ->
  getAck v env fuel respData len st = Some (p, st') ->
  exists (k : nat) (taken : list Z),
    rx (serial st) ++ arrived env (ticks (serial st)) k = taken ++ rx (serial st')
    /\ ticks (serial st') = (ticks (serial st) + k)%nat
    /\ tx (serial st') = tx (serial st)
    /\ data_len st' = data_len st
    /\ serialBuffer st' = serialBuffer st
    /\ serialLastRead st' = serialLastRead st
    /\ refresh_threshold st' = refresh_threshold st
    /\ length (buffer st') = 32%nat
    /\ forall j, Z.of_nat (length taken) <= j -> at_ (buffer st') j = at_ (buffer st) j.
Proof.
  intros Hlen H. apply getAck_unfold in H as (i & Hw & _).
  pose proof Hw as Hspec.
  apply ack_wait_spec in Hspec; [|unfold BUFFER_SIZE; lia|exact Hlen].
  destruct Hspec as (k & taken & Ht & Hrx & Hi & _ & Hl & _ & Htx & Hdl & Hsb).
  apply ack_wait_tail in Hw as (_ & Hj & Hlr & Hrt); [|lia].
  simpl in *. rewrite Z.add_0_l in Hi. subst i.
  exists (S (S k)), taken.
  split; [rewrite arrived_S, app_assoc; exact Hrx|].
  split; [lia|]. repeat split; auto.
Qed.

Lemma getAck_footprint_witness :
  exists p st',
    getAck StreamLib chatty 4 0xA2 14 fresh = Some (p, st')
    /\ exists (k : nat) (taken : list Z),
    rx (serial fresh) ++ arrived chatty (ticks (serial fresh)) k = taken ++ rx (serial st')
    /\ ticks (serial st') = (ticks (serial fresh) + k)%nat
    /\ tx (serial st') = tx (serial fresh)
    /\ data_len st' = data_len fresh
    /\ serialBuffer st' = serialBuffer fresh
    /\ serialLastRead st' = serialLastRead fresh
    /\ refresh_threshold st' = refresh_threshold fresh
    /\ length (buffer st') = 32%nat
    /\ forall j, Z.of_nat (length taken) <= j -> at_ (buffer st') j = at_ (buffer fresh) j.
Proof.
  eexists _, _. split; [vm_compute; reflexivity|].
  eapply (getAck_footprint StreamLib chatty 4 0xA2 14 fresh);
    [reflexivity | vm_compute; reflexivity].
Defined.

(** ** sendCommand: when the frame is right *)

Lemma data_bytes_whole env (data : list Z) :
  map (data_at env data) (seq 0 (length data)) = data.
Proof.
  apply list_eq. intros i. rewrite list_lookup_fmap.
  destruct (decide (i < length data)%nat) as [Hlt|Hge].
  - rewrite lookup_seq_lt by exact Hlt. simpl. unfold data_at.
    destruct (data !! i) eqn:E; [reflexivity|].
    apply lookup_ge_None in E. lia.
  - rewrite lookup_seq_ge by lia. simpl. symmetry. apply lookup_ge_None. lia.
Qed.

(** X8.  [sendCommand] writes the documented frame exactly when the array
    it is given has as many bytes as a pointer: for a command word [c] and
    following bytes [payload] with [1 + length payload = sizeof(uint8_t* )]
    (below 256) and [data_len[1]] still 0, the bytes added to the line are
    header, the two-byte little-endian length, [c], [payload], footer; the
    queue, [buffer] and [serialBuffer] are not touched. *)
Theorem sendCommand_pointer_sized env c payload st :
  length (data_len st) = 2%nat ->
  at_ (data_len st) 1 = 0x00 ->
  sizeof_ptr env = 1 + Z.of_nat (length payload) ->
  sizeof_ptr env < 256 ->
  tx (serial (sendCommand env (c :: payload) st))
    = tx (serial st) ++ buildFrame_spec c payload
  /\ rx (serial (sendCommand env (c :: payload) st)) = rx (serial st)
  /\ buffer (sendCommand env (c :: payload) st) = buffer st
  /\ serialBuffer (sendCommand env (c :: payload) st) = serialBuffer st.
Proof.
  intros Hd H1 Hp Hlt. split; [|repeat split].
  rewrite sendCommand_tx by exact Hd. f_equal.
  unfold buildFrame_spec, u8. rewrite H1, <- Hp.
  rewrite (Z.mod_small (sizeof_ptr env)) by lia.
  rewrite (Z.div_small (sizeof_ptr env)) by lia.
  unfold data_bytes. replace (Z.to_nat (sizeof_ptr env)) with (length (c :: payload))
    by (simpl; lia).
  rewrite data_bytes_whole. reflexivity.
Qed.

Lemma sendCommand_pointer_sized_witness :
  tx (serial (sendCommand silent (0xFF :: [0x00; 0x01; 0x00]) fresh))
    = tx (serial fresh) ++ buildFrame_spec 0xFF [0x00; 0x01; 0x00]
  /\ rx (serial (sendCommand silent (0xFF :: [0x00; 0x01; 0x00]) fresh)) = rx (serial fresh)
  /\ buffer (sendCommand silent (0xFF :: [0x00; 0x01; 0x00]) fresh) = buffer fresh
  /\ serialBuffer (sendCommand silent (0xFF :: [0x00; 0x01; 0x00]) fresh)
     = serialBuffer fresh.
Proof.
  apply (sendCommand_pointer_sized silent 0xFF [0x00; 0x01; 0x00] fresh);
    [reflexivity | reflexivity | reflexivity | reflexivity].
Defined.

(** ** Sensitivity setters: the two overloads *)

(** X9.  The per-gate overloads send the command word followed by the
    fourteen bytes they are given, and the one-value overloads send what the
    per-gate ones send for fourteen copies of the value: for every value the
    two entry points behave alike, on every object and line. *)
Theorem sensitivity_overloads_agree (sen : list Z) :
  length sen = 14%nat ->
  command_array (SetMotionSensitivityGates sen) = Some (0x03 :: 0x00 :: sen)
  /\ command_array (SetStaticSensitivityGates sen) = Some (0x04 :: 0x00 :: sen)
  /\ forall x, sen = replicate 14 x ->
       forall v env fuel st,
         setMotionSensitivity v env fuel x st = setMotionSensitivity_gates v env fuel sen st
         /\ setStaticSensitivity v env fuel x st = setStaticSensitivity_gates v env fuel sen st.
Proof.
  intros Hlen.
  do 14 (destruct sen as [|? sen]; [discriminate|]).
  destruct sen; [|discriminate].
  split; [reflexivity|]. split; [reflexivity|].
  intros x Hx v env fuel st. injection Hx as -> -> -> -> -> -> -> -> -> -> -> -> -> ->.
  split; reflexivity.
Qed.

Lemma sensitivity_overloads_agree_witness :
  command_array (SetMotionSensitivityGates (replicate 14 40))
    = Some (0x03 :: 0x00 :: replicate 14 40)
  /\ command_array (SetStaticSensitivityGates (replicate 14 40))
    = Some (0x04 :: 0x00 :: replicate 14 40)
  /\ forall x, replicate 14 40 = replicate 14 x ->
       forall v env fuel st,
         setMotionSensitivity v env fuel x st
         = setMotionSensitivity_gates v env fuel (replicate 14 40) st
         /\ setStaticSensitivity v env fuel x st
            = setStaticSensitivity_gates v env fuel (replicate 14 40) st.
Proof.
  apply (sensitivity_overloads_agree (replicate 14 40)). reflexivity.
Defined.

(** ** readSerial: reuse and failure *)

(** X10.  A call made within the refresh interval of the last successful
    read (1000 ms in the HardwareSerial library, [refresh_threshold] in the
    Stream library) succeeds at once: the clock is read once, no byte is
    taken from the queue, nothing is written, [buffer], [serialBuffer] and
    [serialLastRead] stay as they are, and every accessor returns its field
    of the cached frame. *)
Theorem readSerial_within_refresh v env fuel st :
  serialLastRead st <> NULL ->
  elapsed v (clock env (ticks (serial st)) mod 2 ^ time_bits v) (serialLastRead st)
    < threshold v st ->
  exists st',
    readSerial v env fuel st = Some (true, st')
    /\ ticks (serial st') = S (ticks (serial st))
    /\ rx (serial st') = rx (serial st) ++ arrivals env (ticks (serial st))
    /\ tx (serial st') = tx (serial st)
    /\ buffer st' = buffer st
    /\ serialBuffer st' = serialBuffer st
    /\ serialLastRead st' = serialLastRead st
    /\ forall field, accessor v env fuel field st = Some (field (serialBuffer st), st').
Proof.
  intros Hne Hlt.
  assert (Hr : recently_read v env st = (true, (CURRENT_TIME v env st).2)).
  { unfold recently_read.
    assert (neqb (serialLastRead st) NULL = true) as ->.
    { unfold neqb. destruct (Z.eqb_spec (serialLastRead st) NULL); [contradiction|reflexivity]. }
    rewrite CURRENT_TIME_eq.
    destruct (Z.ltb_spec (elapsed v (clock env (ticks (serial st)) mod 2 ^ time_bits v)
                            (serialLastRead st)) (threshold v st)); [reflexivity|lia]. }
  assert (Hrs : readSerial v env fuel st = Some (true, (CURRENT_TIME v env st).2)).
  { unfold readSerial. rewrite Hr. reflexivity. }
  exists (CURRENT_TIME v env st).2. split; [exact Hrs|].
  repeat split. intros field. unfold accessor. rewrite Hrs. reflexivity.
Qed.

Lemma readSerial_within_refresh_witness :
  exists st',
    readSerial StreamLib streaming 0 just_read = Some (true, st')
    /\ ticks (serial st') = S (ticks (serial just_read))
    /\ rx (serial st') = rx (serial just_read) ++ arrivals streaming (ticks (serial just_read))
    /\ tx (serial st') = tx (serial just_read)
    /\ buffer st' = buffer just_read
    /\ serialBuffer st' = serialBuffer just_read
    /\ serialLastRead st' = serialLastRead just_read
    /\ forall field,
         accessor StreamLib streaming 0 field just_read
         = Some (field (serialBuffer just_read), st').
Proof.
  apply (readSerial_within_refresh StreamLib streaming 0 just_read).
  - discriminate.
  - vm_compute. reflexivity.
Defined.

Lemma for_body_keeps v env timeRef st i :
  match for_body v env timeRef st i with
  | Next st' _ | ReturnFalse st' =>
      serialBuffer st' = serialBuffer st /\ serialLastRead st' = serialLastRead st
      /\ refresh_threshold st' = refresh_threshold st /\ data_len st' = data_len st
      /\ tx (serial st') = tx (serial st)
  end.
Proof.
  destruct (for_body_stored v env timeRef st i) as (b & st1 & Hr & _ & E).
  rewrite E. clear E.
  assert (H1 : serialBuffer st1 = serialBuffer st /\ serialLastRead st1 = serialLastRead st
               /\ refresh_threshold st1 = refresh_threshold st /\ data_len st1 = data_len st
               /\ tx (serial st1) = tx (serial st)).
  { unfold serial_read in Hr. destruct (rx (serial st)); inversion Hr; subst; simpl; auto. }
  cbv zeta.
  destruct v; repeat match goal with |- context [if ?c then _ else _] => destruct c end;
    simpl; exact H1.
Qed.

Lemma for_loop_keeps v env timeRef fuel : forall st i ok st',
  for_loop v env fuel timeRef st i = Some (ok, st') ->
  serialBuffer st' = serialBuffer st /\ serialLastRead st' = serialLastRead st
  /\ refresh_threshold st' = refresh_threshold st /\ data_len st' = data_len st
  /\ tx (serial st') = tx (serial st).
Proof.
  induction fuel as [|f IH]; intros st i ok st' H; [discriminate|].
  rewrite for_loop_S in H. destruct (i <? 21).
  - pose proof (for_body_keeps v env timeRef st i) as K.
    destruct (for_body v env timeRef st i) as [st2 i2|st2].
    + apply IH in H. destruct K as (K1 & K2 & K3 & K4 & K5).
      destruct H as (H1 & H2 & H3 & H4 & H5). repeat split; congruence.
    + inversion H; subst. exact K.
  - inversion H; subst. auto.
Qed.

Lemma recently_read_keeps v env st :
  serialBuffer (recently_read v env st).2 = serialBuffer st
  /\ serialLastRead (recently_read v env st).2 = serialLastRead st
  /\ buffer (recently_read v env st).2 = buffer st
  /\ tx (serial (recently_read v env st).2) = tx (serial st).
Proof.
  unfold recently_read. destruct (neqb _ _); simpl; auto.
Qed.

(** X11.  A failed read leaves the cache alone: whenever [readSerial] returns
    false, [serialBuffer] and [serialLastRead] are what they were before the
    call, nothing has been written to the line, and an accessor making that
    call returns -1. *)
Theorem readSerial_failure_keeps_cache v env fuel st st' :
  readSerial v env fuel st = Some (false, st') ->
  serialBuffer st' = serialBuffer st
  /\ serialLastRead st' = serialLastRead st
  /\ tx (serial st') = tx (serial st)
  /\ forall field, accessor v env fuel field st = Some (-1, st').
Proof.
  intros H.
  assert (Hacc : forall field, accessor v env fuel field st = Some (-1, st')).
  { intros field. unfold accessor. rewrite H. reflexivity. }
  revert H. unfold readSerial.
  destruct (recently_read_keeps v env st) as (K1 & K2 & _ & K4).
  destruct (recently_read v env st) as [recent st0]. simpl in K1, K2, K4.
  destruct recent; [discriminate|].
  rewrite CURRENT_TIME_eq.
  match goal with |- context [if ?c then for_loop _ _ _ ?t ?s 0 else _] =>
    destruct c; [destruct (for_loop v env fuel t s 0) as [[ok st2]|] eqn:E|] end;
    simpl; try discriminate.
  destruct ok; simpl; try discriminate. intros Heq. injection Heq as Heq. subst st2.
  apply for_loop_keeps in E. simpl in E. destruct E as (E1 & E2 & _ & _ & E5).
  repeat split; congruence.
Qed.

Lemma readSerial_failure_keeps_cache_witness :
  exists st',
    readSerial HardwareSerialLib tearing 30 (with_serialBuffer sample_frame fresh) = Some (false, st')
    /\ serialBuffer st' = serialBuffer (with_serialBuffer sample_frame fresh)
    /\ serialLastRead st' = serialLastRead (with_serialBuffer sample_frame fresh)
    /\ tx (serial st') = tx (serial (with_serialBuffer sample_frame fresh))
    /\ forall field, accessor HardwareSerialLib tearing 30 field (with_serialBuffer sample_frame fresh) = Some (-1, st').
Proof.
  eexists. split; [vm_compute; reflexivity|].
  apply (readSerial_failure_keeps_cache HardwareSerialLib tearing 30 (with_serialBuffer sample_frame fresh)).
  vm_compute. reflexivity.
Defined.

(** A byte that does not fit one of the footer's places, behind an intact
    header: the function returns false, the clock not consulted. *)
Lemma for_body_footer_misfit v env timeRef st i b r :
  rx (serial st) = b :: r ->
  17 <= i < 21 ->
  length (buffer st) = 32%nat ->
  header_prefix (buffer st) i ->
  u8 b <> at_ TELEMETRY_FOOTER (i - 17) ->
  for_body v env timeRef st i = ReturnFalse (stored env st i b r false).
Proof.
  intros Hrx Hi Hlen Hh Hne.
  set (buf2 := <[Z.to_nat i := u8 b]> (buffer st)).
  assert (Hm : misaligned buf2 i = false).
  { apply misaligned_spec; [lia|]. intros j Hj Hj4. unfold buf2.
    rewrite at_insert by lia. destruct (Z.eqb_spec j i); [lia|]. apply Hh; lia. }
  assert (Hfb : footer_broken buf2 i = true).
  { destruct (footer_broken buf2 i) eqn:E; [reflexivity|exfalso].
    apply footer_broken_spec in E. apply Hne. rewrite <- (E i) by lia.
    unfold buf2. rewrite at_insert by lia. by rewrite Z.eqb_refl. }
  unfold for_body, serial_read. rewrite Hrx. simpl buffer. fold buf2.
  destruct v; rewrite Hm, Hfb; reflexivity.
Qed.

(** A run of bytes that fit their places, the deadline not reached: the loop
    stands at the index behind them. *)
Lemma for_loop_run v env timeRef : forall bytes rest st i f,
  rx (serial st) = bytes ++ rest ->
  0 <= i ->
  i + Z.of_nat (length bytes) <= 21 ->
  length (buffer st) = 32%nat ->
  header_prefix (buffer st) i ->
  footer_prefix (buffer st) i ->
  (forall k, (k < length bytes)%nat -> fits (i + Z.of_nat k) (u8 (nth k bytes 0))) ->
  (forall k, (k < length bytes)%nat ->
     elapsed v (clock env (ticks (serial st) + k) mod 2 ^ time_bits v) timeRef
     <= ACK_TIMEOUT) ->
  exists st',
    for_loop v env (length bytes + f) timeRef st i
      = for_loop v env f timeRef st' (i + Z.of_nat (length bytes))
    /\ st' = with_buffer (buffer st') (with_serial (serial st') st)
    /\ rx (serial st') = rest ++ arrived env (ticks (serial st)) (length bytes)
    /\ ticks (serial st') = (ticks (serial st) + length bytes)%nat
    /\ length (buffer st') = 32%nat
    /\ header_prefix (buffer st') (i + Z.of_nat (length bytes))
    /\ footer_prefix (buffer st') (i + Z.of_nat (length bytes)).
Proof.
  induction bytes as [|b bytes IH];
    intros rest st i f Hrx Hi Hn Hlen Hh Hf Hfit Hclock.
  - exists st. simpl. unfold arrived. simpl.
    rewrite app_nil_r, Nat.add_0_r, Z.add_0_r. repeat split; auto.
    destruct st as [[? ? ?] ? ? ? ? ?]; reflexivity.
  - simpl length in *. change (S (length bytes) + f)%nat with (S (length bytes + f)).
    rewrite for_loop_S. destruct (Z.ltb_spec i 21); [|lia].
    assert (Hfit0 : fits i (u8 b)).
    { specialize (Hfit 0%nat). simpl in Hfit. rewrite Z.add_0_r in Hfit. apply Hfit. lia. }
    rewrite (for_body_fitting v env timeRef st i b (bytes ++ rest)); auto; try lia.
    pose proof (Hclock 0%nat ltac:(lia)) as Hc0. rewrite Nat.add_0_r in Hc0.
    destruct (Z.gtb_spec (elapsed v (clock env (ticks (serial st)) mod 2 ^ time_bits v) timeRef)
                ACK_TIMEOUT); [lia|].
    set (st3 := stored env st i b (bytes ++ rest) true).
    destruct (IH (rest ++ arrivals env (ticks (serial st))) st3 (i + 1) f)
      as (st' & Hrun & Hst & Hrx' & Ht' & Hl' & Hh' & Hf').
    + unfold st3, stored. simpl. by rewrite app_assoc.
    + lia.
    + lia.
    + unfold st3, stored. simpl. by rewrite length_insert.
    + intros j Hj Hj4. unfold st3, stored. simpl. rewrite at_insert by lia.
      destruct (Z.eqb_spec j i) as [->|Hne]; [apply Hfit0; lia|apply Hh; lia].
    + intros j Hj Hj21. unfold st3, stored. simpl. rewrite at_insert by lia.
      destruct (Z.eqb_spec j i) as [->|Hne]; [apply Hfit0; lia|apply Hf; lia].
    + intros k Hk. specialize (Hfit (S k) ltac:(lia)). simpl nth in Hfit.
      replace (i + 1 + Z.of_nat k) with (i + Z.of_nat (S k)) by lia. exact Hfit.
    + intros k Hk. specialize (Hclock (S k) ltac:(lia)).
      unfold st3, stored. simpl ticks.
      replace (S (ticks (serial st)) + k)%nat with (ticks (serial st) + S k)%nat by lia.
      exact Hclock.
    + exists st'. unfold st3, stored in Hst, Hrx', Ht'. simpl in Hst, Hrx', Ht'.
      replace (i + Z.of_nat (S (length bytes))) with (i + 1 + Z.of_nat (length bytes)) by lia.
      split; [exact Hrun|].
      split; [rewrite Hst at 1; reflexivity|].
      split; [rewrite Hrx', arrived_S, <- app_assoc; reflexivity|].
      split; [lia|]. auto.
Qed.

(** X13.  A frame whose footer is broken is given up, not resynchronised:
    with an intact header, thirteen bytes, the first [j] footer bytes and then
    a byte that is not the footer's next at the head of the queue when the
    capture starts, and the deadline not reached before that byte,
    [readSerial] returns false having taken the bytes up to and including the
    wrong one and no other; the cached frame and its time stay. *)
Theorem readSerial_broken_footer v env fuel st st0 payload (j : nat) b rest :
  recently_read v env st = (false, st0) ->
  length (buffer st0) = 32%nat ->
  length payload = 13%nat ->
  (j < 4)%nat ->
  u8 b <> at_ TELEMETRY_FOOTER (Z.of_nat j) ->
  rx (serial st0)
    = (TELEMETRY_HEADER ++ payload ++ take j TELEMETRY_FOOTER) ++ b :: rest ->
  (forall k, (k < 17 + j)%nat ->
     elapsed v (clock env (S (ticks (serial st0)) + k) mod 2 ^ time_bits v)
               (to_long (clock env (ticks (serial st0)) mod 2 ^ time_bits v))
     <= ACK_TIMEOUT) ->
  (17 + j < fuel)%nat ->
  exists st',
    readSerial v env fuel st = Some (false, st')
    /\ rx (serial st') = rest ++ arrived env (ticks (serial st0)) (18 + j)
    /\ serialBuffer st' = serialBuffer st
    /\ serialLastRead st' = serialLastRead st.
Proof.
  intros Hrec Hlen Hpay Hj Hne Hrx Hclock Hfuel.
  destruct (recently_read_keeps v env st) as (K1 & K2 & _). rewrite Hrec in K1, K2.
  simpl in K1, K2.
  do 13 (destruct payload as [|? payload]; [discriminate|]).
  destruct payload; [|discriminate]. clear Hpay.
  rewrite (readSerial_attempt _ _ _ _ _ Hrec). rewrite CURRENT_TIME_eq.
  cbv zeta. cbn [fst snd].
  set (timeRef := to_long (clock env (ticks (serial st0)) mod 2 ^ time_bits v)) in *.
  set (st1 := with_serial _ st0).
  assert (Hav : negb (serial_available st1 =? 0) && (0 <? 21) = true).
  { unfold serial_available, st1. simpl. rewrite Hrx. reflexivity. }
  rewrite Hav.
  match type of Hrx with _ = ?bytes ++ _ =>
    assert (Hlb : length bytes = (17 + j)%nat)
      by (do 4 (destruct j as [|j]; [reflexivity|]); lia);
    destruct (for_loop_run v env timeRef bytes
                ((b :: rest) ++ arrivals env (ticks (serial st0))) st1 0
                (fuel - (17 + j)))
      as (st2 & Hrun & Hst2 & Hrx2 & Ht2 & Hl2 & Hh2 & _) end.
  - unfold st1. simpl. rewrite Hrx, <- !app_assoc. reflexivity.
  - lia.
  - rewrite Hlb. lia.
  - exact Hlen.
  - intros k Hk; lia.
  - intros k Hk; lia.
  - intros k Hk. rewrite Hlb in Hk.
    do 4 (destruct j as [|j];
          [do 20 (destruct k as [|k]; [split; intros; first [reflexivity|lia]|]);
           simpl in Hk; lia|]).
    lia.
  - intros k Hk. rewrite Hlb in Hk. apply Hclock. exact Hk.
  - rewrite Hlb in Hrun, Hrx2, Ht2, Hh2.
    replace (17 + j + (fuel - (17 + j)))%nat with fuel in Hrun by lia.
    rewrite Hrun.
    destruct (fuel - (17 + j))%nat as [|f] eqn:Ef; [lia|].
    rewrite for_loop_S.
    destruct (Z.ltb_spec (0 + Z.of_nat (17 + j)) 21); [|lia].
    rewrite (for_body_footer_misfit v env timeRef st2 _ b
               (rest ++ arrivals env (ticks (serial st0))
                     ++ arrived env (ticks (serial st1)) (17 + j)));
      [| rewrite Hrx2; simpl; rewrite <- !app_assoc; reflexivity
       | lia | exact Hl2 | exact Hh2
       | replace (0 + Z.of_nat (17 + j) - 17) with (Z.of_nat j) by lia; exact Hne ].
    eexists. split; [reflexivity|].
    unfold stored. simpl. split; [|split].
    + change (18 + j)%nat with (S (17 + j)). rewrite arrived_S. reflexivity.
    + rewrite Hst2. simpl. exact K1.
    + rewrite Hst2. simpl. exact K2.
Qed.

Lemma readSerial_broken_footer_witness :
  exists st',
    readSerial StreamLib frozen 30 (feed torn_frame fresh) = Some (false, st')
    /\ rx (serial st') = [0xF5] ++ arrived frozen (ticks (serial (feed torn_frame fresh))) (18 + 2)
    /\ serialBuffer st' = serialBuffer (feed torn_frame fresh)
    /\ serialLastRead st' = serialLastRead (feed torn_frame fresh).
Proof.
  apply (readSerial_broken_footer StreamLib frozen 30 (feed torn_frame fresh)
           (feed torn_frame fresh) sample_payload 2 0x00 [0xF5]);
    [reflexivity | reflexivity | reflexivity | lia | discriminate | reflexivity
    | intros k _; vm_compute; discriminate | lia].
Defined.

(** ** readSerial: termination in the Stream library *)

Lemma for_loop_more_fuel v env timeRef fuel : forall st i r,
  for_loop v env fuel timeRef st i = Some r ->
  for_loop v env (S fuel) timeRef st i = Some r.
Proof.
  induction fuel as [|f IH]; intros st i r H; [discriminate|].
  rewrite for_loop_S in H. rewrite for_loop_S.
  destruct (i <? 21); [|exact H].
  destruct (for_body v env timeRef st i) as [st2 i2|st2]; [by apply IH|exact H].
Qed.

Lemma for_loop_fuel_le v env timeRef fuel fuel' st i r :
  (fuel <= fuel')%nat ->
  for_loop v env fuel timeRef st i = Some r ->
  for_loop v env fuel' timeRef st i = Some r.
Proof.
  induction 1; auto. intros. apply for_loop_more_fuel. auto.
Qed.

Lemma readSerial_fuel_le v env fuel fuel' st r :
  (fuel <= fuel')%nat ->
  readSerial v env fuel st = Some r ->
  readSerial v env fuel' st = Some r.
Proof.
  intros Hle. unfold readSerial.
  destruct (recently_read v env st) as [recent st0]. destruct recent; [auto|].
  destruct (CURRENT_TIME v env st0) as [now st1].
  destruct (negb (serial_available st1 =? 0) && (0 <? 21)); [|auto].
  destruct (for_loop v env fuel (to_long now) st1 0) as [r0|] eqn:E; [|discriminate].
  by rewrite (for_loop_fuel_le _ _ _ _ _ _ _ _ Hle E).
Qed.

(** In the Stream library every pass through the loop's body either returns
    or reads the clock, so the loop ends once a reading is past the
    deadline. *)
Lemma for_loop_stream_returns env timeRef k : forall st i,
  ACK_TIMEOUT < elapsed StreamLib
                  (clock env (ticks (serial st) + k) mod 2 ^ time_bits StreamLib) timeRef ->
  is_Some (for_loop StreamLib env (S k) timeRef st i).
Proof.
  induction k as [|k IH]; intros st i Hk; rewrite for_loop_S;
    (destruct (i <? 21); [|eauto]);
    destruct (for_body_stored StreamLib env timeRef st i) as (b & st1 & Hr & _ & E);
    rewrite E; clear E; cbv zeta;
    assert (Ht : ticks (serial st1) = ticks (serial st))
      by (unfold serial_read in Hr; destruct (rx (serial st)); inversion Hr; reflexivity);
    (destruct (footer_broken _ _); [eauto|]);
    rewrite CURRENT_TIME_eq; cbn [fst snd]; simpl ticks; rewrite Ht.
  - rewrite Nat.add_0_r in Hk.
    destruct (Z.gtb_spec (elapsed StreamLib
                (clock env (ticks (serial st)) mod 2 ^ time_bits StreamLib) timeRef)
                ACK_TIMEOUT); [eauto|lia].
  - destruct (_ >? _); [eauto|]. apply IH. simpl ticks. rewrite ?Ht.
    replace (S (ticks (serial st)) + k)%nat with (ticks (serial st) + S k)%nat by lia.
    exact Hk.
Qed.

Lemma esp32_overdue v script : overdue v (esp32 script).
Proof.
  intros n ref. unfold elapsed. simpl clock.
  set (M := 2 ^ time_bits v).
  assert (HM : 1000 < M) by (subst M; destruct v; simpl; lia).
  set (x := (100 * Z.of_nat n - ref) mod M).
  assert (Hx : 0 <= x < M) by (apply Z.mod_pos_bound; lia).
  destruct (Z_lt_le_dec ACK_TIMEOUT x) as [Hlt|Hge].
  - exists 0%nat. rewrite Nat.add_0_r, Zminus_mod_idemp_l. exact Hlt.
  - exists 3%nat. rewrite Zminus_mod_idemp_l.
    replace (100 * Z.of_nat (n + 3) - ref) with ((100 * Z.of_nat n - ref) + 300) by lia.
    rewrite <- Zplus_mod_idemp_l. fold x.
    unfold ACK_TIMEOUT in *. rewrite Z.mod_small; lia.
Qed.

(** X14.  In the Stream library [readSerial] always returns on a clock that
    gets past every deadline, whatever the queue holds and whatever arrives,
    and from some amount of fuel on always with the same result; so does
    every accessor. *)
Theorem readSerial_stream_terminates env st :
  overdue StreamLib env ->
  exists fuel0 r, forall fuel, (fuel0 <= fuel)%nat ->
    readSerial StreamLib env fuel st = Some r
    /\ forall field, is_Some (accessor StreamLib env fuel field st).
Proof.
  intros Hov.
  assert (H : exists fuel0 r, readSerial StreamLib env fuel0 st = Some r).
  { unfold readSerial.
    destruct (recently_read StreamLib env st) as [recent st0].
    destruct recent; [exists 0%nat; eauto|].
    destruct (CURRENT_TIME StreamLib env st0) as [now st1].
    destruct (negb (serial_available st1 =? 0) && (0 <? 21)).
    - destruct (Hov (ticks (serial st1)) (to_long now)) as [k Hk].
      destruct (for_loop_stream_returns env (to_long now) k st1 0 Hk) as [[ok st2] E].
      exists (S k). rewrite E. simpl. destruct ok; simpl.
      + destruct (CURRENT_TIME StreamLib env st2). eauto.
      + eauto.
    - exists 0%nat. simpl. destruct (CURRENT_TIME StreamLib env st1). eauto. }
  destruct H as (fuel0 & r & H). exists fuel0, r. intros fuel Hle.
  pose proof (readSerial_fuel_le _ _ _ _ _ _ Hle H) as H'. split; [exact H'|].
  intros field. unfold accessor. rewrite H'. destruct r as [ok st']. simpl.
  destruct ok; simpl; eauto.
Qed.

Lemma readSerial_stream_terminates_witness :
  exists fuel0 r, forall fuel, (fuel0 <= fuel)%nat ->
    readSerial StreamLib (esp32 [sample_frame]) fuel fresh = Some r
    /\ forall field, is_Some (accessor StreamLib (esp32 [sample_frame]) fuel field fresh).
Proof.
  apply (readSerial_stream_terminates (esp32 [sample_frame]) fresh).
  apply esp32_overdue.
Defined.

(** ** The queries: what they return and what they send *)

Lemma sendCommand_line env data st :
  rx (serial (sendCommand env data st)) = rx (serial st)
  /\ ticks (serial (sendCommand env data st)) = ticks (serial st).
Proof. split; reflexivity. Qed.

(** What one [getAck] leaves in [buffer]: the bytes it took off the queue, in
    order from place 0, and beyond them what was there before. *)
Lemma getAck_capture v env fuel respData len st p st' :
  length (buffer st) = 32%nat ->
  getAck v env fuel respData len st = Some (p, st') ->
  exists (k : nat) (taken : list Z),
    rx (serial st) ++ arrived env (ticks (serial st)) k = taken ++ rx (serial st')
    /\ (forall j, 0 <= j < Z.of_nat (length taken) -> at_ (buffer st') j = u8 (at_ taken j))
    /\ (forall j, Z.of_nat (length taken) <= j -> at_ (buffer st') j = at_ (buffer st) j).
Proof.
  intros Hlen H. apply getAck_unfold in H as (i & Hw & _).
  pose proof Hw as Hspec.
  apply ack_wait_spec in Hspec; [|unfold BUFFER_SIZE; lia|exact Hlen].
  destruct Hspec as (k & taken & Ht & Hrx & Hi & _ & Hl & Htake & _).
  apply ack_wait_tail in Hw as (_ & Hj & _); [|lia].
  simpl in *. rewrite Z.add_0_l in Hi. subst i.
  exists (S (S k)), taken.
  split; [rewrite arrived_S, app_assoc; exact Hrx|].
  split; [|exact Hj].
  intros j Hjl. unfold at_.
  rewrite Nat2Z.id in Htake.
  rewrite <- (lookup_total_take_lt (buffer st') (length taken)) by lia.
  rewrite Htake. apply (list_lookup_total_fmap u8). lia.
Qed.

Lemma disableConfig_capture v env fuel st dis st' :
  length (buffer st) = 32%nat -> length (data_len st) = 2%nat ->
  disableConfig v env fuel st = Some (dis, st') ->
  exists (k : nat) (taken : list Z),
    rx (serial st) ++ arrived env (ticks (serial st)) k = taken ++ rx (serial st')
    /\ (forall j, 0 <= j < Z.of_nat (length taken) -> at_ (buffer st') j = u8 (at_ taken j))
    /\ (forall j, Z.of_nat (length taken) <= j -> at_ (buffer st') j = at_ (buffer st) j).
Proof.
  intros Hb Hd. rewrite disableConfig_unfold.
  destruct (getAck _ _ _ _ _ _) as [[ack st2]|] eqn:E; [|discriminate].
  simpl. intros [= _ <-].
  destruct (sendCommand_frame env disable_array st Hd) as (Hbuf & _).
  apply getAck_capture in E; [|by rewrite Hbuf].
  destruct E as (k & taken & Hrx & Hin & Hout).
  destruct (sendCommand_line env disable_array st) as [Hr Ht].
  rewrite Hr, Ht in Hrx. exists k, taken.
  split; [exact Hrx|]. split; [exact Hin|].
  intros j Hj. rewrite Hout by exact Hj. by rewrite Hbuf.
Qed.

(** The three exchanges of a query on a clock that passes every deadline:
    each returns, from some amount of fuel on with the same result, and the
    three frames go out in order. *)
Lemma query_exchanges v env data len st :
  advancing v env ->
  length (buffer st) = 32%nat -> length (data_len st) = 2%nat ->
  exists fuel0 en st1 ack st3 dis st4,
    (forall fuel, (fuel0 <= fuel)%nat ->
       enableConfig v env fuel st = Some (en, st1)
       /\ getAck v env fuel (at_ data 0) len (sendCommand env data st1) = Some (ack, st3)
       /\ disableConfig v env fuel st3 = Some (dis, st4))
    /\ tx (serial st1) = tx (serial st) ++ wire env st enable_array
    /\ tx (serial st4)
       = tx (serial st) ++ wire env st enable_array ++ wire env st data
         ++ wire env st disable_array
    /\ length (buffer st3) = 32%nat /\ length (data_len st3) = 2%nat.
Proof.
  intros Hadv Hb Hd.
  destruct (enableConfig_returns v env st Hadv) as (f1 & en & st1 & He).
  destruct (enableConfig_frame _ _ _ _ _ _ Hb Hd He) as (Htx1 & Hb1 & Hd1 & Hl1).
  destruct (getAck_returns v env (at_ data 0) len (sendCommand env data st1) Hadv)
    as (f2 & [ack st3] & Hbody).
  destruct (exchange_frame _ _ _ _ _ _ _ _ _ Hb1 Hd1 Hbody) as (Htx3 & Hb3 & Hd3 & Hl3).
  destruct (disableConfig_returns v env st3 Hadv) as (f3 & dis & st4 & Hdis).
  destruct (disableConfig_frame _ _ _ _ _ _ Hb3 Hd3 Hdis) as (Htx4 & _).
  exists (f1 `max` (f2 `max` f3))%nat, en, st1, ack, st3, dis, st4.
  split; [|split; [exact Htx1|split; [|auto]]].
  - intros fuel Hle.
    apply (enableConfig_fuel_le _ _ _ fuel) in He; [|lia].
    apply (getAck_fuel_le _ _ _ fuel) in Hbody; [|lia].
    apply (disableConfig_fuel_le _ _ _ fuel) in Hdis; [|lia].
    auto.
  - rewrite Htx4, Htx3, Htx1. unfold wire. rewrite Hl3, Hl1, <- !app_assoc. reflexivity.
Qed.

(** X15.  [checkCalibrationMode] (Stream library) returns on a clock that
    passes every deadline.  When [enableConfig] is refused it returns -1
    having sent the enable frame only.  Otherwise the three frames go out in
    order, and when the query's acknowledgement is accepted the value
    returned is read from [buffer] after [disableConfig] has run: it is byte
    10 of what [disableConfig] captured whenever that exchange took more than
    ten bytes off the line, and the query's own byte 10 only when it took
    ten or fewer. *)
Theorem checkCalibrationMode_reads_after_disable env st :
  advancing StreamLib env ->
  length (buffer st) = 32%nat ->
  length (data_len st) = 2%nat ->
  exists fuel0, forall fuel, (fuel0 <= fuel)%nat ->
    exists en st1,
      enableConfig StreamLib env fuel st = Some (en, st1)
      /\ if en then
           exists ack st3 dis st4 (k : nat) (taken : list Z),
             getAck StreamLib env fuel 0x1B 16 (sendCommand env [0x1B; 0x00] st1)
               = Some (ack, st3)
             /\ disableConfig StreamLib env fuel st3 = Some (dis, st4)
             /\ rx (serial st3) ++ arrived env (ticks (serial st3)) k
                = taken ++ rx (serial st4)
             /\ checkCalibrationMode StreamLib env fuel st
                = Some (if ack_ok ack st3
                        then if 10 <? Z.of_nat (length taken)
                             then u8 (at_ taken 10) else at_ (buffer st3) 10
                        else -1, st4)
             /\ tx (serial st4)
                = tx (serial st) ++ wire env st enable_array
                  ++ wire env st [0x1B; 0x00] ++ wire env st disable_array
         else
           checkCalibrationMode StreamLib env fuel st = Some (-1, st1)
           /\ tx (serial st1) = tx (serial st) ++ wire env st enable_array.
Proof.
  intros Hadv Hb Hd.
  destruct (query_exchanges StreamLib env [0x1B; 0x00] 16 st Hadv Hb Hd)
    as (fuel0 & en & st1 & ack & st3 & dis & st4 & Hrun & Htx1 & Htx4 & Hb3 & Hd3).
  exists fuel0. intros fuel Hle. destruct (Hrun fuel Hle) as (He & Hbody & Hdis).
  exists en, st1. split; [exact He|]. destruct en.
  - destruct (disableConfig_capture _ _ _ _ _ _ Hb3 Hd3 Hdis) as (k & taken & Hrx & Hin & Hout).
    exists ack, st3, dis, st4, k, taken. repeat split; auto.
    unfold checkCalibrationMode. rewrite He. simpl. simpl in Hbody. rewrite Hbody. simpl.
    rewrite Hdis. simpl. destruct (ack_ok ack st3); [|reflexivity].
    destruct (Z.ltb_spec 10 (Z.of_nat (length taken))).
    + rewrite Hin by lia. reflexivity.
    + rewrite Hout by lia. reflexivity.
  - split; [|exact Htx1]. unfold checkCalibrationMode. rewrite He. reflexivity.
Qed.

Lemma checkCalibrationMode_reads_after_disable_witness :
  exists fuel0, forall fuel, (fuel0 <= fuel)%nat ->
    exists en st1,
      enableConfig StreamLib (answering 0x1B) fuel fresh = Some (en, st1)
      /\ if en then
           exists ack st3 dis st4 (k : nat) (taken : list Z),
             getAck StreamLib (answering 0x1B) fuel 0x1B 16
               (sendCommand (answering 0x1B) [0x1B; 0x00] st1) = Some (ack, st3)
             /\ disableConfig StreamLib (answering 0x1B) fuel st3 = Some (dis, st4)
             /\ rx (serial st3) ++ arrived (answering 0x1B) (ticks (serial st3)) k
                = taken ++ rx (serial st4)
             /\ checkCalibrationMode StreamLib (answering 0x1B) fuel fresh
                = Some (if ack_ok ack st3
                        then if 10 <? Z.of_nat (length taken)
                             then u8 (at_ taken 10) else at_ (buffer st3) 10
                        else -1, st4)
             /\ tx (serial st4)
                = tx (serial fresh) ++ wire (answering 0x1B) fresh enable_array
                  ++ wire (answering 0x1B) fresh [0x1B; 0x00]
                  ++ wire (answering 0x1B) fresh disable_array
         else
           checkCalibrationMode StreamLib (answering 0x1B) fuel fresh = Some (-1, st1)
           /\ tx (serial st1)
              = tx (serial fresh) ++ wire (answering 0x1B) fresh enable_array.
Proof.
  apply (checkCalibrationMode_reads_after_disable (answering 0x1B) fresh);
    [apply esp32_advancing | reflexivity | reflexivity].
Defined.

(** Run against a sensor that reports calibration status 01 at byte 10 and
    then acknowledges the disable command with fourteen bytes, the function
    returns 4, the first footer byte of that last acknowledgement. *)
Example checkCalibrationMode_runs :
  at_ (reply_12 0x1B) 10 = 1
  /\ fst <$> checkCalibrationMode StreamLib (answering 0x1B) 4 fresh = Some 4.
Proof. vm_compute. auto. Qed.

(** The copying loop fills the first [n] places of the array with bytes 10,
    11, ... of the buffer and leaves the others. *)
Lemma copy_fields_spec buf (n : nat) : forall dst,
  (n <= length dst)%nat ->
  copy_fields buf n dst
  = map (fun k => at_ buf (10 + Z.of_nat k)) (seq 0 n) ++ drop n dst.
Proof.
  unfold copy_fields. induction n as [|n IH]; intros dst Hn; [reflexivity|].
  rewrite seq_S, foldl_snoc, IH by lia.
  rewrite map_app. change (0 + n)%nat with n. cbn [map].
  destruct (drop n dst) as [|y rest] eqn:E.
  { apply (f_equal length) in E. rewrite length_drop in E. simpl in E. lia. }
  assert (Hrest : drop (S n) dst = rest).
  { replace (S n) with (n + 1)%nat by lia. rewrite <- drop_drop, E. reflexivity. }
  rewrite Hrest, <- app_assoc. cbn [app].
  rewrite insert_app_r_alt by (rewrite length_map, length_seq; lia).
  rewrite length_map, length_seq, Nat.sub_diag. reflexivity.
Qed.

Lemma copy_fields_whole buf (n : nat) dst :
  length dst = n ->
  copy_fields buf n dst = map (fun k => at_ buf (10 + Z.of_nat k)) (seq 0 n).
Proof.
  intros H. rewrite copy_fields_spec by lia.
  rewrite drop_ge by lia. apply app_nil_r.
Qed.

(** X16.  [getParamConfig] (either library) returns on a clock that passes
    every deadline.  When [enableConfig] is refused it returns [nullptr]
    having sent the enable frame only.  Otherwise the three frames go out in
    order; when the query's acknowledgement is accepted the pointer returned
    is the object's five-integer array, holding bytes 10 to 14 of [buffer] as
    the query's exchange left it (they are copied before [disableConfig]
    runs); when it is not accepted the function returns [nullptr] and the
    array holds what it held.  The Stream library's [sensResponse] is never
    touched. *)
Theorem getParamConfig_session v env d :
  advancing v env ->
  length (buffer (core d)) = 32%nat ->
  length (data_len (core d)) = 2%nat ->
  length (paramResponse d) = 5%nat ->
  exists fuel0, forall fuel, (fuel0 <= fuel)%nat ->
    exists en st1,
      enableConfig v env fuel (core d) = Some (en, st1)
      /\ if en then
           exists ack st3 dis st4,
             getAck v env fuel 0x12 19 (sendCommand env [0x12; 0x00] st1) = Some (ack, st3)
             /\ disableConfig v env fuel st3 = Some (dis, st4)
             /\ getParamConfig v env fuel d
                = Some (if ack_ok ack st3 then the_paramResponse else no_response,
                        {| core := st4;
                           paramResponse :=
                             if ack_ok ack st3
                             then map (at_ (buffer st3)) [10; 11; 12; 13; 14]
                             else paramResponse d;
                           sensResponse := sensResponse d |})
             /\ tx (serial st4)
                = tx (serial (core d)) ++ wire env (core d) enable_array
                  ++ wire env (core d) [0x12; 0x00] ++ wire env (core d) disable_array
         else
           getParamConfig v env fuel d
           = Some (no_response, {| core := st1; paramResponse := paramResponse d;
                                   sensResponse := sensResponse d |})
           /\ tx (serial st1) = tx (serial (core d)) ++ wire env (core d) enable_array.
Proof.
  intros Hadv Hb Hd Hp.
  destruct (query_exchanges v env [0x12; 0x00] 19 (core d) Hadv Hb Hd)
    as (fuel0 & en & st1 & ack & st3 & dis & st4 & Hrun & Htx1 & Htx4 & Hb3 & Hd3).
  exists fuel0. intros fuel Hle. destruct (Hrun fuel Hle) as (He & Hbody & Hdis).
  exists en, st1. split; [exact He|]. destruct en.
  - exists ack, st3, dis, st4. repeat split; auto.
    unfold getParamConfig. rewrite He. simpl. simpl in Hbody. rewrite Hbody. simpl.
    destruct (ack_ok ack st3); rewrite Hdis; simpl; [|reflexivity].
    rewrite (copy_fields_whole _ 5) by exact Hp. reflexivity.
  - split; [|exact Htx1]. unfold getParamConfig. rewrite He. reflexivity.
Qed.

Lemma getParamConfig_session_witness :
  exists fuel0, forall fuel, (fuel0 <= fuel)%nat ->
    exists en st1,
      enableConfig HardwareSerialLib (answering 0x12) fuel (core fresh_driver) = Some (en, st1)
      /\ if en then
           exists ack st3 dis st4,
             getAck HardwareSerialLib (answering 0x12) fuel 0x12 19
               (sendCommand (answering 0x12) [0x12; 0x00] st1) = Some (ack, st3)
             /\ disableConfig HardwareSerialLib (answering 0x12) fuel st3 = Some (dis, st4)
             /\ getParamConfig HardwareSerialLib (answering 0x12) fuel fresh_driver
                = Some (if ack_ok ack st3 then the_paramResponse else no_response,
                        {| core := st4;
                           paramResponse :=
                             if ack_ok ack st3
                             then map (at_ (buffer st3)) [10; 11; 12; 13; 14]
                             else paramResponse fresh_driver;
                           sensResponse := sensResponse fresh_driver |})
             /\ tx (serial st4)
                = tx (serial (core fresh_driver))
                  ++ wire (answering 0x12) (core fresh_driver) enable_array
                  ++ wire (answering 0x12) (core fresh_driver) [0x12; 0x00]
                  ++ wire (answering 0x12) (core fresh_driver) disable_array
         else
           getParamConfig HardwareSerialLib (answering 0x12) fuel fresh_driver
           = Some (no_response, {| core := st1; paramResponse := paramResponse fresh_driver;
                                   sensResponse := sensResponse fresh_driver |})
           /\ tx (serial st1)
              = tx (serial (core fresh_driver))
                ++ wire (answering 0x12) (core fresh_driver) enable_array.
Proof.
  apply (getParamConfig_session HardwareSerialLib (answering 0x12) fresh_driver);
    [apply esp32_advancing | reflexivity | reflexivity | reflexivity].
Defined.

(** Run against the answering sensor: the array holds the query's bytes 10
    to 14 (01 00 and three places the twelve-byte reply did not reach), not
    the disable acknowledgement's. *)
Example getParamConfig_runs :
  (fun r => (r.1, deref r.2 r.1)) <$> getParamConfig StreamLib (answering 0x12) 4 fresh_driver
  = Some (the_paramResponse, Some [1; 0; 0; 0; 0]).
Proof. vm_compute. reflexivity. Qed.

(** X17.  The getters returning the gates' sensitivities as an array (Stream
    library) return on a clock that passes every deadline.  When
    [enableConfig] is refused they return [nullptr] having sent the enable
    frame only.  Otherwise the three frames go out in order; when the query's
    acknowledgement is accepted the pointer returned is [sensResponse],
    holding bytes 10 to 23 of [buffer] as the query's exchange left it; when
    it is not, the function returns [nullptr] and [sensResponse] holds what it
    held.  [paramResponse] is never touched.  [cmd] is 0x13 for
    [getMotionSensitivity] and 0x14 for [getStaticSensitivity]. *)
Theorem sensitivity_array_session env cmd d :
  advancing StreamLib env ->
  length (buffer (core d)) = 32%nat ->
  length (data_len (core d)) = 2%nat ->
  length (sensResponse d) = 14%nat ->
  exists fuel0, forall fuel, (fuel0 <= fuel)%nat ->
    exists en st1,
      enableConfig StreamLib env fuel (core d) = Some (en, st1)
      /\ if en then
           exists ack st3 dis st4,
             getAck StreamLib env fuel cmd 28 (sendCommand env [cmd; 0x00] st1)
               = Some (ack, st3)
             /\ disableConfig StreamLib env fuel st3 = Some (dis, st4)
             /\ sensitivity_array StreamLib env fuel cmd d
                = Some (if ack_ok ack st3 then the_sensResponse else no_response,
                        {| core := st4;
                           paramResponse := paramResponse d;
                           sensResponse :=
                             if ack_ok ack st3
                             then map (at_ (buffer st3))
                                    [10; 11; 12; 13; 14; 15; 16; 17; 18; 19; 20; 21; 22; 23]
                             else sensResponse d |})
             /\ tx (serial st4)
                = tx (serial (core d)) ++ wire env (core d) enable_array
                  ++ wire env (core d) [cmd; 0x00] ++ wire env (core d) disable_array
         else
           sensitivity_array StreamLib env fuel cmd d
           = Some (no_response, {| core := st1; paramResponse := paramResponse d;
                                   sensResponse := sensResponse d |})
           /\ tx (serial st1) = tx (serial (core d)) ++ wire env (core d) enable_array.
Proof.
  intros Hadv Hb Hd Hp.
  destruct (query_exchanges StreamLib env [cmd; 0x00] 28 (core d) Hadv Hb Hd)
    as (fuel0 & en & st1 & ack & st3 & dis & st4 & Hrun & Htx1 & Htx4 & Hb3 & Hd3).
  exists fuel0. intros fuel Hle. destruct (Hrun fuel Hle) as (He & Hbody & Hdis).
  exists en, st1. split; [exact He|]. destruct en.
  - exists ack, st3, dis, st4. repeat split; auto.
    unfold sensitivity_array. rewrite He. simpl. simpl in Hbody. rewrite Hbody. simpl.
    destruct (ack_ok ack st3); rewrite Hdis; simpl; [|reflexivity].
    rewrite (copy_fields_whole _ 14) by exact Hp. reflexivity.
  - split; [|exact Htx1]. unfold sensitivity_array. rewrite He. reflexivity.
Qed.

Lemma sensitivity_array_session_witness :
  exists fuel0, forall fuel, (fuel0 <= fuel)%nat ->
    exists en st1,
      enableConfig StreamLib surveyed fuel (core fresh_driver) = Some (en, st1)
      /\ if en then
           exists ack st3 dis st4,
             getAck StreamLib surveyed fuel 0x13 28 (sendCommand surveyed [0x13; 0x00] st1)
               = Some (ack, st3)
             /\ disableConfig StreamLib surveyed fuel st3 = Some (dis, st4)
             /\ sensitivity_array StreamLib surveyed fuel 0x13 fresh_driver
                = Some (if ack_ok ack st3 then the_sensResponse else no_response,
                        {| core := st4;
                           paramResponse := paramResponse fresh_driver;
                           sensResponse :=
                             if ack_ok ack st3
                             then map (at_ (buffer st3))
                                    [10; 11; 12; 13; 14; 15; 16; 17; 18; 19; 20; 21; 22; 23]
                             else sensResponse fresh_driver |})
             /\ tx (serial st4)
                = tx (serial (core fresh_driver))
                  ++ wire surveyed (core fresh_driver) enable_array
                  ++ wire surveyed (core fresh_driver) [0x13; 0x00]
                  ++ wire surveyed (core fresh_driver) disable_array
         else
           sensitivity_array StreamLib surveyed fuel 0x13 fresh_driver
           = Some (no_response, {| core := st1; paramResponse := paramResponse fresh_driver;
                                   sensResponse := sensResponse fresh_driver |})
           /\ tx (serial st1)
              = tx (serial (core fresh_driver))
                ++ wire surveyed (core fresh_driver) enable_array.
Proof.
  apply (sensitivity_array_session surveyed 0x13 fresh_driver);
    [apply esp32_advancing | reflexivity | reflexivity | reflexivity].
Defined.

(** What a successful array query leaves behind, read off the definition. *)
Lemma sensitivity_array_success v env fuel cmd d p d' :
  length (sensResponse d) = 14%nat ->
  sensitivity_array v env fuel cmd d = Some (p, d') ->
  p <> no_response ->
  exists st1 st3,
    enableConfig v env fuel (core d) = Some (true, st1)
    /\ getAck v env fuel cmd 28 (sendCommand env [cmd; 0x00] st1) = Some (this_buffer, st3)
    /\ p = the_sensResponse
    /\ paramResponse d' = paramResponse d
    /\ sensResponse d'
       = map (at_ (buffer st3)) [10; 11; 12; 13; 14; 15; 16; 17; 18; 19; 20; 21; 22; 23].
Proof.
  intros Hp. unfold sensitivity_array.
  destruct (enableConfig v env fuel (core d)) as [[en st1]|] eqn:He; [|discriminate].
  simpl. destruct en; simpl; [|intros [= <- _] Hn; by destruct Hn].
  destruct (getAck _ _ _ _ _ _) as [[ack st3]|] eqn:Hbody; [|discriminate]. simpl.
  destruct (ack_ok ack st3) eqn:Hok;
    (destruct (disableConfig v env fuel st3) as [[dis st4]|]; [|discriminate]); simpl;
    [|intros [= <- _] Hn; by destruct Hn].
  intros [= <- <-] _. destruct ack; [discriminate|].
  exists st1, st3. repeat split; auto.
  simpl. rewrite (copy_fields_whole _ 14) by exact Hp. reflexivity.
Qed.

(** X18.  [getMotionSensitivity(true)] and [getStaticSensitivity(true)] hand
    out the same array: when a call of either succeeds and a later call of
    either succeeds too, the pointer the first call returned now shows the
    second call's values, bytes 10 to 23 of [buffer] as the second query's
    exchange left it, and no longer its own. *)
Theorem sensitivity_arrays_share_storage env env' fuel fuel' cmd cmd' d p1 d1 p2 d2 :
  length (sensResponse d) = 14%nat ->
  sensitivity_array StreamLib env fuel cmd d = Some (p1, d1) ->
  sensitivity_array StreamLib env' fuel' cmd' d1 = Some (p2, d2) ->
  p1 <> no_response ->
  p2 <> no_response ->
  exists st1 st3,
    enableConfig StreamLib env' fuel' (core d1) = Some (true, st1)
    /\ getAck StreamLib env' fuel' cmd' 28 (sendCommand env' [cmd'; 0x00] st1)
       = Some (this_buffer, st3)
    /\ p1 = p2
    /\ deref d2 p1
       = Some (map (at_ (buffer st3)) [10; 11; 12; 13; 14; 15; 16; 17; 18; 19; 20; 21; 22; 23]).
Proof.
  intros Hp H1 H2 Hn1 Hn2.
  destruct (sensitivity_array_success _ _ _ _ _ _ _ Hp H1 Hn1)
    as (st1 & st3 & _ & _ & -> & _ & Hs1).
  assert (Hp1 : length (sensResponse d1) = 14%nat) by (rewrite Hs1; reflexivity).
  destruct (sensitivity_array_success _ _ _ _ _ _ _ Hp1 H2 Hn2)
    as (st1' & st3' & He & Hbody & -> & _ & Hs2).
  exists st1', st3'. repeat split; auto. simpl. by rewrite Hs2.
Qed.

Lemma sensitivity_arrays_share_storage_witness :
  exists p1 d1 p2 d2,
    getMotionSensitivity_array StreamLib surveyed 4 fresh_driver = Some (p1, d1)
    /\ getStaticSensitivity_array StreamLib surveyed 4 d1 = Some (p2, d2)
    /\ deref d1 p1 = Some motion_gates
    /\ deref d2 p1 = Some static_gates
    /\ exists st1 st3,
         enableConfig StreamLib surveyed 4 (core d1) = Some (true, st1)
         /\ getAck StreamLib surveyed 4 0x14 28 (sendCommand surveyed [0x14; 0x00] st1)
            = Some (this_buffer, st3)
         /\ p1 = p2
         /\ deref d2 p1
            = Some (map (at_ (buffer st3))
                      [10; 11; 12; 13; 14; 15; 16; 17; 18; 19; 20; 21; 22; 23]).
Proof.
  eexists _, _, _, _.
  split; [vm_compute; reflexivity|].
  split; [vm_compute; reflexivity|].
  split; [vm_compute; reflexivity|].
  split; [vm_compute; reflexivity|].
  eapply (sensitivity_arrays_share_storage surveyed surveyed 4 4 0x13 0x14 fresh_driver);
    [reflexivity | vm_compute; reflexivity | vm_compute; reflexivity
    | discriminate | discriminate].
Defined.

(** X19.  The getters returning the least sensitivity (either library)
    return on a clock that passes every deadline.  When [enableConfig] is
    refused they return 0 having sent the enable frame only.  Otherwise the
    three frames go out in order, and the value is -1 when the query's
    acknowledgement is not accepted and otherwise the least of 100 and bytes
    10 to 23 of [buffer] as the query's exchange left it, whatever
    [disableConfig] then captured or returned. *)
Theorem sensitivity_scalar_session v env cmd st :
  advancing v env ->
  length (buffer st) = 32%nat ->
  length (data_len st) = 2%nat ->
  exists fuel0, forall fuel, (fuel0 <= fuel)%nat ->
    exists en st1,
      enableConfig v env fuel st = Some (en, st1)
      /\ if en then
           exists ack st3 dis st4,
             getAck v env fuel cmd 28 (sendCommand env [cmd; 0x00] st1) = Some (ack, st3)
             /\ disableConfig v env fuel st3 = Some (dis, st4)
             /\ sensitivity_scalar v env fuel cmd st
                = Some (if ack_ok ack st3 then gate_minimum (buffer st3) else -1, st4)
             /\ tx (serial st4)
                = tx (serial st) ++ wire env st enable_array
                  ++ wire env st [cmd; 0x00] ++ wire env st disable_array
         else
           sensitivity_scalar v env fuel cmd st = Some (0, st1)
           /\ tx (serial st1) = tx (serial st) ++ wire env st enable_array.
Proof.
  intros Hadv Hb Hd.
  destruct (query_exchanges v env [cmd; 0x00] 28 st Hadv Hb Hd)
    as (fuel0 & en & st1 & ack & st3 & dis & st4 & Hrun & Htx1 & Htx4 & Hb3 & Hd3).
  exists fuel0. intros fuel Hle. destruct (Hrun fuel Hle) as (He & Hbody & Hdis).
  exists en, st1. split; [exact He|]. destruct en.
  - exists ack, st3, dis, st4. repeat split; auto.
    unfold sensitivity_scalar. rewrite He. simpl. simpl in Hbody. rewrite Hbody. simpl.
    destruct (ack_ok ack st3); rewrite Hdis; reflexivity.
  - split; [|exact Htx1]. unfold sensitivity_scalar. rewrite He. reflexivity.
Qed.

Lemma sensitivity_scalar_session_witness :
  exists fuel0, forall fuel, (fuel0 <= fuel)%nat ->
    exists en st1,
      enableConfig HardwareSerialLib surveyed fuel fresh = Some (en, st1)
      /\ if en then
           exists ack st3 dis st4,
             getAck HardwareSerialLib surveyed fuel 0x13 28
               (sendCommand surveyed [0x13; 0x00] st1) = Some (ack, st3)
             /\ disableConfig HardwareSerialLib surveyed fuel st3 = Some (dis, st4)
             /\ sensitivity_scalar HardwareSerialLib surveyed fuel 0x13 fresh
                = Some (if ack_ok ack st3 then gate_minimum (buffer st3) else -1, st4)
             /\ tx (serial st4)
                = tx (serial fresh) ++ wire surveyed fresh enable_array
                  ++ wire surveyed fresh [0x13; 0x00] ++ wire surveyed fresh disable_array
         else
           sensitivity_scalar HardwareSerialLib surveyed fuel 0x13 fresh = Some (0, st1)
           /\ tx (serial st1) = tx (serial fresh) ++ wire surveyed fresh enable_array.
Proof.
  apply (sensitivity_scalar_session HardwareSerialLib surveyed 0x13 fresh);
    [apply esp32_advancing | reflexivity | reflexivity].
Defined.

(** Run against the surveyed sensor: the least of the motion values. *)
Example getMotionSensitivity_runs :
  fst <$> getMotionSensitivity HardwareSerialLib surveyed 4 fresh = Some 41.
Proof. vm_compute. reflexivity. Qed.
